(** * TaskMaster integration: status reconciliation, task-file
    normalisation, MCP detection and PRD-template placeholders.

    Shallow embedding of
    - [server/routes/taskmaster.js] (src/unnamed/part_004):
      [detectTaskMasterFolder], the [/detect/:projectName], [/detect-all],
      [/tasks/:projectName] and [/apply-template/:projectName] handlers,
      the [/next/:projectName] handler with its fallback, the
      [POST /prd/:projectName] handler with its file-name check, and the
      command line built by [/update-task/:projectName/:taskId];
    - [server/utils/mcp-detector.js] (src/unnamed/part_003):
      [detectTaskMasterMCPServer] and [getAllMCPServers];
    - [server/utils/taskmaster-websocket.js] (src/unnamed/part_002): the
      four broadcast functions;
    - [src/components/NextTaskBanner.jsx]: [handleSelectTemplate], the
      choice of the banner and [TaskMasterStatus];
    - [src/components/TaskIndicator.jsx]: the labels of
      [getIndicatorConfig].

    JavaScript values are modelled as parsed JSON documents plus
    [undefined]; exceptions are an explicit error result; the wall clock
    read by [new Date()] is an explicit sequence of readings. *)

From Stdlib Require Import ZArith SpecFloat String Ascii List Bool Lia.
From stdpp Require Import base list strings gmap pretty.
Import ListNotations.
Open Scope string_scope.

(** ** JavaScript values *)

Module JS.

Set Warnings "-register-all".

(** A parsed JSON document.  Numbers are IEEE-754 binary64 values, as
    [JSON.parse] produces them.  The fields of [JObj] are the object's own
    properties in [Object.keys] enumeration order.  Strings stand for
    sequences of code units; the developments below only inspect ASCII. *)
Inductive json : Type :=
| JNull
| JBool (b : bool)
| JNum (x : spec_float)
| JStr (s : string)
| JArr (xs : list json)
| JObj (fields : list (string * json)).

(** A JavaScript value read from a document: [None] is [undefined]. *)
Definition value : Type := option json.

(** A thrown exception, with the name of its constructor and the member
    whose access or call raised it. *)
Inductive exn : Type :=
| TypeError (member : string)
| SyntaxError (message : string)
| IOError (message : string).

(** [error.message]; the text of a [TypeError] depends on the engine and
    is represented by the member concerned. *)
Definition message (e : exn) : string :=
  match e with
  | TypeError m => m
  | SyntaxError m => m
  | IOError m => m
  end.

(** Result of an expression that may throw. *)
Definition Res (A : Type) : Type := exn + A.

Definition ret {A} (a : A) : Res A := inr a.
Definition throw {A} (e : exn) : Res A := inl e.
Definition bind {A B} (m : Res A) (k : A -> Res B) : Res B :=
  match m with
  | inl e => inl e
  | inr a => k a
  end.

Notation "'let*' x ':=' m 'in' k" := (bind m (fun x => k))
  (at level 10, x pattern, m at level 100, k at level 200).

(** binary64 arithmetic of JavaScript numbers. *)
Definition prec : Z := 53.
Definition emax : Z := 1024.
Definition number_of_Z (z : Z) : spec_float := binary_normalize prec emax z 0 false.
Definition number_of_N (n : N) : spec_float := number_of_Z (Z.of_N n).
Definition number_div : spec_float -> spec_float -> spec_float := SFdiv prec emax.
Definition number_mul : spec_float -> spec_float -> spec_float := SFmul prec emax.

(** ToBoolean. *)
Definition truthy_json (v : json) : bool :=
  match v with
  | JNull => false
  | JBool b => b
  | JNum (S754_zero _) => false
  | JNum S754_nan => false
  | JNum _ => true
  | JStr s => negb (String.eqb s "")
  | JArr _ => true
  | JObj _ => true
  end.

Definition truthy (v : value) : bool :=
  match v with
  | Some j => truthy_json j
  | None => false
  end.

(** The operand [a] of [a || b] when it is truthy. *)
Definition first_truthy (a : value) : option json :=
  match a with
  | Some j => if truthy_json j then Some j else None
  | None => None
  end.

(** [a || b] with a defined right operand. *)
Definition or_else (a : value) (b : json) : json :=
  match first_truthy a with
  | Some j => j
  | None => b
  end.

(** [Array.isArray]. *)
Definition isArray (v : value) : bool :=
  match v with
  | Some (JArr _) => true
  | _ => false
  end.

(** [v === s] for a string literal [s]. *)
Definition strict_eq_str (v : json) (s : string) : bool :=
  match v with
  | JStr t => String.eqb t s
  | _ => false
  end.

(** Association-list lookup, first binding wins. *)
Fixpoint assoc {A} (k : string) (l : list (string * A)) : option A :=
  match l with
  | [] => None
  | (k', v) :: rest => if String.eqb k' k then Some v else assoc k rest
  end.

(** Index keys ["0"], ["1"], ... paired with the elements. *)
Definition indexed {A} (f : A -> json) (l : list A) : list (string * json) :=
  imap (fun i x => (pretty i, f x)) l.

Definition char_str (c : ascii) : json := JStr (String c EmptyString).

(** [Object.entries]: own enumerable string-keyed properties.  Primitive
    strings expose their characters, arrays their elements; [null] has
    none here because every caller reads a member of the value first. *)
Definition Object_entries (v : json) : list (string * json) :=
  match v with
  | JObj fields => fields
  | JArr xs => indexed (fun x => x) xs
  | JStr s => indexed char_str (list_ascii_of_string s)
  | _ => []
  end.

Definition Object_keys (v : json) : list string := map fst (Object_entries v).
Definition Object_values (v : json) : list json := map snd (Object_entries v).

(** Member access [v.k] / [v[k]].  Reading a member of [null] throws; on
    every other value the own enumerable properties are consulted.  The
    program only reads the names of data members and enumerated keys, none
    of which is [length] or a member of a built-in prototype. *)
Definition get (v : json) (k : string) : Res value :=
  match v with
  | JNull => throw (TypeError k)
  | _ => ret (assoc k (Object_entries v))
  end.

(** [String.prototype.includes]. *)
Fixpoint includes (hay needle : string) : bool :=
  String.prefix needle hay ||
  match hay with
  | EmptyString => false
  | String _ rest => includes rest needle
  end.

(** An evaluation either completes, throws, or leaves the fragment of
    JavaScript modelled here (printing of numbers and objects as property
    keys, members inherited from [Object.prototype], the syntax of regular
    expressions beyond a plain character class). *)
Inductive outcome (A : Type) : Type :=
| Done (a : A)
| Throws (e : exn)
| Unmodelled.
Arguments Done {A} a.
Arguments Throws {A} e.
Arguments Unmodelled {A}.

Definition obind {A B} (m : outcome A) (k : A -> outcome B) : outcome B :=
  match m with
  | Done a => k a
  | Throws e => Throws e
  | Unmodelled => Unmodelled
  end.

Definition of_res {A} (r : Res A) : outcome A :=
  match r with
  | inr a => Done a
  | inl e => Throws e
  end.

Notation "'run*' x ':=' m 'in' k" := (obind m (fun x => k))
  (at level 10, x pattern, m at level 100, k at level 200).

End JS.
Export JS.

(** ** The wall clock *)

Module Clock.

(** [new Date().toISOString()] is modelled by a sequence of readings: the
    [n]-th evaluation in a request returns [clk n].  A clocked computation
    threads the number of readings taken so far and may throw. *)
Definition Clock : Type := nat -> string.

Definition M (A : Type) : Type := Clock -> nat -> Res (A * nat).

Definition cret {A} (a : A) : M A := fun _ n => inr (a, n).
Definition cbind {A B} (m : M A) (k : A -> M B) : M B :=
  fun clk n =>
    match m clk n with
    | inl e => inl e
    | inr (a, n') => k a clk n'
    end.
Definition lift {A} (r : Res A) : M A :=
  fun _ n =>
    match r with
    | inl e => inl e
    | inr a => inr (a, n)
    end.

(** [new Date().toISOString()] *)
Definition now : M json := fun clk n => inr (JStr (clk n), S n).

Notation "'do*' x ':=' m 'in' k" := (cbind m (fun x => k))
  (at level 10, x pattern, m at level 100, k at level 200).

(** [Array.prototype.map] with a clocked, throwing callback. *)
Fixpoint Array_map {A B} (f : A -> M B) (l : list A) : M (list B) :=
  match l with
  | [] => cret []
  | x :: rest =>
      do* y := f x in
      do* ys := Array_map f rest in
      cret (y :: ys)
  end.

End Clock.
Export Clock.

(** ** GET /api/taskmaster/tasks/:projectName: the task-list normaliser *)

Module Tasks.

(** One element of [transformedTasks].  [task_id] is [task.id], which may
    be [undefined]; every other field has a default and is always defined. *)
Record Task : Type := {
  task_id : value;
  title : json;
  description : json;
  status : json;
  priority : json;
  dependencies : json;
  createdAt : json;
  updatedAt : json;
  details : json;
  testStrategy : json;
  subtasks : json
}.

(** [a && a.tasks], used as a condition: its truthiness. *)
Definition has_truthy_tasks (a : value) : Res bool :=
  match a with
  | Some j =>
      if truthy_json j
      then let* t := get j "tasks" in ret (truthy t)
      else ret false
  | None => ret false
  end.

(** [Object.keys(tasksData).find(key =>
       tasksData[key].tasks && Array.isArray(tasksData[key].tasks))].
    [tasksData[key]] is defined for each enumerated key; were it
    [undefined], reading [.tasks] would throw like it does on [null]. *)
Fixpoint find_first_tag (tasksData : json) (keys : list string) : Res (option string) :=
  match keys with
  | [] => ret None
  | key :: rest =>
      let* tag := get tasksData key in
      match tag with
      | None => throw (TypeError "tasks")
      | Some tagData =>
          let* t := get tagData "tasks" in
          if truthy t && isArray t then ret (Some key) else find_first_tag tasksData rest
      end
  end.

(** [firstTag] used as a condition: the empty key is falsy. *)
Definition truthy_key (k : option string) : bool :=
  match k with
  | Some s => negb (String.eqb s "")
  | None => false
  end.

(** The value bound to [tasks] when it is read from member [tasks] of a
    value already known to be defined. *)
Definition tasks_of (a : value) : Res value :=
  match a with
  | Some j => get j "tasks"
  | None => throw (TypeError "tasks")
  end.

(** Lines 612-638: the value bound to [tasks] and the final [currentTag].
    [tasks] starts as the empty array and [currentTag] as ['master']. *)
Definition resolve (tasksData : json) : Res (value * string) :=
  let currentTag := "master" in
  match tasksData with
  | JArr _ => ret (Some tasksData, currentTag)
  | _ =>
      let* t := get tasksData "tasks" in
      if truthy t then ret (t, currentTag)
      else
        let* cur := get tasksData currentTag in
        let* c1 := has_truthy_tasks cur in
        if c1 then
          let* ts := tasks_of cur in ret (ts, currentTag)
        else
          let* m := get tasksData "master" in
          let* c2 := has_truthy_tasks m in
          if c2 then
            let* ts := tasks_of m in ret (ts, currentTag)
          else
            let* firstTag := find_first_tag tasksData (Object_keys tasksData) in
            if truthy_key firstTag then
              match firstTag with
              | Some key =>
                  let* tag := get tasksData key in
                  let* ts := tasks_of tag in
                  ret (ts, key)
              | None => ret (Some (JArr []), currentTag)
              end
            else ret (Some (JArr []), currentTag)
  end.

(** [task.k || d] *)
Definition member_or (task : json) (k : string) (d : json) : Res json :=
  let* v := get task k in ret (or_else v d).

(** [task.k1 || task.k2 || new Date().toISOString()]: the clock is read
    only when both members are falsy. *)
Definition member_or_now (task : json) (k1 k2 : string) : M json :=
  do* a := lift (get task k1) in
  match first_truthy a with
  | Some j => cret j
  | None =>
      do* b := lift (get task k2) in
      match first_truthy b with
      | Some j => cret j
      | None => now
      end
  end.

(** [task.k1 || task.k2 || d] *)
Definition member_or2 (task : json) (k1 k2 : string) (d : json) : Res json :=
  let* a := get task k1 in
  match first_truthy a with
  | Some j => ret j
  | None => let* b := get task k2 in ret (or_else b d)
  end.

(** Lines 641-653: the callback of [tasks.map].  Property initialisers are
    evaluated in source order. *)
Definition transform (task : json) : M Task :=
  do* v_id := lift (get task "id") in
  do* v_title := lift (member_or task "title" (JStr "Untitled Task")) in
  do* v_description := lift (member_or task "description" (JStr "")) in
  do* v_status := lift (member_or task "status" (JStr "pending")) in
  do* v_priority := lift (member_or task "priority" (JStr "medium")) in
  do* v_dependencies := lift (member_or task "dependencies" (JArr [])) in
  do* v_createdAt := member_or_now task "createdAt" "created" in
  do* v_updatedAt := member_or_now task "updatedAt" "updated" in
  do* v_details := lift (member_or task "details" (JStr "")) in
  do* v_testStrategy := lift (member_or2 task "testStrategy" "test_strategy" (JStr "")) in
  do* v_subtasks := lift (member_or task "subtasks" (JArr [])) in
  cret {| task_id := v_id; title := v_title; description := v_description;
          status := v_status; priority := v_priority;
          dependencies := v_dependencies; createdAt := v_createdAt;
          updatedAt := v_updatedAt; details := v_details;
          testStrategy := v_testStrategy; subtasks := v_subtasks |}.

(** [tasks.map(...)]: only arrays have a [map] method. *)
Definition transformTasks (tasks : value) : M (list Task) :=
  match tasks with
  | Some (JArr l) => Array_map transform l
  | _ => lift (throw (TypeError "map"))
  end.

(** [transformedTasks.filter(t => t.status === s).length] *)
Definition count_status (s : string) (ts : list Task) : nat :=
  length (List.filter (fun t => strict_eq_str (status t) s) ts).

(** Lines 661-668: the object literal bound to [tasksByStatus]. *)
Definition tasksByStatus_of (ts : list Task) : list (string * nat) :=
  [ ("pending", count_status "pending" ts);
    ("in-progress", count_status "in-progress" ts);
    ("done", count_status "done" ts);
    ("review", count_status "review" ts);
    ("deferred", count_status "deferred" ts);
    ("cancelled", count_status "cancelled" ts) ].

(** Body of the successful response. *)
Record TasksBody : Type := {
  projectName : string;
  projectPath : string;
  tasks : list Task;
  currentTag : string;
  totalTasks : nat;
  tasksByStatus : list (string * nat);
  timestamp : json
}.

(** Lines 608-670, the body of the inner [try]: shape resolution, field
    defaulting and the response literal. *)
Definition normalize (name path : string) (tasksData : json) : M TasksBody :=
  do* r := lift (resolve tasksData) in
  let '(tasks, currentTag) := r in
  do* transformedTasks := transformTasks tasks in
  do* ts := now in
  cret {| projectName := name; projectPath := path;
          tasks := transformedTasks; currentTag := currentTag;
          totalTasks := length transformedTasks;
          tasksByStatus := tasksByStatus_of transformedTasks;
          timestamp := ts |}.

(** What the handler observes of the project: the result of
    [extractProjectDirectory], whether [access] on tasks.json succeeds, and
    the result of reading the file and [JSON.parse]-ing its content. *)
Record Request : Type := {
  req_projectName : string;
  req_projectPath : Res string;
  req_accessible : bool;
  req_tasksData : Res json
}.

Inductive Response : Type :=
| NotFound404                       (* 'Project not found' *)
| NoTasksFile (name : string)       (* { projectName, tasks: [], message } *)
| Ok200 (body : TasksBody)
| ParseFailed500 (e : exn).         (* 'Failed to parse tasks file' *)

(** Lines 578-687. *)
Definition handler (req : Request) (clk : Clock) : Response :=
  match req_projectPath req with
  | inl _ => NotFound404
  | inr path =>
      if negb (req_accessible req) then NoTasksFile (req_projectName req)
      else
        match req_tasksData req with
        | inl e => ParseFailed500 e
        | inr tasksData =>
            match normalize (req_projectName req) path tasksData clk 0 with
            | inl e => ParseFailed500 e
            | inr (body, _) => Ok200 body
            end
        end
  end.

End Tasks.

(** ** detectTaskMasterMCPServer (server/utils/mcp-detector.js) *)

Module Mcp.

(** The [config] object of a positive detection result. *)
Record ServerConfig : Type := {
  command : value;
  args : json;
  url : value;
  envVars : list string;
  type : string
}.

(** The two shapes of object the function returns. *)
Inductive Result : Type :=
| NotDetected (reason : string) (hasConfig : bool)
    (configPath : option string) (availableServers : list string)
| Detected (isConfigured hasApiKeys : bool) (scope : string) (config : ServerConfig).

Definition hasMCPServer (r : Result) : bool :=
  match r with
  | Detected _ _ _ _ => true
  | NotDetected _ _ _ _ => false
  end.

(** [mcpResult.isConfigured], [undefined] on a negative result. *)
Definition isConfigured_of (r : Result) : option bool :=
  match r with
  | Detected c _ _ _ => Some c
  | NotDetected _ _ _ _ => None
  end.

(** [typeof v === 'object'] for a truthy [v]. *)
Definition is_object (v : value) : bool :=
  match v with
  | Some (JObj _) => true
  | Some (JArr _) => true
  | _ => false
  end.

(** [command.includes('task-master')] for a truthy [command]: strings
    search for a substring, arrays for an element, and no other value has
    an [includes] method. *)
Definition command_includes (cmd : json) : Res bool :=
  match cmd with
  | JStr s => ret (includes s "task-master")
  | JArr xs => ret (existsb (fun x => strict_eq_str x "task-master") xs)
  | _ => throw (TypeError "includes")
  end.

(** The callback of [find], lines 54-58 and 75-79. *)
Definition is_task_master (name : string) (config : json) : Res bool :=
  if String.eqb name "task-master-ai" then ret true
  else if includes name "task-master" then ret true
  else if truthy_json config then
    let* cmd := get config "command" in
    match first_truthy cmd with
    | Some c => command_includes c
    | None => ret false
    end
  else ret false.

(** [Object.entries(servers).find(...)] *)
Fixpoint find_server (entries : list (string * json)) : Res (option (string * json)) :=
  match entries with
  | [] => ret None
  | (name, config) :: rest =>
      let* hit := is_task_master name config in
      if hit then ret (Some (name, config)) else find_server rest
  end.

(** The [taskMasterServer] record built from a found entry. *)
Record Server : Type := {
  srv_name : string;
  srv_scope : string;
  srv_projectPath : option string;
  srv_config : json;
  srv_type : string
}.

(** [config.command ? 'stdio' : (config.url ? 'http' : 'unknown')] *)
Definition server_type (config : json) : Res string :=
  let* c := get config "command" in
  if truthy c then ret "stdio"
  else let* u := get config "url" in
       if truthy u then ret "http" else ret "unknown".

(** [servers && typeof servers === 'object'], then the search. *)
Definition search_servers (servers : value) : Res (option (string * json)) :=
  match servers with
  | Some s =>
      if truthy_json s && is_object servers then find_server (Object_entries s)
      else ret None
  | None => ret None
  end.

(** Lines 52-69: the user-scoped servers. *)
Definition user_server (configData : json) : Res (option Server) :=
  let* servers := get configData "mcpServers" in
  let* serverEntry := search_servers servers in
  match serverEntry with
  | Some (name, config) =>
      let* ty := server_type config in
      ret (Some {| srv_name := name; srv_scope := "user";
                   srv_projectPath := None; srv_config := config;
                   srv_type := ty |})
  | None => ret None
  end.

(** Lines 73-93: the loop over [Object.entries(configData.projects)],
    leaving at the first project with a matching server. *)
Fixpoint project_server (projects : list (string * json)) : Res (option Server) :=
  match projects with
  | [] => ret None
  | (projectPath, projectConfig) :: rest =>
      let* servers := get projectConfig "mcpServers" in
      let* serverEntry := search_servers servers in
      match serverEntry with
      | Some (name, config) =>
          let* ty := server_type config in
          ret (Some {| srv_name := name; srv_scope := "local";
                       srv_projectPath := Some projectPath;
                       srv_config := config; srv_type := ty |})
      | None => project_server rest
      end
  end.

(** Lines 51-94: [taskMasterServer] after both searches. *)
Definition find_task_master (configData : json) : Res (option Server) :=
  let* user := user_server configData in
  match user with
  | Some s => ret (Some s)
  | None =>
      let* projects := get configData "projects" in
      match first_truthy projects with
      | Some p => project_server (Object_entries p)
      | None => ret None
      end
  end.

(** [config?.k] *)
Definition opt_get (config : json) (k : string) : value :=
  match get config k with
  | inr v => v
  | inl _ => None
  end.

(** Lines 97-98: [!!(config && (config.command || config.url))] *)
Definition isValid (config : json) : Res bool :=
  if truthy_json config then
    let* c := get config "command" in
    if truthy c then ret true
    else let* u := get config "url" in ret (truthy u)
  else ret false.

(** Lines 99-101:
    [!!(config && config.env && Object.keys(config.env).length > 0)] *)
Definition hasEnvVars (config : json) : Res bool :=
  if truthy_json config then
    let* env := get config "env" in
    match first_truthy env with
    | Some e => ret (0 <? length (Object_keys e))%nat
    | None => ret false
    end
  else ret false.

(** [hasEnvVars ? Object.keys(config.env) : []] *)
Definition env_keys (config : json) (has : bool) : Res (list string) :=
  if has then
    let* env := get config "env" in
    match env with
    | Some e => ret (Object_keys e)
    | None => throw (TypeError "keys")
    end
  else ret [].

(** Lines 96-115: the positive result. *)
Definition detected (s : Server) : Res Result :=
  let cfg := srv_config s in
  let* valid := isValid cfg in
  let* has := hasEnvVars cfg in
  let* keys := env_keys cfg has in
  ret (Detected valid has (srv_scope s)
         {| command := opt_get cfg "command";
            args := or_else (opt_get cfg "args") (JArr []);
            url := opt_get cfg "url";
            envVars := keys;
            type := srv_type s |}).

(** Lines 122-128: the names pushed for the project-scoped servers. *)
Fixpoint local_servers (projects : list json) : Res (list string) :=
  match projects with
  | [] => ret []
  | projectConfig :: rest =>
      let* servers := get projectConfig "mcpServers" in
      let here :=
        match first_truthy servers with
        | Some s => map (fun name => "local:" +:+ name) (Object_keys s)
        | None => []
        end in
      let* more := local_servers rest in
      ret (here ++ more)%list
  end.

(** Lines 117-128: [availableServers]. *)
Definition availableServers_of (configData : json) : Res (list string) :=
  let* servers := get configData "mcpServers" in
  let user :=
    match first_truthy servers with
    | Some s => Object_keys s
    | None => []
    end in
  let* projects := get configData "projects" in
  match first_truthy projects with
  | Some p => let* l := local_servers (Object_values p) in ret (user ++ l)%list
  | None => ret user
  end.

(** Lines 30-41: the first configuration file that can be read and
    parsed, with its path. *)
Fixpoint first_config (files : list (string * Res json)) : option (string * json) :=
  match files with
  | [] => None
  | (filepath, inr configData) :: _ => Some (filepath, configData)
  | (_, inl _) :: rest => first_config rest
  end.

(** Lines 43-137, inside the [try]. *)
Definition detect_in (files : list (string * Res json)) : Res Result :=
  match first_config files with
  | None => ret (NotDetected "No Claude configuration file found" false None [])
  | Some (configPath, configData) =>
      if negb (truthy_json configData)
      then ret (NotDetected "No Claude configuration file found" false None [])
      else
        let* taskMasterServer := find_task_master configData in
        match taskMasterServer with
        | Some s => detected s
        | None =>
            let* available := availableServers_of configData in
            ret (NotDetected "task-master-ai not found in configured MCP servers"
                   true (Some configPath) available)
        end
  end.

(** [detectTaskMasterMCPServer], given the outcome of reading and parsing
    [~/.claude.json] and [~/.claude/settings.json], in that order. *)
Definition detectTaskMasterMCPServer (files : list (string * Res json)) : Result :=
  match detect_in files with
  | inr r => r
  | inl e => NotDetected ("Error checking MCP config: " +:+ message e) false None []
  end.

End Mcp.

(** ** detectTaskMasterFolder and the /detect routes *)

Module Detect.

(** Values stored in the accumulator [acc]: counters, the [subtasks]
    object, and the strings that [+ 1] produces from a non-number. *)
Inductive aval : Type :=
| ANum (n : N)
| AStr (s : string)
| AObj (m : gmap string N).

(** ToPropertyKey of [task.status]; the key of a number, an array or an
    object needs their printing and is left out. *)
Definition status_key (v : value) : outcome string :=
  match v with
  | None => Done "undefined"
  | Some JNull => Done "null"
  | Some (JBool true) => Done "true"
  | Some (JBool false) => Done "false"
  | Some (JStr s) => Done s
  | Some _ => Unmodelled
  end.

(** Names every object literal inherits from [Object.prototype]. *)
Definition Object_prototype_names : list string :=
  [ "constructor"; "hasOwnProperty"; "isPrototypeOf"; "propertyIsEnumerable";
    "toLocaleString"; "toString"; "valueOf"; "__proto__";
    "__defineGetter__"; "__defineSetter__"; "__lookupGetter__";
    "__lookupSetter__" ].

Definition inherited (k : string) : bool :=
  existsb (String.eqb k) Object_prototype_names.

(** [(v || 0) + 1] on a stored value: numbers count up, a string or an
    object is concatenated with ["1"]. *)
Definition plus_one (v : option aval) : aval :=
  match v with
  | None => ANum 1
  | Some (ANum n) => ANum (n + 1)
  | Some (AStr s) => if String.eqb s "" then ANum 1 else AStr (s +:+ "1")
  | Some (AObj _) => AStr "[object Object]1"
  end.

(** [acc[k] = (acc[k] || 0) + 1] *)
Definition count_under (k : string) (acc : gmap string aval) : outcome (gmap string aval) :=
  match acc !! k with
  | None => if inherited k then Unmodelled else Done (<[k := ANum 1]> acc)
  | Some v => Done (<[k := plus_one (Some v)]> acc)
  end.

(** [acc.k++] on a counter. *)
Definition increment (k : string) (acc : gmap string aval) : outcome (gmap string aval) :=
  match acc !! k with
  | Some (ANum n) => Done (<[k := ANum (n + 1)]> acc)
  | _ => Unmodelled
  end.

(** Lines 182-186, the callback of [task.subtasks.forEach].  The module is
    strict code, so assigning a property of the primitive string that a
    status named ['subtasks'] leaves in [acc.subtasks] throws. *)
Definition count_subtask (acc : gmap string aval) (subtask : json) : outcome (gmap string aval) :=
  run* acc := increment "subtotalTasks" acc in
  let subs :=
    match acc !! "subtasks" with
    | Some (AObj m) => AObj m
    | Some (AStr s) => if String.eqb s "" then AObj ∅ else AStr s
    | Some (ANum n) => if (n =? 0)%N then AObj ∅ else ANum n
    | None => AObj ∅
    end in
  let acc := <["subtasks" := subs]> acc in
  run* st := of_res (get subtask "status") in
  run* k := status_key st in
  match subs with
  | AObj m =>
      match m !! k with
      | None =>
          if inherited k then Unmodelled
          else Done (<["subtasks" := AObj (<[k := 1%N]> m)]> acc)
      | Some n => Done (<["subtasks" := AObj (<[k := (n + 1)%N]> m)]> acc)
      end
  | _ => Throws (TypeError k)
  end.

(** [forEach] with a throwing callback over the accumulator. *)
Fixpoint foldO {A S} (f : S -> A -> outcome S) (l : list A) (s : S) : outcome S :=
  match l with
  | [] => Done s
  | x :: rest => run* s' := f s x in foldO f rest s'
  end.

(** Lines 176-190, the callback of [tasks.reduce]. *)
Definition count_task (acc : gmap string aval) (task : json) : outcome (gmap string aval) :=
  run* acc := increment "total" acc in
  run* st := of_res (get task "status") in
  run* k := status_key st in
  run* acc := count_under k acc in
  run* subs := of_res (get task "subtasks") in
  match first_truthy subs with
  | Some (JArr l) => foldO count_subtask l acc
  | Some _ => Throws (TypeError "forEach")
  | None => Done acc
  end.

(** Lines 190-200, the initial accumulator. *)
Definition initial_stats : gmap string aval :=
  <["total" := ANum 0]> (<["subtotalTasks" := ANum 0]> (<["pending" := ANum 0]>
  (<["in-progress" := ANum 0]> (<["done" := ANum 0]> (<["review" := ANum 0]>
  (<["deferred" := ANum 0]> (<["cancelled" := ANum 0]>
  (<["subtasks" := AObj ∅]> ∅)))))))).

(** Lines 162-173: [tasks = tasks.concat(tagData.tasks)] over
    [Object.values(tasksData)]; [concat] spreads an array argument and
    appends any other value as one element. *)
Fixpoint concat_tags (tags : list json) (tasks : list json) : Res (list json) :=
  match tags with
  | [] => ret tasks
  | tagData :: rest =>
      let* t := get tagData "tasks" in
      match first_truthy t with
      | Some (JArr l) => concat_tags rest (tasks ++ l)%list
      | Some v => concat_tags rest (tasks ++ [v])%list
      | None => concat_tags rest tasks
      end
  end.

(** Lines 161-173: the value bound to [tasks]. *)
Definition all_tasks (tasksData : json) : Res json :=
  let* t := get tasksData "tasks" in
  match first_truthy t with
  | Some v => ret v
  | None => let* l := concat_tags (Object_values tasksData) [] in ret (JArr l)
  end.

(** Lines 176-200: [tasks.reduce(callback, initial)]; only arrays have a
    [reduce] method. *)
Definition statistics (tasks : json) : outcome (gmap string aval) :=
  match tasks with
  | JArr l => foldO count_task l initial_stats
  | _ => Throws (TypeError "reduce")
  end.

(** [Math.round]: the integral number nearest to [x], the one towards
    positive infinity of two equally near; a finite [x] with a
    non-negative exponent is integral. *)
Definition Math_round (x : spec_float) : spec_float :=
  match x with
  | S754_finite s m e =>
      if (0 <=? e)%Z then x
      else
        let d := (2 ^ (- e))%Z in
        let num := if s then (- Z.pos m)%Z else Z.pos m in
        let q := ((2 * num + d) / (2 * d))%Z in
        if (q =? 0)%Z then S754_zero s
        else binary_normalize prec emax q 0 false
  | _ => x
  end.

(** A counter read back from [stats]. *)
Definition counter (stats : gmap string aval) (k : string) : outcome N :=
  match stats !! k with
  | Some (ANum n) => Done n
  | _ => Unmodelled
  end.

(** Line 209:
    [stats.total > 0 ? Math.round((stats.done / stats.total) * 100) : 0] *)
Definition completionPercentage_of (done total : N) : spec_float :=
  if (0 <? total)%N
  then Math_round (number_mul (number_div (number_of_N done) (number_of_N total))
                              (number_of_Z 100))
  else S754_zero false.

Record Metadata : Type := {
  taskCount : N;
  subtaskCount : N;
  completed : N;
  pending : N;
  inProgress : N;
  review : N;
  completionPercentage : spec_float;
  lastModified : string
}.

(** Lines 202-211.  [stats.k || 0] on a counter is the counter. *)
Definition metadata_of (stats : gmap string aval) (mtime : Res string) : outcome Metadata :=
  run* total := counter stats "total" in
  run* subtotal := counter stats "subtotalTasks" in
  run* done := counter stats "done" in
  run* pend := counter stats "pending" in
  run* prog := counter stats "in-progress" in
  run* rev := counter stats "review" in
  run* modified := of_res mtime in
  Done {| taskCount := total; subtaskCount := subtotal; completed := done;
          pending := pend; inProgress := prog; review := rev;
          completionPercentage := completionPercentage_of done total;
          lastModified := modified |}.

(** Lines 156-211, the body of the inner [try]. *)
Definition taskMetadata_of (content : Res json) (mtime : Res string) : outcome Metadata :=
  run* tasksData := of_res content in
  run* tasks := of_res (all_tasks tasksData) in
  run* stats := statistics tasks in
  metadata_of stats mtime.

(** What [fs.stat] reports for the [.taskmaster] path. *)
Inductive Stat : Type :=
| IsDirectory
| NotDirectory
| ENOENT
| StatFailed (e : exn).

(** What the function observes of the file system under a project path:
    the [stat] of [.taskmaster], which files under it [access] finds
    readable, and the content and modification time of tasks.json. *)
Record Folder : Type := {
  taskmaster_stat : Stat;
  readable : string -> bool;
  tasks_json : Res json;          (* readFile, then JSON.parse *)
  tasks_json_mtime : Res string;
  taskMasterPath : string
}.

(** The two shapes of object the function returns.  [metadata] is [None]
    for [null]; a thrown exception stands for the object
    [{ error: 'Failed to parse tasks.json' }]. *)
Inductive FolderResult : Type :=
| Absent (reason : string)
| Present (hasEssentialFiles : bool) (files : list (string * bool))
    (metadata : option (outcome Metadata)) (path : string).

Definition hasTaskmaster (r : FolderResult) : bool :=
  match r with
  | Present _ _ _ _ => true
  | Absent _ => false
  end.

(** [taskMasterResult.hasEssentialFiles], [undefined] on a negative result. *)
Definition hasEssentialFiles_of (r : FolderResult) : option bool :=
  match r with
  | Present e _ _ _ => Some e
  | Absent _ => None
  end.

Definition keyFiles : list string := [ "tasks/tasks.json"; "config.json" ].

(** Lines 137-151: the loop over [keyFiles], threading [fileStatus] and
    [hasEssentialFiles]. *)
Fixpoint check_files (access : string -> bool) (files : list string)
    (fileStatus : list (string * bool)) (hasEssentialFiles : bool)
  : list (string * bool) * bool :=
  match files with
  | [] => (fileStatus, hasEssentialFiles)
  | file :: rest =>
      if access file
      then check_files access rest (fileStatus ++ [(file, true)])%list hasEssentialFiles
      else check_files access rest (fileStatus ++ [(file, false)])%list
             (if String.eqb file "tasks/tasks.json" then false else hasEssentialFiles)
  end.

(** Lines 108-233. *)
Definition detectTaskMasterFolder (f : Folder) : FolderResult :=
  match taskmaster_stat f with
  | NotDirectory => Absent ".taskmaster exists but is not a directory"
  | ENOENT => Absent ".taskmaster directory not found"
  | StatFailed e => Absent ("Error checking directory: " +:+ message e)
  | IsDirectory =>
      let '(fileStatus, hasEssentialFiles) := check_files (readable f) keyFiles [] true in
      let taskMetadata :=
        match assoc "tasks/tasks.json" fileStatus with
        | Some true => Some (taskMetadata_of (tasks_json f) (tasks_json_mtime f))
        | _ => None
        end in
      Present hasEssentialFiles fileStatus taskMetadata (taskMasterPath f)
  end.

(** [a && b] on possibly undefined booleans, as a condition. *)
Definition both (a : bool) (b : option bool) : bool :=
  a && match b with Some x => x | None => false end.

(** Lines 313-323 of [GET /detect/:projectName]. *)
Definition detect_status (taskMasterResult : FolderResult) (mcpResult : Mcp.Result) : string :=
  let status := "not-configured" in
  if both (hasTaskmaster taskMasterResult) (hasEssentialFiles_of taskMasterResult) then
    if both (Mcp.hasMCPServer mcpResult) (Mcp.isConfigured_of mcpResult)
    then "fully-configured"
    else "taskmaster-only"
  else if both (Mcp.hasMCPServer mcpResult) (Mcp.isConfigured_of mcpResult)
  then "mcp-only"
  else status.

(** Lines 385-395 of [GET /detect-all], the same decision written again. *)
Definition detect_all_status (taskMasterResult : FolderResult) (mcpResult : Mcp.Result) : string :=
  let status := "not-configured" in
  if both (hasTaskmaster taskMasterResult) (hasEssentialFiles_of taskMasterResult) then
    if both (Mcp.hasMCPServer mcpResult) (Mcp.isConfigured_of mcpResult)
    then "fully-configured"
    else "taskmaster-only"
  else if both (Mcp.hasMCPServer mcpResult) (Mcp.isConfigured_of mcpResult)
  then "mcp-only"
  else status.

(** The machine the routes run on: the file system under each project
    path and the two Claude configuration files. *)
Record Host : Type := {
  folder_at : string -> Folder;
  path_readable : string -> bool;
  claude_configs : list (string * Res json)
}.

Record Detection : Type := {
  det_projectName : string;
  det_projectPath : string;
  det_status : string;
  det_taskmaster : FolderResult;
  det_mcp : Mcp.Result;
  det_timestamp : string
}.

Inductive DetectResponse : Type :=
| PathNotFound404
| PathNotAccessible404
| Detected200 (body : Detection).

(** Lines 278-352: [GET /detect/:projectName]; [projectPath] is the result
    of [extractProjectDirectory]. *)
Definition detect_route (h : Host) (projectName : string) (projectPath : Res string)
    (clk : Clock) : DetectResponse :=
  match projectPath with
  | inl _ => PathNotFound404
  | inr path =>
      if negb (path_readable h path) then PathNotAccessible404
      else
        let taskMasterResult := detectTaskMasterFolder (folder_at h path) in
        let mcpResult := Mcp.detectTaskMasterMCPServer (claude_configs h) in
        Detected200
          {| det_projectName := projectName; det_projectPath := path;
             det_status := detect_status taskMasterResult mcpResult;
             det_taskmaster := taskMasterResult; det_mcp := mcpResult;
             det_timestamp := clk 0%nat |}
  end.

(** One element of [projects]: [fullPath] when the project has one, and
    what [extractProjectDirectory] returns otherwise. *)
Record Project : Type := {
  prj_name : string;
  prj_fullPath : option string;
  prj_extracted : Res string
}.

(** Lines 366-412: the per-project callback of [GET /detect-all]; a
    project whose directory cannot be extracted gets status ['error']. *)
Definition detect_all_project (h : Host) (project : Project) : string :=
  let projectPath :=
    match prj_fullPath project with
    | Some p => if String.eqb p "" then prj_extracted project else inr p
    | None => prj_extracted project
    end in
  match projectPath with
  | inl _ => "error"
  | inr path =>
      detect_all_status (detectTaskMasterFolder (folder_at h path))
                        (Mcp.detectTaskMasterMCPServer (claude_configs h))
  end.

End Detect.

(** ** PRD templates: placeholder scan and substitution *)

Module Template.

Definition is_close (c : ascii) : bool := Ascii.eqb c "]"%char.

(** The longest prefix of characters other than ["]"], and what follows. *)
Fixpoint span_run (s : string) : string * string :=
  match s with
  | EmptyString => (EmptyString, EmptyString)
  | String c rest =>
      if is_close c then (EmptyString, s)
      else let '(run, after) := span_run rest in (String c run, after)
  end.

(** One attempt of [/\[([^\]]+)\]/] at the start of [s]: the text of
    capture group 1.  The greedy class takes the longest run; a shorter
    run is followed by a character of the class and never by ["]"], so
    backtracking finds nothing more. *)
Definition match_here (s : string) : option string :=
  match s with
  | String "["%char t =>
      match span_run t with
      | (String c run, String "]"%char _) => Some (String c run)
      | _ => None
      end
  | _ => None
  end.

(** [content.match(/\[([^\]]+)\]/g)] followed by [p.slice(1, -1)] on each
    match: the attempts proceed from left to right, and after a match the
    search resumes behind it ([skip] counts the characters of the match
    still to pass). *)
Fixpoint scan (s : string) (skip : nat) : list string :=
  match s with
  | EmptyString => []
  | String _ rest =>
      match skip with
      | S k => scan rest k
      | O =>
          match match_here s with
          | Some name => name :: scan rest (S (String.length name))
          | None => scan rest 0
          end
      end
  end.

Definition placeholders (content : string) : list string := scan content 0.

(** [new Set(...)] keeps the first insertion of each element. *)
Definition Set_add (seen : list string) (x : string) : list string :=
  if existsb (String.eqb x) seen then seen else (seen ++ [x])%list.

(** [[...new Set(names)]] *)
Definition Set_of (names : list string) : list string := fold_left Set_add names [].

(** Lines 515-516 of [handleSelectTemplate]. *)
Definition uniquePlaceholders (content : string) : list string :=
  Set_of (placeholders content).

(** The number a text of decimal digits stands for, continuing [acc]. *)
Fixpoint decimal (s : string) (acc : N) : option N :=
  match s with
  | EmptyString => Some acc
  | String c rest =>
      let n := N_of_ascii c in
      if (48 <=? n)%N && (n <=? 57)%N then decimal rest (10 * acc + (n - 48))%N
      else None
  end.

(** The array index a property key stands for: keys that are the
    canonical decimal text, without sign or leading zero, of an integer
    below [2^32 - 1]. *)
Definition array_index (key : string) : option N :=
  match key with
  | EmptyString => None
  | String "0"%char EmptyString => Some 0%N
  | String "0"%char _ => None
  | _ =>
      match decimal key 0 with
      | Some n => if (n <? 4294967295)%N then Some n else None
      | None => None
      end
  end.

(** An object with string values, as the list of its own members in the
    order in which they are enumerated: the array indices in ascending
    order, then the other keys in the order of their creation. *)
Definition Obj : Type := list (string * string).

Definition has_own (o : Obj) (key : string) : bool :=
  existsb (fun kv => String.eqb (fst kv) key) o.

(** An existing member takes the new value and keeps its place. *)
Fixpoint update_own (key value : string) (o : Obj) : Obj :=
  match o with
  | [] => []
  | (k, v) :: rest =>
      if String.eqb k key then (k, value) :: rest
      else (k, v) :: update_own key value rest
  end.

(** A new array index is enumerated behind the smaller indices. *)
Fixpoint insert_index (n : N) (key value : string) (o : Obj) : Obj :=
  match o with
  | [] => [(key, value)]
  | (k, v) :: rest =>
      match array_index k with
      | Some m =>
          if (m <? n)%N then (k, v) :: insert_index n key value rest
          else (key, value) :: o
      | None => (key, value) :: o
      end
  end.

(** [o[key] = value] for a string [value], on an object created by an
    object literal: [__proto__] is the accessor inherited from
    [Object.prototype], whose setter ignores a string, so no member is
    created; every other key becomes or stays an own member. *)
Definition Obj_set (o : Obj) (key value : string) : Obj :=
  if String.eqb key "__proto__" then o
  else if has_own o key then update_own key value o
  else
    match array_index key with
    | Some n => insert_index n key value o
    | None => (o ++ [(key, value)])%list
    end.

(** Lines 518-521: the object [initialCustomizations], built by assigning
    the empty string under every placeholder in turn. *)
Definition initialCustomizations (content : string) : Obj :=
  fold_left (fun o placeholder => Obj_set o placeholder "") (uniquePlaceholders content) [].

(** The class [[.*+?^${}()|[\\]] of the escaping expression. *)
Definition special (c : ascii) : bool :=
  existsb (Ascii.eqb c)
    [ "."; "*"; "+"; "?"; "^"; "$"; "{"; "}"; "("; ")"; "|"; "["; "\" ]%char.

(** [placeholder.replace(/[.*+?^${}()|[\\]\\\\]/g, '\\\\$&')]: as the
    source writes it, the class ends at the first ["]"] and is followed by
    two backslashes and a literal ["]"]; a match is a special character
    followed by these three characters, and is prefixed with two
    backslashes. *)
Fixpoint escape (s : string) (skip : nat) : string :=
  match s with
  | EmptyString => EmptyString
  | String c rest =>
      match skip with
      | S k => String c (escape rest k)
      | O =>
          match rest with
          | String "\"%char (String "\"%char (String "]"%char _)) =>
              if special c
              then String "\"%char (String "\"%char (String c (escape rest 3)))
              else String c (escape rest 0)
          | _ => String c (escape rest 0)
          end
      end
  end.

(** Characters that stand for themselves inside a character class. *)
Definition plain (c : ascii) : bool :=
  negb (Ascii.eqb c "\"%char || Ascii.eqb c "]"%char || Ascii.eqb c "-"%char).

Definition chars (s : string) : list ascii := list_ascii_of_string s.

(** The last character of a string, and the string without it. *)
Fixpoint split_last (s : string) : option (string * ascii) :=
  match s with
  | EmptyString => None
  | String c EmptyString => Some (EmptyString, c)
  | String c rest =>
      match split_last rest with
      | Some (init, l) => Some (String c init, l)
      | None => None
      end
  end.

(** [new RegExp(pattern, 'g')] for a pattern that is one character class
    of plain characters, [[c1c2...]]: the set of characters it matches.
    Other patterns are outside the fragment modelled. *)
Definition RegExp_class (pattern : string) : outcome (list ascii) :=
  match pattern with
  | String "["%char body_close =>
      match split_last body_close with
      | Some (body, "]"%char) =>
          if forallb plain (chars body) &&
             negb (String.prefix "^" body)
          then Done (chars body)
          else Unmodelled
      | _ => Unmodelled
      end
  | _ => Unmodelled
  end.

(** GetSubstitution for a match without capture groups: [$$] is a dollar
    sign, [$&] the matched text, [$`] the text before the match and [$']
    the text after it; any other character, a dollar sign included,
    stands for itself. *)
Fixpoint substitution (replacement matched before after : string) : string :=
  match replacement with
  | EmptyString => EmptyString
  | String "$"%char (String "$"%char r) =>
      String "$"%char (substitution r matched before after)
  | String "$"%char (String "&"%char r) =>
      matched +:+ substitution r matched before after
  | String "$"%char (String "`"%char r) =>
      before +:+ substitution r matched before after
  | String "$"%char (String "'"%char r) =>
      after +:+ substitution r matched before after
  | String c r => String c (substitution r matched before after)
  end.

(** [content.replace(regexp, value)] for a global [regexp] that is a
    character class: every character of the class is a match, replaced by
    the expansion of [value] at that position.  [before] is the text
    already passed. *)
Fixpoint replace_class (class : list ascii) (value : string) (before s : string) : string :=
  match s with
  | EmptyString => EmptyString
  | String c rest =>
      let here := String c EmptyString in
      if existsb (Ascii.eqb c) class
      then substitution value here before rest
           +:+ replace_class class value (before +:+ here) rest
      else String c (replace_class class value (before +:+ here) rest)
  end.

(** Lines 1885-1886, one turn of the loop. *)
Definition customize (content : string) (entry : string * string) : outcome string :=
  let '(key, value) := entry in
  let placeholder := "[" +:+ key +:+ "]" in
  run* class := RegExp_class (escape placeholder 0) in
  Done (replace_class class value "" content).

(** Lines 1881-1887: the loop over [Object.entries(customizations)]. *)
Fixpoint apply_customizations (content : string) (customizations : list (string * string))
  : outcome string :=
  match customizations with
  | [] => Done content
  | entry :: rest =>
      run* content := customize content entry in
      apply_customizations content rest
  end.

Record PrdTemplate : Type := {
  tpl_id : string;
  tpl_name : string;
  tpl_content : string
}.

Inductive ApplyResponse : Type :=
| MissingParameter400
| ProjectNotFound404
| TemplateNotFound404
| Written (fileName content : string)
| Failed500 (e : exn)
| OutsideFragment.

(** Lines 1846-1929: [POST /apply-template/:projectName].  [templates] is
    what [getAvailableTemplates] returns, [projectPath] the result of
    [extractProjectDirectory], [write] the outcome of [writeFile]. *)
Definition apply_template (templates : list PrdTemplate) (projectPath : Res string)
    (templateId : option string) (fileName : option string)
    (customizations : option (list (string * string))) (write : Res unit)
  : ApplyResponse :=
  let fileName := match fileName with Some f => f | None => "prd.txt" end in
  let customizations := match customizations with Some c => c | None => [] end in
  match templateId with
  | None => MissingParameter400
  | Some tid =>
      if String.eqb tid "" then MissingParameter400
      else
        match projectPath with
        | inl _ => ProjectNotFound404
        | inr _ =>
            match find (fun t => String.eqb (tpl_id t) tid) templates with
            | None => TemplateNotFound404
            | Some template =>
                match apply_customizations (tpl_content template) customizations with
                | Done content =>
                    match write with
                    | inr _ => Written fileName content
                    | inl e => Failed500 e
                    end
                | Throws e => Failed500 e
                | Unmodelled => OutsideFragment
                end
            end
        end
  end.

End Template.

(** ** Values in transit and in text *)

Module Text.

(** [JSON.parse(JSON.stringify(v))] for a parsed document [v], as a
    response body reaches [fetch(...).json()]: negative zero is printed
    [0], a number that is not finite is printed [null], and everything
    else is read back as it was. *)
Fixpoint reparse (v : json) : json :=
  match v with
  | JNum (S754_zero _) => JNum (S754_zero false)
  | JNum (S754_infinity _) => JNull
  | JNum S754_nan => JNull
  | JArr xs => JArr (map reparse xs)
  | JObj fields => JObj (map (fun '(k, x) => (k, reparse x)) fields)
  | _ => v
  end.

(** A member that [JSON.stringify] leaves out when it is [undefined]. *)
Definition reparse_member (v : value) : value := option_map reparse v.

(** The character code lies between [lo] and [hi]. *)
Definition between (lo hi : nat) (c : ascii) : bool :=
  (lo <=? nat_of_ascii c)%nat && (nat_of_ascii c <=? hi)%nat.

(** [String.prototype.endsWith] *)
Fixpoint endsWith (s suffix : string) : bool :=
  String.eqb s suffix ||
  match s with
  | EmptyString => false
  | String _ rest => endsWith rest suffix
  end.

(** The text of [v] inside a template literal.  Printing a number, an
    array or an object is left out. *)
Definition to_string (v : json) : outcome string :=
  match v with
  | JStr s => Done s
  | JBool true => Done "true"
  | JBool false => Done "false"
  | JNull => Done "null"
  | _ => Unmodelled
  end.

(** [l.join(sep)] on strings. *)
Fixpoint join (sep : string) (l : list string) : string :=
  match l with
  | [] => ""
  | [x] => x
  | x :: rest => x +:+ sep +:+ join sep rest
  end.

End Text.

(** ** GET /api/taskmaster/detect-all: the summary *)

Module DetectAll.

(** [results.filter(p => p.status === s).length] *)
Definition count (s : string) (statuses : list string) : nat :=
  length (List.filter (String.eqb s) statuses).

(** Lines 419-426. *)
Record Summary : Type := {
  total : nat;
  fullyConfigured : nat;
  taskmasterOnly : nat;
  mcpOnly : nat;
  notConfigured : nat;
  errors : nat
}.

Definition summary_of (statuses : list string) : Summary :=
  {| total := length statuses;
     fullyConfigured := count "fully-configured" statuses;
     taskmasterOnly := count "taskmaster-only" statuses;
     mcpOnly := count "mcp-only" statuses;
     notConfigured := count "not-configured" statuses;
     errors := count "error" statuses |}.

Inductive Response : Type :=
| Detected200 (statuses : list (string * string)) (summary : Summary) (timestamp : string)
| Failed500 (e : exn).      (* 'Failed to detect TaskMaster configuration for projects' *)

(** Lines 359-437.  [projects] is what [getProjects] returns; of each
    element of [results] the project's name and its [status] are kept. *)
Definition handler (h : Detect.Host) (projects : Res (list Detect.Project)) (clk : Clock)
  : Response :=
  match projects with
  | inl e => Failed500 e
  | inr ps =>
      let results := map (fun p => (Detect.prj_name p, Detect.detect_all_project h p)) ps in
      Detected200 results (summary_of (map snd results)) (clk 0%nat)
  end.

End DetectAll.

(** ** GET /api/taskmaster/next/:projectName *)

Module Next.

(** What the handler observes of the [task-master next] child process. *)
Inductive Cli : Type :=
| CliFailed (e : exn)            (* an 'error' event or a non-zero exit code *)
| CliBlank                       (* exit code 0 and [stdout.trim()] empty *)
| CliJson (nextTaskData : json)  (* [JSON.parse(stdout)] *)
| CliText (trimmed : string).    (* [stdout] is not JSON: [stdout.trim()] *)

(** A task of the tasks response, as [tasksResponse.json()] returns it. *)
Definition received (t : Tasks.Task) : Tasks.Task :=
  {| Tasks.task_id := Text.reparse_member (Tasks.task_id t);
     Tasks.title := Text.reparse (Tasks.title t);
     Tasks.description := Text.reparse (Tasks.description t);
     Tasks.status := Text.reparse (Tasks.status t);
     Tasks.priority := Text.reparse (Tasks.priority t);
     Tasks.dependencies := Text.reparse (Tasks.dependencies t);
     Tasks.createdAt := Text.reparse (Tasks.createdAt t);
     Tasks.updatedAt := Text.reparse (Tasks.updatedAt t);
     Tasks.details := Text.reparse (Tasks.details t);
     Tasks.testStrategy := Text.reparse (Tasks.testStrategy t);
     Tasks.subtasks := Text.reparse (Tasks.subtasks t) |}.

(** The callback of [find], lines 548-550. *)
Definition is_next (task : Tasks.Task) : bool :=
  strict_eq_str (Tasks.status task) "pending"
  || strict_eq_str (Tasks.status task) "in-progress".

Inductive Response : Type :=
| NotFound404
| FromCli (nextTask : json)
| Fallback (nextTask : option Tasks.Task)   (* [None] is [null] *)
| Failed500 (message : string).             (* 'Failed to get next task' *)

(** Lines 536-563: the [catch] of the CLI attempt.  [fetched] is the
    outcome of requesting [/api/taskmaster/tasks/:projectName]; the
    responses with status 200 are [ok]. *)
Definition fallback (fetched : Res Tasks.Response) : Response :=
  match fetched with
  | inl e => Failed500 (message e)
  | inr (Tasks.Ok200 body) => Fallback (find is_next (map received (Tasks.tasks body)))
  | inr (Tasks.NoTasksFile _) => Fallback None
  | inr Tasks.NotFound404 => Failed500 "Failed to load tasks via fallback method"
  | inr (Tasks.ParseFailed500 _) => Failed500 "Failed to load tasks via fallback method"
  end.

(** Lines 469-572. *)
Definition handler (projectPath : Res string) (cli : Cli) (fetched : Res Tasks.Response)
  : Response :=
  match projectPath with
  | inl _ => NotFound404
  | inr _ =>
      match cli with
      | CliBlank => FromCli JNull
      | CliJson nextTaskData => FromCli nextTaskData
      | CliText trimmed => FromCli (JObj [("message", JStr trimmed)])
      | CliFailed _ => fallback fetched
      end
  end.

End Next.

(** ** POST /api/taskmaster/prd/:projectName *)

Module Prd.

(** [\w] *)
Definition word (c : ascii) : bool :=
  Text.between 65 90 c || Text.between 97 122 c || Text.between 48 57 c
  || Ascii.eqb c "_"%char.

(** The class [[\w\-. ]] *)
Definition name_char (c : ascii) : bool :=
  word c || Ascii.eqb c "-"%char || Ascii.eqb c "."%char || Ascii.eqb c " "%char.

(** [\.(txt|md)$] at the position where [s] starts. *)
Definition extension (s : string) : bool :=
  String.eqb s ".txt" || String.eqb s ".md".

(** The positions behind one or more characters of the class: either the
    extension follows up to the end, or the class takes one more
    character. *)
Fixpoint after_name (s : string) : bool :=
  extension s ||
  match s with
  | EmptyString => false
  | String c rest => name_char c && after_name rest
  end.

(** [fileName.match(/^[\w\-. ]+\.(txt|md)$/)], as a condition. *)
Definition valid_name (fileName : string) : bool :=
  match fileName with
  | EmptyString => false
  | String c rest => name_char c && after_name rest
  end.

Inductive Response : Type :=
| MissingFields400
| InvalidFilename400
| ProjectNotFound404
| MkdirFailed500 (e : exn)         (* 'Failed to create directory' *)
| Saved (fileName : string) (content : json)
| WriteFailed500 (e : exn)         (* 'Failed to write PRD file' *)
| Failed500 (e : exn).             (* 'Failed to create/update PRD file' *)

(** Lines 769-848.  [projectPath] is the result of
    [extractProjectDirectory] and [mkdir] the outcome of creating the
    docs directory; [write] is what [writeFile], followed by [stat],
    answers for the data it is given: the handler passes [content] on as
    it is, of whatever type.  Only strings have a [match] method; past
    the first test both members are defined. *)
Definition handler (body : json) (projectPath : Res string) (mkdir : Res unit)
    (write : json -> Res unit) : Response :=
  match get body "fileName", get body "content" with
  | inl e, _ => Failed500 e
  | _, inl e => Failed500 e
  | inr fileName, inr content =>
      if negb (truthy fileName) || negb (truthy content) then MissingFields400
      else
        match fileName, content with
        | Some (JStr name), Some content =>
            if negb (valid_name name) then InvalidFilename400
            else
              match projectPath with
              | inl _ => ProjectNotFound404
              | inr _ =>
                  match mkdir with
                  | inl e => MkdirFailed500 e
                  | inr _ =>
                      match write content with
                      | inr _ => Saved name content
                      | inl e => WriteFailed500 e
                      end
                  end
              end
        | _, _ => Failed500 (TypeError "match")
        end
  end.

(** Line 730 of [GET /prd/:projectName]: the files of the docs directory
    that are listed. *)
Definition listed (isFile : bool) (file : string) : bool :=
  isFile && (Text.endsWith file ".txt" || Text.endsWith file ".md").

End Prd.

(** ** PUT /api/taskmaster/update-task/:projectName/:taskId: the command line *)

Module Cli.

(** The double quote character. *)
Definition quote : string := String (ascii_of_nat 34) EmptyString.

(** [if (v) updates.push(`label: "${v}"`)] *)
Definition push_update (label : string) (v : value) (updates : list string)
  : outcome (list string) :=
  match first_truthy v with
  | Some j =>
      run* text := Text.to_string j in
      Done (updates ++ [label +:+ ": " +:+ quote +:+ text +:+ quote])%list
  | None => Done updates
  end.

(** Line 1190: the arguments of the [set-status] command. *)
Definition set_status (taskId : string) (status : json) : outcome (list string) :=
  run* text := Text.to_string status in
  Done [ "task-master-ai"; "set-status"; "--id=" +:+ taskId; "--status=" +:+ text ].

(** Lines 1234-1242: the arguments of the [update-task] command. *)
Definition update_prompt (taskId : string) (title description priority details : value)
  : outcome (list string) :=
  run* updates := push_update "title" title [] in
  run* updates := push_update "description" description updates in
  run* updates := push_update "priority" priority updates in
  run* updates := push_update "details" details updates in
  let prompt := "Update task with the following changes: " +:+ Text.join ", " updates in
  Done [ "task-master-ai"; "update-task"; "--id=" +:+ taskId; "--prompt=" +:+ prompt ].

Inductive Response : Type :=
| NotFound404
| Spawned (args : list string)     (* [spawn('npx', args, ...)] *)
| Failed500 (e : exn)              (* 'Failed to update task' *)
| OutsideFragment.

(** Lines 1172-1293, up to the [spawn]: the members of the body are read
    first, then the project is looked up, then the command is chosen. *)
Definition update_task (taskId : string) (body : json) (projectPath : Res string)
  : Response :=
  let members :=
    let* title := get body "title" in
    let* description := get body "description" in
    let* status := get body "status" in
    let* priority := get body "priority" in
    let* details := get body "details" in
    ret (title, description, status, priority, details) in
  match members with
  | inl e => Failed500 e
  | inr (title, description, status, priority, details) =>
      match projectPath with
      | inl _ => NotFound404
      | inr _ =>
          let args :=
            match first_truthy status with
            | Some st =>
                if (length (Object_keys body) =? 1)%nat
                then set_status taskId st
                else update_prompt taskId title description priority details
            | None => update_prompt taskId title description priority details
            end in
          match args with
          | Done args => Spawned args
          | Throws e => Failed500 e
          | Unmodelled => OutsideFragment
          end
      end
  end.

End Cli.

(** ** getAllMCPServers (server/utils/mcp-detector.js) *)

Module McpAll.

Record Servers : Type := {
  hasConfig : bool;
  configPath : option string;
  error : option string;
  servers : json;
  projectServers : json
}.

Definition no_config (error : option string) : Servers :=
  {| hasConfig := false; configPath := None; error := error;
     servers := JObj []; projectServers := JObj [] |}.

(** Lines 152-198, given the outcome of reading and parsing the two
    configuration files in their order. *)
Definition getAllMCPServers (files : list (string * Res json)) : Servers :=
  match Mcp.first_config files with
  | None => no_config None
  | Some (path, configData) =>
      if negb (truthy_json configData) then no_config None
      else
        let members :=
          let* mcpServers := get configData "mcpServers" in
          let* projects := get configData "projects" in
          ret (or_else mcpServers (JObj []), or_else projects (JObj [])) in
        match members with
        | inr (s, p) =>
            {| hasConfig := true; configPath := Some path; error := None;
               servers := s; projectServers := p |}
        | inl e => no_config (Some (message e))
        end
  end.

End McpAll.

(** ** Broadcasts to the connected clients (server/utils/taskmaster-websocket.js) *)

Module Broadcast.

(** One element of [wss.clients]: its [readyState], and whether [send]
    returns or throws when it is called with the message. *)
Record Client : Type := {
  readyState : N;
  send : Res unit
}.

(** The message object: its members in the order of the literal.  The
    text sent is [JSON.stringify(message)], which leaves out a member that
    is [undefined]. *)
Definition Message : Type := list (string * value).

(** What a broadcast does, in order: a warning on the console, a message
    handed to the client at a position of [wss.clients], or the error of
    a failed [send] written to the console. *)
Inductive Event : Type :=
| Warned (text : string)
| Sent (client : nat) (message : Message)
| SendFailed (client : nat) (e : exn).

(** [wss.clients.forEach(client => ...)]: [i] is the position of the next
    client, [log] what has happened so far. *)
Fixpoint forEach_client (message : Message) (clients : list Client) (i : nat)
    (log : list Event) : list Event :=
  match clients with
  | [] => log
  | client :: rest =>
      let log :=
        if (readyState client =? 1)%N then
          match send client with
          | inr _ => (log ++ [Sent i message])%list
          | inl e => (log ++ [SendFailed i e])%list
          end
        else log in
      forEach_client message rest (S i) log
  end.

(** A broadcast reads the clock at most once and never throws. *)
Definition B : Type := Clock -> nat -> list Event * nat.

Definition missing (what : string) : list Event :=
  [ Warned ("TaskMaster WebSocket broadcast: Missing " +:+ what) ].

(** Lines 15-38.  [wss] is [None] when no server is attached. *)
Definition broadcastTaskMasterProjectUpdate (wss : option (list Client))
    (projectName : string) (taskMasterData : value) : B :=
  fun clk n =>
    match wss with
    | None => (missing "wss or projectName", n)
    | Some clients =>
        if String.eqb projectName "" then (missing "wss or projectName", n)
        else
          let message :=
            [ ("type", Some (JStr "taskmaster-project-updated"));
              ("projectName", Some (JStr projectName));
              ("taskMasterData", taskMasterData);
              ("timestamp", Some (JStr (clk n))) ] in
          (forEach_client message clients 0 [], S n)
    end.

(** Lines 46-69. *)
Definition broadcastTaskMasterTasksUpdate (wss : option (list Client))
    (projectName : string) (tasksData : value) : B :=
  fun clk n =>
    match wss with
    | None => (missing "wss or projectName", n)
    | Some clients =>
        if String.eqb projectName "" then (missing "wss or projectName", n)
        else
          let message :=
            [ ("type", Some (JStr "taskmaster-tasks-updated"));
              ("projectName", Some (JStr projectName));
              ("tasksData", tasksData);
              ("timestamp", Some (JStr (clk n))) ] in
          (forEach_client message clients 0 [], S n)
    end.

(** Lines 76-98. *)
Definition broadcastMCPStatusChange (wss : option (list Client)) (mcpStatus : value) : B :=
  fun clk n =>
    match wss with
    | None => (missing "wss", n)
    | Some clients =>
        let message :=
          [ ("type", Some (JStr "taskmaster-mcp-status-changed"));
            ("mcpStatus", mcpStatus);
            ("timestamp", Some (JStr (clk n))) ] in
        (forEach_client message clients 0 [], S n)
    end.

(** Lines 106-129; [data] defaults to the empty object. *)
Definition broadcastTaskMasterUpdate (wss : option (list Client))
    (updateType : string) (data : value) : B :=
  fun clk n =>
    let data := match data with Some d => d | None => JObj [] end in
    match wss with
    | None => (missing "wss or updateType", n)
    | Some clients =>
        if String.eqb updateType "" then (missing "wss or updateType", n)
        else
          let message :=
            [ ("type", Some (JStr "taskmaster-update"));
              ("updateType", Some (JStr updateType));
              ("data", Some data);
              ("timestamp", Some (JStr (clk n))) ] in
          (forEach_client message clients 0 [], S n)
    end.

End Broadcast.

(** ** TaskIndicator and TaskMasterStatus (src/components) *)

Module Status.





Definition metadata_of (taskmaster : option Detect.FolderResult)
  : option (outcome Detect.Metadata) :=
  match taskmaster with
  | Some (Detect.Present _ _ metadata _) => metadata
  | _ => None
  end.

(** [Math.round((completedCount / taskCount) * 100)] *)
Definition percentage (completedCount taskCount : N) : spec_float :=
  Detect.Math_round
    (number_mul (number_div (number_of_N completedCount) (number_of_N taskCount))
                (number_of_Z 100)).



End Status.

(** ** NextTaskBanner (src/components/NextTaskBanner.jsx) *)

Module Banner.

Inductive Text : Type :=
| AllDone        (* "All done!" *)
| NoPending.     (* "No pending tasks" *)

Inductive Content : Type :=
| Nothing                          (* the component returns [null] *)
| Setup                            (* "TaskMaster AI is not configured" *)
| NextTask (task : json)
| Completion (text : Text) (completedTasks totalTasks : nat)
| Empty.                           (* [bannerContent = null] *)

(** [tasks.filter(task => task.status === 'done')] *)
Fixpoint done_tasks (tasks : list json) : Res (list json) :=
  match tasks with
  | [] => ret []
  | task :: rest =>
      let* st := get task "status" in
      let* more := done_tasks rest in
      ret (match st with
           | Some v => if strict_eq_str v "done" then task :: more else more
           | None => more
           end)
  end.

(** Lines 52-239: the banner chosen.  [tasks] is [None] when the list is
    [undefined] or [null]; [hasTaskmaster] is the truth of
    [projectTaskMaster?.hasTaskmaster]. *)
Definition content (currentProject isLoadingTasks : bool) (tasks : option (list json))
    (hasTaskmaster : bool) (nextTask : value) : Res Content :=
  if negb currentProject || isLoadingTasks then ret Nothing
  else
    let no_tasks :=
      match tasks with
      | Some l => (length l =? 0)%nat
      | None => true
      end in
    if no_tasks && negb hasTaskmaster then ret Setup
    else
      match first_truthy nextTask with
      | Some task => ret (NextTask task)
      | None =>
          match tasks with
          | Some l =>
              if (0 <? length l)%nat then
                let* done := done_tasks l in
                let completedTasks := length done in
                let totalTasks := length l in
                ret (Completion (if (completedTasks =? totalTasks)%nat
                                 then AllDone else NoPending)
                                completedTasks totalTasks)
              else ret Empty
          | None => ret Empty
          end
      end.

End Banner.

(** ** The specification's wording, for comparison with the code *)

Module Rules.

(** A member that exists: an own property of the value.  Nothing exists
    under [null] or under a missing member. *)
Definition member (v : json) (k : string) : value := assoc k (Object_entries v).

Definition has_tasks_list (v : json) : bool := isArray (member v "tasks").

Definition holds_tasks_list (rawJSON : json) (key : string) : bool :=
  match member rawJSON key with
  | Some v => has_tasks_list v
  | None => false
  end.

(** [rawJSON.master.tasks], when it exists. *)
Definition under_master (rawJSON : json) : value :=
  match member rawJSON "master" with
  | Some m => member m "tasks"
  | None => None
  end.

(** The first key in enumeration order whose value has a [tasks] list,
    with that list. *)
Definition first_tag (rawJSON : json) : option (json * string) :=
  match find (holds_tasks_list rawJSON) (Object_keys rawJSON) with
  | Some key =>
      match member rawJSON key with
      | Some v =>
          match member v "tasks" with
          | Some t => Some (t, key)
          | None => None
          end
      | None => None
      end
  | None => None
  end.

(** Section 4.2, input shape resolution: rules 1 to 5 in their order,
    first match wins.  The result is the task list and [currentTag]. *)
Definition resolve_by_rules (rawJSON : json) : json * string :=
  match rawJSON with
  | JArr _ => (rawJSON, "master")
  | _ =>
      match member rawJSON "tasks" with
      | Some (JArr l) => (JArr l, "master")
      | _ =>
          match under_master rawJSON with
          | Some t => (t, "master")
          | None =>
              match first_tag rawJSON with
              | Some r => r
              | None => (JArr [], "master")
              end
          end
      end
  end.

(** Section 4.1, the truth table. *)
Definition reconcile (taskmasterPresent mcpConfigured : bool) : string :=
  match taskmasterPresent, mcpConfigured with
  | true, true => "fully-configured"
  | true, false => "taskmaster-only"
  | false, true => "mcp-only"
  | false, false => "not-configured"
  end.

(** [hasTaskmaster AND hasEssentialFiles] *)
Definition taskmasterPresent (r : Detect.FolderResult) : bool :=
  Detect.hasTaskmaster r
  && match Detect.hasEssentialFiles_of r with
     | Some e => e
     | None => false
     end.

(** A TaskMaster entry is present in the MCP configuration and has a
    runnable command or URL. *)
Definition mcpConfigured (r : Mcp.Result) : bool :=
  Mcp.hasMCPServer r
  && match Mcp.isConfigured_of r with
     | Some c => c
     | None => false
     end.

Definition not_null (v : json) : bool :=
  match v with
  | JNull => false
  | _ => true
  end.

(** The [tasks] member of [v] is absent or a list. *)
Definition tasks_absent_or_list (v : json) : bool :=
  match member v "tasks" with
  | None => true
  | Some (JArr _) => true
  | Some _ => false
  end.

(** The member under [key] is not [null], and holds no task list under
    the empty key. *)
Definition member_ok (rawJSON : json) (key : string) : bool :=
  match member rawJSON key with
  | Some v => not_null v && (negb (String.eqb key "") || negb (has_tasks_list v))
  | None => true
  end.

(** Documents on which the code and the rules agree: not [null], no
    [null] member, [tasks] and [master.tasks] each absent or a list, and no
    task list under the empty key. *)
Definition well_shaped (rawJSON : json) : bool :=
  match rawJSON with
  | JArr _ => true
  | JNull => false
  | _ =>
      tasks_absent_or_list rawJSON
      && match member rawJSON "master" with
         | Some m => tasks_absent_or_list m
         | None => true
         end
      && forallb (member_ok rawJSON) (Object_keys rawJSON)
  end.

(** None of rules 1 to 4 applies. *)
Definition no_rule_applies (rawJSON : json) : bool :=
  negb (isArray (Some rawJSON))
  && negb (isArray (member rawJSON "tasks"))
  && match under_master rawJSON with Some _ => false | None => true end
  && match first_tag rawJSON with Some _ => false | None => true end.

(** The entries of a task list. *)
Definition entries (tasks : json) : list json :=
  match tasks with
  | JArr l => l
  | _ => []
  end.

(** No entry of the resolved task list is [null]. *)
Definition no_null_task (rawJSON : json) : bool :=
  match fst (resolve_by_rules rawJSON) with
  | JArr l => forallb not_null l
  | _ => false
  end.

(** Field defaulting as the code performs it: the source value when it is
    truthy, the default otherwise. *)
Definition defaults_to (source : value) (d out : json) : Prop :=
  match source with
  | Some v => if truthy_json v then out = v else out = d
  | None => out = d
  end.

(** A clock-filled field, [task.k1 || task.k2 || now], and the number of
    clock readings after it. *)
Definition time_field (task : json) (k1 k2 : string) (clk : Clock) (n : nat) : json * nat :=
  match first_truthy (member task k1) with
  | Some j => (j, n)
  | None =>
      match first_truthy (member task k2) with
      | Some j => (j, n)
      | None => (JStr (clk n), S n)
      end
  end.




(** Two normalised tasks that differ at most in the clock-filled fields. *)
Definition same_but_times (a b : Tasks.Task) : Prop :=
  Tasks.task_id a = Tasks.task_id b /\ Tasks.title a = Tasks.title b
  /\ Tasks.description a = Tasks.description b /\ Tasks.status a = Tasks.status b
  /\ Tasks.priority a = Tasks.priority b
  /\ Tasks.dependencies a = Tasks.dependencies b
  /\ Tasks.details a = Tasks.details b
  /\ Tasks.testStrategy a = Tasks.testStrategy b
  /\ Tasks.subtasks a = Tasks.subtasks b.

(** The source task carries its own creation and update times. *)
Definition has_times (task : json) : bool :=
  (truthy (member task "createdAt") || truthy (member task "created"))
  && (truthy (member task "updatedAt") || truthy (member task "updated")).

(** Names of the accumulator's own counters that are not statuses. *)
Definition reserved_counters : list string := [ "total"; "subtotalTasks"; "subtasks" ].

(** A status that indexes a counter of its own in the accumulator. *)
Definition countable (k : string) : bool :=
  negb (existsb (String.eqb k) reserved_counters) && negb (Detect.inherited k).

(** The key under which a task is counted: its status string, or
    ["undefined"] when it has none. *)
Definition status_of (task : json) : string :=
  match member task "status" with
  | Some (JStr s) => s
  | _ => "undefined"
  end.

Definition plain_subtask (subtask : json) : bool :=
  not_null subtask
  && match member subtask "status" with
     | None => true
     | Some (JStr s) => negb (Detect.inherited s)
     | Some _ => false
     end.

(** A task record of the expected type: not [null], its status absent or
    a string other than a counter name or an inherited member, its
    subtasks absent, falsy, or a list of such records. *)
Definition plain_task (task : json) : bool :=
  not_null task
  && match member task "status" with
     | None => true
     | Some (JStr s) => countable s
     | Some _ => false
     end
  && match first_truthy (member task "subtasks") with
     | None => true
     | Some (JArr l) => forallb plain_subtask l
     | Some _ => false
     end.

(** The number of tasks counted under [k]. *)
Definition tally (k : string) (tasks : list json) : N :=
  N.of_nat (length (List.filter (fun task => String.eqb (status_of task) k) tasks)).

(** The specification's completion percentage,
    [round(doneCount / totalCount * 100)] in exact arithmetic with a half
    rounded up, and [0] when [totalCount] is 0. *)
Definition percentage (doneCount totalCount : N) : Z :=
  if (totalCount =? 0)%N then 0%Z
  else ((200 * Z.of_N doneCount + Z.of_N totalCount) / (2 * Z.of_N totalCount))%Z.








(** The key is one of the accumulator's initial counters. *)
Definition initially (k : string) : bool :=
  match Detect.initial_stats !! k with
  | Some _ => true
  | None => false
  end.

(** What the accumulator holds for the tasks counted so far: [total]
    tasks, and under each countable key [k] the number [c k], the key
    being absent when it was not there initially and nothing was counted. *)
Definition tallied (acc : gmap string Detect.aval) (total : N) (c : string -> N) : Prop :=
  acc !! "total" = Some (Detect.ANum total)
  /\ (exists s, acc !! "subtotalTasks" = Some (Detect.ANum s))
  /\ (exists m, acc !! "subtasks" = Some (Detect.AObj m))
  /\ forall k, countable k = true ->
       acc !! k = if initially k || (0 <? c k)%N
                  then Some (Detect.ANum (c k)) else None.




(** Section 4.3: every literal occurrence of [needle] replaced by
    [value], from left to right. *)
Fixpoint replace_literal (needle value s : string) (skip : nat) : string :=
  match s with
  | EmptyString => EmptyString
  | String c rest =>
      match skip with
      | S k => replace_literal needle value rest k
      | O =>
          if String.prefix needle s
          then value +:+ replace_literal needle value rest (String.length needle - 1)
          else String c (replace_literal needle value rest 0)
      end
  end.

Definition substitute_placeholders (content : string) (customizations : list (string * string))
  : string :=
  fold_left (fun c '(key, value) => replace_literal ("[" +:+ key +:+ "]") value c 0)
            customizations content.

Fixpoint no_char (x : ascii) (s : string) : bool :=
  match s with
  | EmptyString => true
  | String c rest => negb (Ascii.eqb c x) && no_char x rest
  end.

(** A placeholder name of letters, digits, spaces and the like: no
    backslash, closing bracket or hyphen, and no caret in front. *)
Definition plain_key (key : string) : bool :=
  forallb Template.plain (Template.chars key) && negb (String.prefix "^" key).

(** What the substitution loop does with a plain key and a value without a
    dollar sign: each character of the content that occurs in the key is
    replaced by the value. *)
Fixpoint replace_members (key value content : string) : string :=
  match content with
  | EmptyString => EmptyString
  | String c rest =>
      if existsb (Ascii.eqb c) (Template.chars key)
      then value +:+ replace_members key value rest
      else String c (replace_members key value rest)
  end.

(** A server entry names TaskMaster: by its name, or by a command string
    that contains ['task-master']. *)
Definition names_task_master (entry : string * json) : bool :=
  let '(name, config) := entry in
  String.eqb name "task-master-ai"
  || includes name "task-master"
  || match member config "command" with
     | Some (JStr c) => includes c "task-master"
     | _ => false
     end.

Definition nonempty_string (v : value) : bool :=
  match v with
  | Some (JStr s) => negb (String.eqb s "")
  | _ => false
  end.

(** The entry has a non-empty [command] or [url]. *)
Definition has_command_or_url (config : json) : bool :=
  nonempty_string (member config "command") || nonempty_string (member config "url").

Definition absent_or_string (v : value) : bool :=
  match v with
  | None => true
  | Some (JStr _) => true
  | Some _ => false
  end.

(** A server entry of the expected type: an object whose [command] and
    [url], when present, are strings. *)
Definition server_ok (config : json) : bool :=
  match config with
  | JObj _ =>
      absent_or_string (member config "command")
      && absent_or_string (member config "url")
  | _ => false
  end.

(** An [mcpServers] member of the expected type: absent, or an object of
    server entries. *)
Definition servers_ok (servers : value) : bool :=
  match servers with
  | None => true
  | Some (JObj entries) => forallb (fun e => server_ok (snd e)) entries
  | Some _ => false
  end.

Definition project_ok (projectConfig : json) : bool :=
  match projectConfig with
  | JObj _ => servers_ok (member projectConfig "mcpServers")
  | _ => false
  end.

(** A configuration document of the expected type. *)
Definition config_ok (configData : json) : bool :=
  match configData with
  | JObj _ =>
      servers_ok (member configData "mcpServers")
      && match member configData "projects" with
         | None => true
         | Some (JObj projects) => forallb (fun p => project_ok (snd p)) projects
         | Some _ => false
         end
  | _ => false
  end.

(** The entries of an [mcpServers] member. *)
Definition entries_of (servers : value) : list (string * json) :=
  match servers with
  | Some s => Object_entries s
  | None => []
  end.

Definition user_entries (configData : json) : list (string * json) :=
  entries_of (member configData "mcpServers").

Definition project_entries (projectConfig : json) : list (string * json) :=
  entries_of (member projectConfig "mcpServers").

Definition projects_of (configData : json) : list (string * json) :=
  match member configData "projects" with
  | Some p => Object_entries p
  | None => []
  end.

(** The first project, in enumeration order, with an entry that names
    TaskMaster. *)
Definition first_project (configData : json) : option (string * json) :=
  find (fun p => existsb names_task_master (project_entries (snd p)))
       (projects_of configData).

(** The entry detection reports: the first user-scoped entry that names
    TaskMaster, or failing that the first such entry of the first project
    that has one; with its scope. *)
Definition reported_entry (configData : json) : option (string * (string * json)) :=
  match find names_task_master (user_entries configData) with
  | Some e => Some ("user", e)
  | None =>
      match first_project configData with
      | Some p =>
          match find names_task_master (project_entries (snd p)) with
          | Some e => Some ("local", e)
          | None => None
          end
      | None => None
      end
  end.

End Rules.

(** ** Concrete documents used in examples *)

Module Samples.

Definition num (z : Z) : json := JNum (number_of_Z z).

Definition clock_a : Clock := fun _ => "2025-01-01T00:00:00.000Z".
Definition clock_b : Clock := fun _ => "2025-06-30T12:00:00.000Z".

(** [{featureX: {tasks: [{id:2}]}, master: {tasks: []}}] *)
Definition two_tags : json :=
  JObj [ ("featureX", JObj [("tasks", JArr [JObj [("id", num 2)]])]);
         ("master", JObj [("tasks", JArr [])]) ].

(** [{onlyTag: {tasks: [{id:5, status:"done"}]}}] *)
Definition only_tag : json :=
  JObj [ ("onlyTag", JObj [("tasks", JArr [JObj [("id", num 5); ("status", JStr "done")]])]) ].

(** [{tasks: [{id:1, title:"A"}]}] *)
Definition one_task : json :=
  JObj [ ("tasks", JArr [JObj [("id", num 1); ("title", JStr "A")]]) ].

(** [{tasks: "none", master: {tasks: [{id:1}]}}] *)
Definition tasks_not_a_list : json :=
  JObj [ ("tasks", JStr "none");
         ("master", JObj [("tasks", JArr [JObj [("id", num 1)]])]) ].

(** [{id:1, title:""}] *)
Definition empty_title : json := JObj [ ("id", num 1); ("title", JStr "") ].


(** [[{id:1, status:"done"}, {id:2, status:"pending"}]] *)
Definition done_and_pending : list json :=
  [ JObj [("id", num 1); ("status", JStr "done")];
    JObj [("id", num 2); ("status", JStr "pending")] ].


(** [{id:1, createdAt:"2024-05-01", updatedAt:"2024-05-02"}] *)
Definition timed_task : json :=
  JObj [ ("id", num 1); ("createdAt", JStr "2024-05-01"); ("updatedAt", JStr "2024-05-02") ].

(** [{"mcpServers": {"task-master-ai": null}}] *)
Definition null_server : json :=
  JObj [ ("mcpServers", JObj [("task-master-ai", JNull)]) ].

(** [{"mcpServers": {"other": {"command": "node"}},
      "projects": {"/work": {"mcpServers":
         {"tm": {"command": "npx task-master-ai"}}}}}] *)
Definition project_scoped : json :=
  JObj [ ("mcpServers", JObj [("other", JObj [("command", JStr "node")])]);
         ("projects",
          JObj [("/work",
                 JObj [("mcpServers",
                        JObj [("tm", JObj [("command", JStr "npx task-master-ai")])])])]) ].

(** The configuration files of a machine whose [~/.claude.json] parses to
    [configData]. *)
Definition claude_json (configData : json) : list (string * Res json) :=
  [ ("/home/user/.claude.json", inr configData);
    ("/home/user/.claude/settings.json", inl (IOError "ENOENT")) ].

(** A project with a [.taskmaster] folder in which only config.json is
    readable. *)
Definition folder_without_tasks : Detect.Folder :=
  {| Detect.taskmaster_stat := Detect.IsDirectory;
     Detect.readable := fun file => String.eqb file "config.json";
     Detect.tasks_json := inl (IOError "ENOENT");
     Detect.tasks_json_mtime := inl (IOError "ENOENT");
     Detect.taskMasterPath := "/home/demo/.taskmaster" |}.

(** A positive MCP detection with a runnable command. *)
Definition mcp_found : Mcp.Result :=
  Mcp.Detected true false "user"
    {| Mcp.command := Some (JStr "npx"); Mcp.args := JArr []; Mcp.url := None;
       Mcp.envVars := []; Mcp.type := "stdio" |}.

(** A template list holding the text of the specification's example. *)
Definition greeting_templates : list Template.PrdTemplate :=
  [ {| Template.tpl_id := "greeting"; Template.tpl_name := "Greeting";
       Template.tpl_content := "Hello [Name], welcome to [Project]! - [Name]" |} ].

(** A request for a project whose tasks.json parses to [j]. *)
Definition request (j : json) : Tasks.Request :=
  {| Tasks.req_projectName := "demo";
     Tasks.req_projectPath := inr "/home/demo";
     Tasks.req_accessible := true;
     Tasks.req_tasksData := inr j |}.

End Samples.

(** ** Vocabulary of the statements *)

Module Shapes.

(** The project has no usable path: no truthy [fullPath], and
    [extractProjectDirectory] fails. *)
Definition unresolved (p : Detect.Project) : bool :=
  match Detect.prj_fullPath p, Detect.prj_extracted p with
  | Some path, inl _ => String.eqb path ""
  | None, inl _ => true
  | _, inr _ => false
  end.

Definition statuses : list string :=
  [ "fully-configured"; "taskmaster-only"; "mcp-only"; "not-configured"; "error" ].


(** The text consists of decimal digits. *)
Fixpoint digits (s : string) : bool :=
  match s with
  | EmptyString => true
  | String c rest => Text.between 48 57 c && digits rest
  end.

(** A task record that is not itself a tag: not [null], and without a
    truthy [tasks] member. *)
Definition task_record (task : json) : bool :=
  Rules.not_null task && negb (truthy (Rules.member task "tasks")).

(** The output task [t] carries the members of the source record [task],
    each replaced by its default when it is falsy. *)
Definition normalised (task : json) (t : Tasks.Task) : Prop :=
  Tasks.task_id t = Rules.member task "id"
  /\ Tasks.title t = or_else (Rules.member task "title") (JStr "Untitled Task")
  /\ Tasks.status t = or_else (Rules.member task "status") (JStr "pending")
  /\ Tasks.priority t = or_else (Rules.member task "priority") (JStr "medium")
  /\ Tasks.subtasks t = or_else (Rules.member task "subtasks") (JArr []).

(** The task list held by a tag. *)
Definition tag_list (tagData : json) : list json :=
  match Rules.member tagData "tasks" with
  | Some (JArr l) => l
  | _ => []
  end.

(** A tag: an object whose [tasks] member is a list of task records of
    the expected type. *)
Definition tag (tagData : json) : bool :=
  match tagData with
  | JObj _ =>
      match Rules.member tagData "tasks" with
      | Some (JArr l) => forallb Rules.plain_task l
      | _ => false
      end
  | _ => false
  end.

(** The members of a tagged document: tags, none of them under the key
    [tasks]. *)
Definition tagged (fields : list (string * json)) : bool :=
  forallb (fun kv => negb (String.eqb (fst kv) "tasks") && tag (snd kv)) fields.

(** The tasks of all tags, in the order of the tags. *)
Definition all_tag_tasks (fields : list (string * json)) : list json :=
  concat (map (fun kv => tag_list (snd kv)) fields).

(** The tag whose tasks are listed: [master] when there is one, else the
    first tag, unless its key is the empty string; no tag otherwise. *)
Definition listed_tag (fields : list (string * json)) : option (string * json) :=
  match assoc "master" fields with
  | Some m => Some ("master", m)
  | None =>
      match fields with
      | (k, t) :: _ => if String.eqb k "" then None else Some (k, t)
      | [] => None
      end
  end.

(** The subtasks of a task that are counted: the elements of a truthy
    [subtasks] list. *)
Definition subtask_list (task : json) : list json :=
  match first_truthy (Rules.member task "subtasks") with
  | Some (JArr l) => l
  | _ => []
  end.

Definition subtask_total (tasks : list json) : nat :=
  length (concat (map subtask_list tasks)).

(** The task has no status: the member is absent or the empty string. *)
Definition unset (task : json) : bool :=
  match Rules.member task "status" with
  | None => true
  | Some (JStr s) => String.eqb s ""
  | Some _ => false
  end.


(** The names listed for the project-scoped servers. *)
Definition local_names (projects : list (string * json)) : list string :=
  concat (map (fun p => map (fun name => "local:" +:+ name)
                            (map fst (Rules.project_entries (snd p)))) projects).

(** The names listed when no TaskMaster server is found. *)
Definition server_names (configData : json) : list string :=
  (map fst (Rules.user_entries configData)
   ++ local_names (Rules.projects_of configData))%list.

(** Every character of the text satisfies [p]. *)
Fixpoint all_chars (p : ascii -> bool) (s : string) : bool :=
  match s with
  | EmptyString => true
  | String c rest => p c && all_chars p rest
  end.

(** A PRD file name: one or more characters that are letters, digits,
    underscores, dashes, dots or spaces, followed by [.txt] or [.md]. *)
Definition prd_name (s : string) : Prop :=
  exists stem ext,
    s = stem +:+ ext /\ stem <> "" /\ all_chars Prd.name_char stem = true
    /\ (ext = ".txt" \/ ext = ".md").

(** The client's connection is open. *)
Definition open (c : Broadcast.Client) : bool := (Broadcast.readyState c =? 1)%N.

(** What the loop does for the client at position [i]. *)
Definition attempt (message : Broadcast.Message) (i : nat) (c : Broadcast.Client)
  : list Broadcast.Event :=
  if open c then
    match Broadcast.send c with
    | inr _ => [Broadcast.Sent i message]
    | inl e => [Broadcast.SendFailed i e]
    end
  else [].

(** [events] is one attempt for each open client, in the order of the
    clients: the message is sent to the open clients whose [send]
    returns, the error is logged for those whose [send] throws, and
    nothing else happens. *)
Definition delivered (message : Broadcast.Message) (clients : list Broadcast.Client)
    (events : list Broadcast.Event) : Prop :=
  events = concat (imap (attempt message) clients)
  /\ length events = length (List.filter open clients)
  /\ (forall i m, In (Broadcast.Sent i m) events
                  <-> m = message
                      /\ exists c, clients !! i = Some c /\ open c = true
                                   /\ Broadcast.send c = inr tt)
  /\ (forall i e, In (Broadcast.SendFailed i e) events
                  <-> exists c, clients !! i = Some c /\ open c = true
                                /\ Broadcast.send c = inl e)
  /\ (forall text, ~ In (Broadcast.Warned text) events).

(** The task's status is the string ['done']. *)
Definition is_done (task : json) : bool :=
  match Rules.member task "status" with
  | Some v => strict_eq_str v "done"
  | None => false
  end.

(** The text without the characters of [class]. *)
Fixpoint strip (class : list ascii) (s : string) : string :=
  match s with
  | EmptyString => EmptyString
  | String c rest =>
      if existsb (Ascii.eqb c) class then strip class rest else String c (strip class rest)
  end.

(** The characters of all the keys. *)
Definition key_chars (keys : list string) : list ascii :=
  concat (map Template.chars keys).

End Shapes.

(** ** Further documents used in examples *)

Module Cases.

(** [[{id:1, status:"done", subtasks:[{id:1, status:"done"}, {id:2}]},
      {id:2, status:"review"}, {id:3}]] *)
Definition three_tasks : list json :=
  [ JObj [ ("id", Samples.num 1); ("status", JStr "done");
           ("subtasks", JArr [ JObj [("id", Samples.num 1); ("status", JStr "done")];
                               JObj [("id", Samples.num 2)] ]) ];
    JObj [ ("id", Samples.num 2); ("status", JStr "review") ];
    JObj [ ("id", Samples.num 3) ] ].

(** [{tasks: three_tasks}] *)
Definition legacy : json := JObj [ ("tasks", JArr three_tasks) ].

(** The members of [{featureX: {tasks: [{id:2}]}, master: {tasks: []}}] *)
Definition two_tag_fields : list (string * json) :=
  [ ("featureX", JObj [("tasks", JArr [JObj [("id", Samples.num 2)]])]);
    ("master", JObj [("tasks", JArr [])]) ].

(** The members of [{"": {tasks: [{id:1}]}, b: {tasks: [{id:2}]}}] *)
Definition empty_key_fields : list (string * json) :=
  [ ("", JObj [("tasks", JArr [JObj [("id", Samples.num 1)]])]);
    ("b", JObj [("tasks", JArr [JObj [("id", Samples.num 2)]])]) ].

(** A project folder with a readable tasks.json whose reading and parsing
    gives [tasks_json]. *)
Definition folder_with (tasks_json : Res json) : Detect.Folder :=
  {| Detect.taskmaster_stat := Detect.IsDirectory;
     Detect.readable := fun file => String.eqb file "tasks/tasks.json";
     Detect.tasks_json := tasks_json;
     Detect.tasks_json_mtime := inr "2025-01-01T00:00:00.000Z";
     Detect.taskMasterPath := "/home/demo/.taskmaster" |}.

(** [{"mcpServers": {"github": {"command": "npx"}},
      "projects": {"/work": {"mcpServers": {"db": {"url": "http://db"}}}}}] *)
Definition other_servers : json :=
  JObj [ ("mcpServers", JObj [("github", JObj [("command", JStr "npx")])]);
         ("projects",
          JObj [("/work",
                 JObj [("mcpServers", JObj [("db", JObj [("url", JStr "http://db")])])])]) ].


(** An open client, a closed one, and an open one whose [send] throws. *)
Definition three_clients : list Broadcast.Client :=
  [ {| Broadcast.readyState := 1; Broadcast.send := inr tt |};
    {| Broadcast.readyState := 3; Broadcast.send := inr tt |};
    {| Broadcast.readyState := 1; Broadcast.send := inl (IOError "EPIPE") |} ].

End Cases.

(** * Properties *)

(** ** Status reconciliation *)

Lemma detect_status_table tm mcp :
  Detect.detect_status tm mcp
  = Rules.reconcile (Rules.taskmasterPresent tm) (Rules.mcpConfigured mcp).
Proof.
  unfold Detect.detect_status, Rules.taskmasterPresent, Rules.mcpConfigured, Detect.both.
  destruct tm as [reason | e files md path]; destruct mcp as [r h p a | c k sc cfg]; simpl;
    try destruct e; try destruct c; reflexivity.
Qed.

Lemma detect_all_status_table tm mcp :
  Detect.detect_all_status tm mcp
  = Rules.reconcile (Rules.taskmasterPresent tm) (Rules.mcpConfigured mcp).
Proof.
  unfold Detect.detect_all_status, Rules.taskmasterPresent, Rules.mcpConfigured, Detect.both.
  destruct tm as [reason | e files md path]; destruct mcp as [r h p a | c k sc cfg]; simpl;
    try destruct e; try destruct c; reflexivity.
Qed.

(** A folder whose tasks file is unreadable, or that is missing, is not
    present. *)
Lemma unreadable_tasks_not_present (f : Detect.Folder) :
  Detect.readable f "tasks/tasks.json" = false ->
  Rules.taskmasterPresent (Detect.detectTaskMasterFolder f) = false.
Proof.
  intros Hr. unfold Detect.detectTaskMasterFolder.
  destruct (Detect.taskmaster_stat f); try reflexivity.
  unfold Detect.keyFiles. simpl. rewrite Hr. simpl.
  destruct (Detect.readable f "config.json"); reflexivity.
Qed.

Lemma readable_tasks_present (f : Detect.Folder) :
  Detect.taskmaster_stat f = Detect.IsDirectory ->
  Detect.readable f "tasks/tasks.json" = true ->
  Rules.taskmasterPresent (Detect.detectTaskMasterFolder f) = true.
Proof.
  intros Hs Hr. unfold Detect.detectTaskMasterFolder. rewrite Hs.
  unfold Detect.keyFiles. simpl. rewrite Hr. simpl.
  destruct (Detect.readable f "config.json"); reflexivity.
Qed.

(** Every row of the table is reached by some pair of detection results. *)
Lemma reconcile_rows_reached (tp mc : bool) :
  exists tm mcp, Rules.taskmasterPresent tm = tp /\ Rules.mcpConfigured mcp = mc.
Proof.
  exists (Detect.Present tp [] None ""),
         (Mcp.Detected mc false "user"
            {| Mcp.command := None; Mcp.args := JArr []; Mcp.url := None;
               Mcp.envVars := []; Mcp.type := "unknown" |}).
  split; reflexivity.
Qed.

(** C1.  In both routes the reconciled status is the value of the truth
    table of section 4.1 at [(taskmasterPresent, mcpConfigured)], where
    [taskmasterPresent] is [hasTaskmaster AND hasEssentialFiles]; each of
    the four rows is reached; and a project whose [.taskmaster] folder
    exists while its tasks file is unreadable is neither
    ['fully-configured'] nor ['taskmaster-only']. *)
Theorem reconcile_truth_table :
  (forall tm mcp,
      Detect.detect_status tm mcp
      = Rules.reconcile (Rules.taskmasterPresent tm) (Rules.mcpConfigured mcp)
      /\ Detect.detect_all_status tm mcp
         = Rules.reconcile (Rules.taskmasterPresent tm) (Rules.mcpConfigured mcp))
  /\ (forall tp mc, exists tm mcp,
         Rules.taskmasterPresent tm = tp /\ Rules.mcpConfigured mcp = mc
         /\ Detect.detect_status tm mcp = Rules.reconcile tp mc)
  /\ (Rules.reconcile true true = "fully-configured"
      /\ Rules.reconcile true false = "taskmaster-only"
      /\ Rules.reconcile false true = "mcp-only"
      /\ Rules.reconcile false false = "not-configured")
  /\ (forall (f : Detect.Folder) mcp,
         Detect.taskmaster_stat f = Detect.IsDirectory ->
         Detect.readable f "tasks/tasks.json" = false ->
         let s := Detect.detect_status (Detect.detectTaskMasterFolder f) mcp in
         Detect.hasTaskmaster (Detect.detectTaskMasterFolder f) = true
         /\ s <> "fully-configured" /\ s <> "taskmaster-only").
Proof.
  split; [| split; [| split]].
  - intros tm mcp. split; [apply detect_status_table | apply detect_all_status_table].
  - intros tp mc. destruct (reconcile_rows_reached tp mc) as (tm & mcp & Ht & Hm).
    exists tm, mcp. repeat split; trivial.
    rewrite detect_status_table, Ht, Hm. reflexivity.
  - repeat split; reflexivity.
  - intros f mcp Hs Hr s. subst s. split.
    + unfold Detect.detectTaskMasterFolder. rewrite Hs.
      destruct (Detect.check_files _ _ _ _). reflexivity.
    + rewrite detect_status_table, (unreadable_tasks_not_present f Hr).
      destruct (Rules.mcpConfigured mcp); split; discriminate.
Qed.

Lemma reconcile_truth_table_witness :
  Detect.taskmaster_stat Samples.folder_without_tasks = Detect.IsDirectory
  /\ Detect.readable Samples.folder_without_tasks "tasks/tasks.json" = false
  /\ Detect.hasTaskmaster (Detect.detectTaskMasterFolder Samples.folder_without_tasks) = true
  /\ Detect.detect_status (Detect.detectTaskMasterFolder Samples.folder_without_tasks)
                          Samples.mcp_found <> "fully-configured"
  /\ Detect.detect_status (Detect.detectTaskMasterFolder Samples.folder_without_tasks)
                          Samples.mcp_found <> "taskmaster-only".
Proof.
  split; [reflexivity |]. split; [reflexivity |].
  exact (proj2 (proj2 (proj2 reconcile_truth_table))
           Samples.folder_without_tasks Samples.mcp_found eq_refl eq_refl).
Defined.

(** ** Input shape resolution *)

Lemma get_member (j : json) (k : string) :
  Rules.not_null j = true -> get j k = inr (Rules.member j k).
Proof. destruct j; simpl; intros H; try discriminate; reflexivity. Qed.

Lemma truthy_not_null (j : json) : truthy_json j = true -> Rules.not_null j = true.
Proof. destruct j; simpl; intros H; try discriminate; reflexivity. Qed.

Lemma falsy_no_member (j : json) (k : string) :
  truthy_json j = false -> Rules.member j k = None.
Proof.
  unfold Rules.member. destruct j as [| b | x | s | xs | fs]; simpl; intros H;
    try discriminate; try reflexivity.
  destruct s; [reflexivity | discriminate].
Qed.

Lemma assoc_in_keys {A} (k : string) (l : list (string * A)) :
  In k (map fst l) -> assoc k l <> None.
Proof.
  induction l as [| [k' v] l IH]; simpl; [tauto |].
  intros [-> | Hin].
  - rewrite String.eqb_refl. discriminate.
  - destruct (String.eqb k' k); [discriminate | auto].
Qed.

Lemma find_first_tag_find (j : json) (keys : list string) :
  Rules.not_null j = true ->
  (forall k, In k keys -> Rules.member j k <> None) ->
  forallb (Rules.member_ok j) keys = true ->
  Tasks.find_first_tag j keys = inr (find (Rules.holds_tasks_list j) keys).
Proof.
  intros Hj. induction keys as [| key rest IH]; intros Hdef Hok; [reflexivity |].
  simpl in Hok. apply andb_prop in Hok as [Hk Hrest].
  simpl. rewrite (get_member j key Hj). simpl.
  unfold Rules.holds_tasks_list, Rules.member_ok in *.
  destruct (Rules.member j key) as [v |] eqn:Hm.
  - apply andb_prop in Hk as [Hv _].
    rewrite (get_member v "tasks" Hv). simpl.
    unfold Rules.has_tasks_list.
    assert (Hdef' : forall k, In k rest -> Rules.member j k <> None)
      by (intros k Hin; apply Hdef; right; exact Hin).
    destruct (Rules.member v "tasks") as [[| | | | l |] |]; simpl;
      rewrite ?andb_false_r; try reflexivity; apply IH; assumption.
  - exfalso. apply (Hdef key); [left; reflexivity | exact Hm].
Qed.

Lemma has_truthy_tasks_under (m : json) :
  Rules.tasks_absent_or_list m = true ->
  Tasks.has_truthy_tasks (Some m) = inr (isArray (Rules.member m "tasks")).
Proof.
  unfold Rules.tasks_absent_or_list. intros H. simpl.
  destruct (truthy_json m) eqn:Ht.
  - rewrite (get_member m "tasks" (truthy_not_null m Ht)). simpl.
    destruct (Rules.member m "tasks") as [[| | | | l |] |]; try discriminate; reflexivity.
  - rewrite (falsy_no_member m "tasks" Ht). reflexivity.
Qed.

Lemma resolve_non_array (j : json) :
  Rules.not_null j = true -> isArray (Some j) = false ->
  Tasks.resolve j =
    let* t := get j "tasks" in
    if truthy t then ret (t, "master")
    else
      let* cur := get j "master" in
      let* c1 := Tasks.has_truthy_tasks cur in
      if c1 then let* ts := Tasks.tasks_of cur in ret (ts, "master")
      else
        let* m := get j "master" in
        let* c2 := Tasks.has_truthy_tasks m in
        if c2 then let* ts := Tasks.tasks_of m in ret (ts, "master")
        else
          let* firstTag := Tasks.find_first_tag j (Object_keys j) in
          if Tasks.truthy_key firstTag then
            match firstTag with
            | Some key =>
                let* tag := get j key in
                let* ts := Tasks.tasks_of tag in
                ret (ts, key)
            | None => ret (Some (JArr []), "master")
            end
          else ret (Some (JArr []), "master").
Proof. destruct j; simpl; intros; try discriminate; reflexivity. Qed.

Lemma resolve_by_rules_non_array (j : json) :
  isArray (Some j) = false ->
  Rules.resolve_by_rules j =
  match Rules.member j "tasks" with
  | Some (JArr l) => (JArr l, "master")
  | _ =>
      match Rules.under_master j with
      | Some t => (t, "master")
      | None =>
          match Rules.first_tag j with
          | Some r => r
          | None => (JArr [], "master")
          end
      end
  end.
Proof. destruct j; intros H; try discriminate; reflexivity. Qed.

Lemma well_shaped_non_array (j : json) :
  isArray (Some j) = false ->
  Rules.well_shaped j = true ->
  Rules.tasks_absent_or_list j = true
  /\ match Rules.member j "master" with
     | Some m => Rules.tasks_absent_or_list m
     | None => true
     end = true
  /\ forallb (Rules.member_ok j) (Object_keys j) = true.
Proof.
  intros Harr Hw.
  assert (Hw' : Rules.tasks_absent_or_list j
                && match Rules.member j "master" with
                   | Some m => Rules.tasks_absent_or_list m
                   | None => true
                   end
                && forallb (Rules.member_ok j) (Object_keys j) = true)
    by (destruct j; try discriminate; exact Hw).
  apply andb_prop in Hw' as [Hw1 Hkeys]. apply andb_prop in Hw1 as [Htop Hmaster].
  auto.
Qed.

Lemma resolve_follows_rules (j : json) :
  Rules.well_shaped j = true ->
  Tasks.resolve j
  = inr (Some (fst (Rules.resolve_by_rules j)), snd (Rules.resolve_by_rules j)).
Proof.
  intros Hw.
  destruct (isArray (Some j)) eqn:Harr.
  { destruct j; try discriminate. reflexivity. }
  assert (Hj : Rules.not_null j = true) by (destruct j; try discriminate; reflexivity).
  destruct (well_shaped_non_array j Harr Hw) as (Htop & Hmaster & Hkeys).
  rewrite (resolve_non_array j Hj Harr).
  rewrite (resolve_by_rules_non_array j Harr).
  rewrite (get_member j "tasks" Hj). simpl.
  unfold Rules.tasks_absent_or_list in Htop.
  destruct (Rules.member j "tasks") as [[| | | | l |] |] eqn:Htasks; try discriminate;
    [reflexivity |].
  simpl. rewrite (get_member j "master" Hj). simpl.
  unfold Rules.under_master.
  assert (Hfirst :
    (let* firstTag := Tasks.find_first_tag j (Object_keys j) in
     if Tasks.truthy_key firstTag then
       match firstTag with
       | Some key =>
           let* tag := get j key in
           let* ts := Tasks.tasks_of tag in
           ret (ts, key)
       | None => ret (Some (JArr []), "master")
       end
     else ret (Some (JArr []), "master"))
    = inr (Some (fst match Rules.first_tag j with
                     | Some r => r
                     | None => (JArr [], "master")
                     end),
           snd match Rules.first_tag j with
               | Some r => r
               | None => (JArr [], "master")
               end)).
  { rewrite (find_first_tag_find j (Object_keys j) Hj); trivial.
    2:{ intros k Hin. apply assoc_in_keys. exact Hin. }
    simpl. unfold Rules.first_tag.
    destruct (find (Rules.holds_tasks_list j) (Object_keys j)) as [key |] eqn:Hfind;
      [| reflexivity].
    apply find_some in Hfind as [Hin Hholds].
    rewrite forallb_forall in Hkeys. specialize (Hkeys key Hin).
    unfold Rules.member_ok, Rules.holds_tasks_list in *.
    destruct (Rules.member j key) as [v |] eqn:Hv; [| discriminate].
    apply andb_prop in Hkeys as [Hnn Hkey]. rewrite Hholds in Hkey. simpl in Hkey.
    rewrite orb_false_r in Hkey. simpl. rewrite Hkey.
    rewrite (get_member j key Hj), Hv. simpl. rewrite (get_member v "tasks" Hnn). simpl.
    unfold Rules.has_tasks_list in Hholds.
    destruct (Rules.member v "tasks") as [t |]; [reflexivity | discriminate]. }
  destruct (Rules.member j "master") as [m |] eqn:Hm.
  - rewrite (has_truthy_tasks_under m Hmaster). simpl.
    unfold Rules.tasks_absent_or_list in Hmaster.
    destruct (Rules.member m "tasks") as [[| | | | l |] |] eqn:Hmt; try discriminate.
    + simpl. assert (Hmn : Rules.not_null m = true).
      { destruct m; try reflexivity. discriminate. }
      rewrite (get_member m "tasks" Hmn), Hmt. reflexivity.
    + simpl. exact Hfirst.
  - simpl. exact Hfirst.
Qed.

(** Outside the well-shaped documents the code and the rules part ways: a
    [null] member makes the search for the first tag throw; a task list
    under the empty key is found and then dropped by [if (firstTag)]; a
    [master.tasks] that exists but is [null] is passed over. *)
Example resolution_outside_well_shaped :
  (Tasks.resolve (JObj [("a", JNull)]) = inl (TypeError "tasks")
   /\ Rules.resolve_by_rules (JObj [("a", JNull)]) = (JArr [], "master"))
  /\ (Tasks.resolve (JObj [("", JObj [("tasks", JArr [JStr "t"])])])
      = inr (Some (JArr []), "master")
      /\ Rules.resolve_by_rules (JObj [("", JObj [("tasks", JArr [JStr "t"])])])
         = (JArr [JStr "t"], ""))
  /\ (Tasks.resolve (JObj [ ("master", JObj [("tasks", JNull)]);
                            ("featureX", JObj [("tasks", JArr [JStr "t"])]) ])
      = inr (Some (JArr [JStr "t"]), "featureX")
      /\ Rules.resolve_by_rules (JObj [ ("master", JObj [("tasks", JNull)]);
                                        ("featureX", JObj [("tasks", JArr [JStr "t"])]) ])
         = (JNull, "master")).
Proof. repeat split; reflexivity. Qed.

(** ** Field defaulting *)

Lemma cbind_inr {A B} (m : M A) (k : A -> M B) clk n a n' :
  m clk n = inr (a, n') -> cbind m k clk n = k a clk n'.
Proof. unfold cbind. intros ->. reflexivity. Qed.

Lemma lift_member_or (task : json) (k : string) (d : json) clk n :
  Rules.not_null task = true ->
  lift (Tasks.member_or task k d) clk n = inr (or_else (Rules.member task k) d, n).
Proof.
  intros H. unfold lift, Tasks.member_or. rewrite (get_member task k H). reflexivity.
Qed.

Lemma lift_get (task : json) (k : string) clk n :
  Rules.not_null task = true ->
  lift (get task k) clk n = inr (Rules.member task k, n).
Proof. intros H. unfold lift. rewrite (get_member task k H). reflexivity. Qed.

Lemma member_or_now_eq (task : json) (k1 k2 : string) clk n :
  Rules.not_null task = true ->
  Tasks.member_or_now task k1 k2 clk n =
  inr (fst (Rules.time_field task k1 k2 clk n), snd (Rules.time_field task k1 k2 clk n)).
Proof.
  intros H. unfold Tasks.member_or_now, Rules.time_field.
  rewrite (cbind_inr _ _ clk n _ n (lift_get task k1 clk n H)).
  destruct (first_truthy (Rules.member task k1)); [reflexivity |].
  rewrite (cbind_inr _ _ clk n _ n (lift_get task k2 clk n H)).
  destruct (first_truthy (Rules.member task k2)); reflexivity.
Qed.

Lemma lift_member_or2 (task : json) (k1 k2 : string) (d : json) clk n :
  Rules.not_null task = true ->
  lift (Tasks.member_or2 task k1 k2 d) clk n =
  inr (match first_truthy (Rules.member task k1) with
       | Some j => j
       | None => or_else (Rules.member task k2) d
       end, n).
Proof.
  intros H. unfold lift, Tasks.member_or2. rewrite (get_member task k1 H). simpl.
  destruct (first_truthy (Rules.member task k1)); [reflexivity |].
  rewrite (get_member task k2 H). reflexivity.
Qed.

(** One step of a clocked computation on a task that is not [null]. *)
Ltac clocked_step H :=
  erewrite cbind_inr;
  [| first [ apply lift_member_or | apply member_or_now_eq
           | apply lift_member_or2 | apply lift_get ]; exact H ].

Lemma transform_eq (task : json) clk n :
  Rules.not_null task = true ->
  Tasks.transform task clk n =
  let c := Rules.time_field task "createdAt" "created" clk n in
  let u := Rules.time_field task "updatedAt" "updated" clk (snd c) in
  inr ({| Tasks.task_id := Rules.member task "id";
          Tasks.title := or_else (Rules.member task "title") (JStr "Untitled Task");
          Tasks.description := or_else (Rules.member task "description") (JStr "");
          Tasks.status := or_else (Rules.member task "status") (JStr "pending");
          Tasks.priority := or_else (Rules.member task "priority") (JStr "medium");
          Tasks.dependencies := or_else (Rules.member task "dependencies") (JArr []);
          Tasks.createdAt := fst c;
          Tasks.updatedAt := fst u;
          Tasks.details := or_else (Rules.member task "details") (JStr "");
          Tasks.testStrategy :=
            match first_truthy (Rules.member task "testStrategy") with
            | Some j => j
            | None => or_else (Rules.member task "test_strategy") (JStr "")
            end;
          Tasks.subtasks := or_else (Rules.member task "subtasks") (JArr []) |},
       snd u).
Proof.
  intros H. unfold Tasks.transform.
  do 11 clocked_step H. reflexivity.
Qed.

Lemma transform_null clk n : Tasks.transform JNull clk n = inl (TypeError "id").
Proof. reflexivity. Qed.

Lemma or_else_defaults (source : value) (d : json) :
  Rules.defaults_to source d (or_else source d).
Proof.
  unfold Rules.defaults_to, or_else, first_truthy.
  destruct source as [v |]; [| reflexivity]. destruct (truthy_json v); reflexivity.
Qed.

(** C2 (as amended).  On every document that is not [null], has no [null]
    member, whose [tasks] and [master.tasks] are each absent or a list and
    that holds no task list under the empty key, the code resolves the
    shape as rules 1 to 4 prescribe, in their order, first match winning;
    and for [{featureX: {tasks: [{id:2}]}, master: {tasks: []}}] rule 3
    wins with [currentTag] ['master'] and the empty task list. *)
Theorem resolution_order_on_well_shaped :
  (forall j, Rules.well_shaped j = true ->
     Tasks.resolve j
     = inr (Some (fst (Rules.resolve_by_rules j)), snd (Rules.resolve_by_rules j)))
  /\ Tasks.resolve Samples.two_tags = inr (Some (JArr []), "master").
Proof.
  split; [exact resolve_follows_rules | reflexivity].
Qed.

Lemma resolution_order_on_well_shaped_witness :
  Rules.well_shaped Samples.only_tag = true
  /\ Tasks.resolve Samples.only_tag
     = inr (Some (JArr [JObj [("id", Samples.num 5); ("status", JStr "done")]]), "onlyTag").
Proof.
  split; [reflexivity |].
  exact (proj1 resolution_order_on_well_shaped Samples.only_tag eq_refl).
Defined.

(** C2 as stated fails: [tasks] is truthy but not a list, so the rules
    pass on to [master.tasks], while the code takes the string and the
    handler answers 500. *)
Lemma resolution_takes_truthy_non_list :
  Rules.resolve_by_rules Samples.tasks_not_a_list
  = (JArr [JObj [("id", Samples.num 1)]], "master")
  /\ Tasks.resolve Samples.tasks_not_a_list = inr (Some (JStr "none"), "master")
  /\ Tasks.handler (Samples.request Samples.tasks_not_a_list) Samples.clock_a
     = Tasks.ParseFailed500 (TypeError "map").
Proof. repeat split; reflexivity. Qed.

(** ** The handler on well-formed files *)

Lemma transform_ok (task : json) clk n :
  Rules.not_null task = true ->
  exists t n', Tasks.transform task clk n = inr (t, n').
Proof. intros H. rewrite (transform_eq task clk n H). simpl. eauto. Qed.

Lemma Array_map_transform_ok (l : list json) clk n :
  forallb Rules.not_null l = true ->
  exists ts n', Array_map Tasks.transform l clk n = inr (ts, n') /\ length ts = length l.
Proof.
  revert n. induction l as [| task l IH]; intros n Hl.
  - exists [], n. split; reflexivity.
  - simpl in Hl. apply andb_prop in Hl as [Ht Hl].
    destruct (transform_ok task clk n Ht) as (t & n1 & Et).
    destruct (IH n1 Hl) as (ts & n2 & Ets & Hlen).
    exists (t :: ts), n2. split; [| simpl; congruence].
    simpl. rewrite (cbind_inr _ _ clk n t n1 Et).
    rewrite (cbind_inr _ _ clk n1 ts n2 Ets). reflexivity.
Qed.

Lemma well_shaped_resolves_list (j : json) :
  Rules.well_shaped j = true ->
  exists l, fst (Rules.resolve_by_rules j) = JArr l.
Proof.
  intros Hw. destruct (isArray (Some j)) eqn:Harr.
  { destruct j; try discriminate. simpl. eauto. }
  destruct (well_shaped_non_array j Harr Hw) as (Htop & Hmaster & _).
  rewrite (resolve_by_rules_non_array j Harr).
  unfold Rules.tasks_absent_or_list in Htop.
  destruct (Rules.member j "tasks") as [[| | | | l |] |]; try discriminate; simpl; eauto.
  unfold Rules.under_master.
  assert (Hft : exists l, fst match Rules.first_tag j with
                              | Some r => r
                              | None => (JArr [], "master")
                              end = JArr l).
  { unfold Rules.first_tag.
    destruct (find (Rules.holds_tasks_list j) (Object_keys j)) as [key |] eqn:Hf;
      [| simpl; eauto].
    apply find_some in Hf as [_ Hh]. unfold Rules.holds_tasks_list in Hh.
    destruct (Rules.member j key) as [v |]; [| discriminate].
    unfold Rules.has_tasks_list in Hh.
    destruct (Rules.member v "tasks") as [[| | | | l |] |]; try discriminate.
    simpl. eauto. }
  destruct (Rules.member j "master") as [m |]; [| exact Hft].
  unfold Rules.tasks_absent_or_list in Hmaster.
  destruct (Rules.member m "tasks") as [[| | | | l |] |]; try discriminate;
    [simpl; eauto | exact Hft].
Qed.

Lemma normalize_ok name path (j : json) clk n :
  Rules.well_shaped j = true ->
  Rules.no_null_task j = true ->
  exists body n',
    Tasks.normalize name path j clk n = inr (body, n')
    /\ Tasks.currentTag body = snd (Rules.resolve_by_rules j)
    /\ Tasks.totalTasks body = length (Rules.entries (fst (Rules.resolve_by_rules j)))
    /\ length (Tasks.tasks body) = Tasks.totalTasks body
    /\ Tasks.tasksByStatus body = Tasks.tasksByStatus_of (Tasks.tasks body).
Proof.
  intros Hw Hn. unfold Tasks.normalize.
  destruct (well_shaped_resolves_list j Hw) as [l Hl].
  unfold Rules.no_null_task in Hn. rewrite Hl in Hn.
  assert (Hr : lift (Tasks.resolve j) clk n
               = inr ((Some (JArr l), snd (Rules.resolve_by_rules j)), n)).
  { unfold lift. rewrite (resolve_follows_rules j Hw), Hl. reflexivity. }
  rewrite (cbind_inr _ _ clk n _ n Hr).
  destruct (Array_map_transform_ok l clk n Hn) as (ts & n1 & Ets & Hlen).
  assert (Et : Tasks.transformTasks (Some (JArr l)) clk n = inr (ts, n1)) by exact Ets.
  rewrite (cbind_inr _ _ clk n _ n1 Et).
  unfold cbind, now, cret. eexists _, _. split; [reflexivity |].
  simpl. rewrite Hl. simpl. repeat split; auto.
Qed.

Lemma no_rule_resolves_empty (j : json) :
  Rules.no_rule_applies j = true ->
  Rules.resolve_by_rules j = (JArr [], "master").
Proof.
  unfold Rules.no_rule_applies. intros H.
  apply andb_prop in H as [H Hft]. apply andb_prop in H as [H Hum].
  apply andb_prop in H as [Harr Htasks].
  rewrite (resolve_by_rules_non_array j (proj1 (negb_true_iff _) Harr)).
  destruct (Rules.under_master j); [discriminate |].
  destruct (Rules.first_tag j); [discriminate |].
  destruct (Rules.member j "tasks") as [[| | | | l |] |]; try reflexivity; discriminate.
Qed.

(** C3 (as amended).  The handler answers every request whose project
    exists.  A missing tasks file gives the response with the empty task
    list.  A parsed document that is well shaped (not [null], no [null]
    member, [tasks] and [master.tasks] absent or lists, no task list under
    the empty key) and whose resolved task list has no [null] entry gives
    a valid result with the resolved tag and as many tasks as the list
    has; when none of rules 1 to 4 applies that result has the empty task
    list and [currentTag] ['master']. *)
Theorem handler_valid_on_well_formed (req : Tasks.Request) (clk : Clock) (path : string) :
  Tasks.req_projectPath req = inr path ->
  (Tasks.req_accessible req = false ->
     Tasks.handler req clk = Tasks.NoTasksFile (Tasks.req_projectName req))
  /\ (forall j,
        Tasks.req_accessible req = true ->
        Tasks.req_tasksData req = inr j ->
        Rules.well_shaped j = true ->
        Rules.no_null_task j = true ->
        exists body,
          Tasks.handler req clk = Tasks.Ok200 body
          /\ Tasks.currentTag body = snd (Rules.resolve_by_rules j)
          /\ Tasks.totalTasks body = length (Rules.entries (fst (Rules.resolve_by_rules j)))
          /\ length (Tasks.tasks body) = Tasks.totalTasks body
          /\ (Rules.no_rule_applies j = true ->
                Tasks.tasks body = [] /\ Tasks.currentTag body = "master")).
Proof.
  intros Hp. split.
  - intros Ha. unfold Tasks.handler. rewrite Hp, Ha. reflexivity.
  - intros j Ha Hd Hw Hn. unfold Tasks.handler. rewrite Hp, Ha, Hd. simpl.
    destruct (normalize_ok (Tasks.req_projectName req) path j clk 0 Hw Hn)
      as (body & n' & E & Htag & Htot & Hlen & _).
    rewrite E. exists body.
    split; [reflexivity |]. split; [exact Htag |]. split; [exact Htot |].
    split; [exact Hlen |]. intros Hnone. split.
    + rewrite (no_rule_resolves_empty j Hnone) in Htot. simpl in Htot.
      rewrite Htot in Hlen. destruct (Tasks.tasks body); [reflexivity | discriminate].
    + rewrite Htag, (no_rule_resolves_empty j Hnone). reflexivity.
Qed.

Lemma handler_valid_on_well_formed_witness :
  Tasks.req_projectPath (Samples.request (JObj [])) = inr "/home/demo"
  /\ Tasks.req_accessible (Samples.request (JObj [])) = true
  /\ Rules.well_shaped (JObj []) = true
  /\ Rules.no_null_task (JObj []) = true
  /\ Rules.no_rule_applies (JObj []) = true
  /\ exists body,
       Tasks.handler (Samples.request (JObj [])) Samples.clock_a = Tasks.Ok200 body
       /\ Tasks.tasks body = [] /\ Tasks.currentTag body = "master".
Proof.
  repeat (split; [reflexivity |]).
  destruct (proj2 (handler_valid_on_well_formed (Samples.request (JObj []))
                     Samples.clock_a "/home/demo" eq_refl)
                  (JObj []) eq_refl eq_refl eq_refl eq_refl)
    as (body & E & _ & _ & _ & Hnone).
  exists body. split; [exact E |]. exact (Hnone eq_refl).
Defined.

(** C3 as stated fails: the parsed document [null] makes the handler
    report a failure. *)
Lemma handler_fails_on_null :
  Tasks.handler (Samples.request JNull) Samples.clock_a
  = Tasks.ParseFailed500 (TypeError "tasks").
Proof. reflexivity. Qed.

(** A [null] entry in the task list makes the field defaulting throw. *)
Example handler_fails_on_null_task :
  Tasks.handler (Samples.request (JArr [JNull])) Samples.clock_a
  = Tasks.ParseFailed500 (TypeError "id").
Proof. reflexivity. Qed.

(** A tasks file that cannot be read or parsed, a zero-length file
    included, is answered with status 500. *)
Lemma handler_reports_unparseable (req : Tasks.Request) (clk : Clock) path e :
  Tasks.req_projectPath req = inr path ->
  Tasks.req_accessible req = true ->
  Tasks.req_tasksData req = inl e ->
  Tasks.handler req clk = Tasks.ParseFailed500 e.
Proof. intros Hp Ha Hd. unfold Tasks.handler. rewrite Hp, Ha, Hd. reflexivity. Qed.

(** C4 (as amended).  Every task record other than [null] yields an
    output task in which [title], [description], [status], [priority],
    [dependencies], [details] and [subtasks] hold the source value when it
    is truthy and otherwise the documented default (['Untitled Task'],
    [''], ['pending'], ['medium'], [[]], [''], [[]]); [testStrategy] holds
    the source's truthy [testStrategy], else its [test_strategy] under the
    same rule with default ['']; [id] is passed through. *)
Theorem defaults_applied (task : json) (clk : Clock) (n : nat) :
  Rules.not_null task = true ->
  exists t n',
    Tasks.transform task clk n = inr (t, n')
    /\ Tasks.task_id t = Rules.member task "id"
    /\ Rules.defaults_to (Rules.member task "title") (JStr "Untitled Task") (Tasks.title t)
    /\ Rules.defaults_to (Rules.member task "description") (JStr "") (Tasks.description t)
    /\ Rules.defaults_to (Rules.member task "status") (JStr "pending") (Tasks.status t)
    /\ Rules.defaults_to (Rules.member task "priority") (JStr "medium") (Tasks.priority t)
    /\ Rules.defaults_to (Rules.member task "dependencies") (JArr []) (Tasks.dependencies t)
    /\ Rules.defaults_to (Rules.member task "details") (JStr "") (Tasks.details t)
    /\ Rules.defaults_to (Rules.member task "subtasks") (JArr []) (Tasks.subtasks t)
    /\ match first_truthy (Rules.member task "testStrategy") with
       | Some v => Tasks.testStrategy t = v
       | None =>
           Rules.defaults_to (Rules.member task "test_strategy") (JStr "")
                             (Tasks.testStrategy t)
       end.
Proof.
  intros H. rewrite (transform_eq task clk n H). simpl.
  eexists _, _. split; [reflexivity |]. simpl.
  repeat (split; [first [reflexivity | apply or_else_defaults] |]).
  destruct (first_truthy (Rules.member task "testStrategy"));
    [reflexivity | apply or_else_defaults].
Qed.

Lemma defaults_applied_witness :
  Rules.not_null (JObj [("id", Samples.num 1); ("title", JStr "A")]) = true
  /\ exists t n',
       Tasks.transform (JObj [("id", Samples.num 1); ("title", JStr "A")]) Samples.clock_a 0
       = inr (t, n')
       /\ Tasks.title t = JStr "A" /\ Tasks.status t = JStr "pending"
       /\ Tasks.priority t = JStr "medium" /\ Tasks.dependencies t = JArr []
       /\ Tasks.subtasks t = JArr [].
Proof.
  split; [reflexivity |].
  destruct (defaults_applied (JObj [("id", Samples.num 1); ("title", JStr "A")])
              Samples.clock_a 0 eq_refl)
    as (t & n' & E & _ & Ht & _ & Hs & Hp & Hd & _ & Hsub & _).
  exists t, n'. repeat split; assumption.
Defined.

(** C4 as stated fails: a title that is present but empty is not passed
    through, it is replaced by the default. *)
Lemma empty_title_is_replaced :
  Rules.member Samples.empty_title "title" = Some (JStr "")
  /\ exists t n',
       Tasks.transform Samples.empty_title Samples.clock_a 0 = inr (t, n')
       /\ Tasks.title t = JStr "Untitled Task"
       /\ Tasks.title t <> JStr "".
Proof.
  split; [reflexivity |]. eexists _, _. split; [reflexivity |].
  split; [reflexivity | discriminate].
Qed.

(** ** Task statistics *)

Lemma countable_ne (k : string) :
  Rules.countable k = true ->
  k <> "total" /\ k <> "subtotalTasks" /\ k <> "subtasks" /\ Detect.inherited k = false.
Proof.
  unfold Rules.countable, Rules.reserved_counters. simpl. intros H.
  apply andb_prop in H as [Hr Hi]. apply negb_true_iff in Hr, Hi.
  rewrite orb_false_r in Hr.
  apply orb_false_elim in Hr as [H1 Hr]. apply orb_false_elim in Hr as [H2 H3].
  apply String.eqb_neq in H1, H2, H3. auto.
Qed.

Lemma count_subtask_tallied acc total c (subtask : json) :
  Rules.plain_subtask subtask = true ->
  Rules.tallied acc total c ->
  exists acc', Detect.count_subtask acc subtask = Done acc' /\ Rules.tallied acc' total c.
Proof.
  intros Hp (Ht & (s & Hs) & (m & Hm) & Hk).
  unfold Rules.plain_subtask in Hp. apply andb_prop in Hp as [Hnn Hst].
  unfold Detect.count_subtask, Detect.increment. rewrite Hs. simpl.
  rewrite lookup_insert_ne by discriminate. rewrite Hm.
  rewrite (get_member subtask "status" Hnn). simpl.
  set (acc1 := <["subtasks" := Detect.AObj m]> (<["subtotalTasks" := Detect.ANum (s + 1)]> acc)).
  assert (Hgood : forall m', Rules.tallied (<["subtasks" := Detect.AObj m']> acc1) total c).
  { intros m'. unfold acc1. repeat split.
    - rewrite !lookup_insert_ne by discriminate. exact Ht.
    - exists (s + 1)%N. rewrite !lookup_insert_ne by discriminate.
      apply lookup_insert_eq.
    - exists m'. apply lookup_insert_eq.
    - intros k Hc. destruct (countable_ne k Hc) as (_ & N2 & N3 & _).
      rewrite !lookup_insert_ne by congruence. apply Hk, Hc. }
  assert (Hkey : exists k, Detect.status_key (Rules.member subtask "status") = Done k
                           /\ Detect.inherited k = false).
  { destruct (Rules.member subtask "status") as [[| | | st | |] |]; try discriminate.
    - exists st. split; [reflexivity |]. apply negb_true_iff. exact Hst.
    - exists "undefined". split; reflexivity. }
  destruct Hkey as (k & -> & Hinh). simpl.
  destruct (m !! k) as [n |]; [| rewrite Hinh]; eexists; split; try reflexivity; apply Hgood.
Qed.

Lemma foldO_subtasks_tallied (l : list json) acc total c :
  forallb Rules.plain_subtask l = true ->
  Rules.tallied acc total c ->
  exists acc', Detect.foldO Detect.count_subtask l acc = Done acc'
               /\ Rules.tallied acc' total c.
Proof.
  revert acc. induction l as [| st l IH]; intros acc Hl Hacc.
  - exists acc. split; [reflexivity | exact Hacc].
  - simpl in Hl. apply andb_prop in Hl as [Hst Hl].
    destruct (count_subtask_tallied acc total c st Hst Hacc) as (acc1 & E1 & H1).
    destruct (IH acc1 Hl H1) as (acc2 & E2 & H2).
    exists acc2. split; [| exact H2]. simpl. rewrite E1. exact E2.
Qed.

Lemma plain_task_key (task : json) :
  Rules.plain_task task = true ->
  Detect.status_key (Rules.member task "status") = Done (Rules.status_of task)
  /\ Rules.countable (Rules.status_of task) = true.
Proof.
  unfold Rules.plain_task, Rules.status_of. intros H.
  apply andb_prop in H as [H _]. apply andb_prop in H as [_ H].
  destruct (Rules.member task "status") as [[| | | st | |] |]; try discriminate.
  - split; [reflexivity | exact H].
  - split; reflexivity.
Qed.

Lemma count_task_tallied acc total c (task : json) :
  Rules.plain_task task = true ->
  Rules.tallied acc total c ->
  exists acc',
    Detect.count_task acc task = Done acc'
    /\ Rules.tallied acc' (total + 1)
         (fun k => if String.eqb (Rules.status_of task) k then (c k + 1)%N else c k).
Proof.
  intros Hp Hacc. destruct (plain_task_key task Hp) as [Hkey Hcount].
  destruct Hacc as (Ht & (s & Hs) & (m & Hm) & Hk).
  destruct (countable_ne _ Hcount) as (N1 & N2 & N3 & Hinh).
  unfold Rules.plain_task in Hp. apply andb_prop in Hp as [Hp Hsubs].
  apply andb_prop in Hp as [Hnn _].
  unfold Detect.count_task, Detect.increment. rewrite Ht. simpl.
  rewrite (get_member task "status" Hnn). simpl. rewrite Hkey. simpl.
  set (k0 := Rules.status_of task) in *.
  set (acc1 := <["total" := Detect.ANum (total + 1)]> acc).
  assert (Hcu : exists v, Detect.count_under k0 acc1 = Done (<[k0 := Detect.ANum v]> acc1)
                          /\ v = (c k0 + 1)%N).
  { unfold Detect.count_under, acc1. rewrite lookup_insert_ne by congruence.
    rewrite (Hk k0 Hcount).
    destruct (Rules.initially k0 || (0 <? c k0)%N) eqn:Hpres.
    - eexists. split; reflexivity.
    - rewrite Hinh. apply orb_false_elim in Hpres as [_ Hz].
      apply N.ltb_ge in Hz. exists 1%N. split; [reflexivity | lia]. }
  destruct Hcu as (v & -> & ->). simpl.
  set (acc2 := <[k0 := Detect.ANum (c k0 + 1)]> acc1).
  assert (H2 : Rules.tallied acc2 (total + 1)
                 (fun k => if String.eqb k0 k then (c k + 1)%N else c k)).
  { unfold acc2, acc1. repeat split.
    - rewrite lookup_insert_ne by congruence. apply lookup_insert_eq.
    - exists s. rewrite !lookup_insert_ne by congruence. exact Hs.
    - exists m. rewrite !lookup_insert_ne by congruence. exact Hm.
    - intros k Hc. destruct (String.eqb k0 k) eqn:Heq.
      + apply String.eqb_eq in Heq. subst k. rewrite lookup_insert_eq.
        assert ((0 <? c k0 + 1)%N = true) as -> by (apply N.ltb_lt; lia).
        rewrite orb_true_r. reflexivity.
      + apply String.eqb_neq in Heq.
        destruct (countable_ne k Hc) as (M1 & _).
        rewrite !lookup_insert_ne by congruence. apply Hk, Hc. }
  rewrite (get_member task "subtasks" Hnn). simpl.
  destruct (first_truthy (Rules.member task "subtasks")) as [[| | | | l |] |];
    try discriminate.
  - apply foldO_subtasks_tallied; assumption.
  - exists acc2. split; [reflexivity | exact H2].
Qed.

Lemma foldO_tasks_tallied (l : list json) acc total c :
  forallb Rules.plain_task l = true ->
  Rules.tallied acc total c ->
  exists acc',
    Detect.foldO Detect.count_task l acc = Done acc'
    /\ Rules.tallied acc' (total + N.of_nat (length l))
         (fun k => (c k + Rules.tally k l)%N).
Proof.
  revert acc total c. induction l as [| task l IH]; intros acc total c Hl Hacc.
  - exists acc. split; [reflexivity |].
    destruct Hacc as (Ht & Hs & Hm & Hk). repeat split; trivial.
    + rewrite N.add_0_r. exact Ht.
    + intros k Hc. unfold Rules.tally. simpl. rewrite N.add_0_r. apply Hk, Hc.
  - simpl in Hl. apply andb_prop in Hl as [Htask Hl].
    destruct (count_task_tallied acc total c task Htask Hacc) as (acc1 & E1 & H1).
    destruct (IH acc1 _ _ Hl H1) as (acc2 & E2 & (Ht & Hs & Hm & Hk)).
    exists acc2. split; [simpl; rewrite E1; exact E2 |].
    repeat split; trivial.
    + rewrite Ht. do 2 f_equal. simpl length. lia.
    + intros k Hc. rewrite (Hk k Hc). unfold Rules.tally. simpl.
      destruct (String.eqb (Rules.status_of task) k); simpl length;
        replace (c k + 1 + N.of_nat (length (List.filter (fun t => String.eqb (Rules.status_of t) k) l)))%N
          with (c k + N.of_nat (S (length (List.filter (fun t => String.eqb (Rules.status_of t) k) l))))%N
          by lia; reflexivity.
Qed.

Lemma initial_stats_tallied : Rules.tallied Detect.initial_stats 0 (fun _ => 0%N).
Proof.
  unfold Rules.tallied. repeat split.
  - exists 0%N. reflexivity.
  - exists ∅. reflexivity.
  - intros k Hc. unfold Rules.initially. simpl. rewrite orb_false_r.
    destruct (countable_ne k Hc) as (N1 & N2 & N3 & _).
    destruct (decide (k = "pending")) as [-> | P1]; [reflexivity |].
    destruct (decide (k = "in-progress")) as [-> | P2]; [reflexivity |].
    destruct (decide (k = "done")) as [-> | P3]; [reflexivity |].
    destruct (decide (k = "review")) as [-> | P4]; [reflexivity |].
    destruct (decide (k = "deferred")) as [-> | P5]; [reflexivity |].
    destruct (decide (k = "cancelled")) as [-> | P6]; [reflexivity |].
    unfold Detect.initial_stats.
    rewrite !lookup_insert_ne by congruence. rewrite lookup_empty. reflexivity.
Qed.

Lemma statistics_plain (l : list json) :
  forallb Rules.plain_task l = true ->
  exists stats,
    Detect.statistics (JArr l) = Done stats
    /\ Rules.tallied stats (N.of_nat (length l)) (fun k => Rules.tally k l).
Proof.
  intros Hl.
  destruct (foldO_tasks_tallied l _ _ _ Hl initial_stats_tallied) as (stats & E & H).
  exists stats. split; [exact E | exact H].
Qed.



Lemma metadata_of_tallied stats total c modified :
  Rules.tallied stats total c ->
  exists m,
    Detect.metadata_of stats (inr modified) = Done m
    /\ Detect.taskCount m = total
    /\ Detect.completed m = c "done"
    /\ Detect.pending m = c "pending"
    /\ Detect.inProgress m = c "in-progress"
    /\ Detect.review m = c "review"
    /\ Detect.completionPercentage m = Detect.completionPercentage_of (c "done") total.
Proof.
  intros (Ht & (s & Hs) & _ & Hk).
  unfold Detect.metadata_of, Detect.counter. rewrite Ht, Hs.
  rewrite (Hk "done" eq_refl), (Hk "pending" eq_refl),
          (Hk "in-progress" eq_refl), (Hk "review" eq_refl).
  simpl. eexists. split; [reflexivity |]. simpl. repeat split; reflexivity.
Qed.










(** Binary64 rounding shows in the percentage: 29 of 200 is 14.5 exactly
    and the specification's percentage is 15, but [29 / 200 * 100]
    evaluates just below 14.5 and rounds to 14; 23 of 40 gives 57 for 58. *)
Example completion_percentage_29_of_200 :
  Detect.completionPercentage_of 29 200 = number_of_Z 14
  /\ Rules.percentage 29 200 = 15%Z
  /\ Detect.completionPercentage_of 23 40 = number_of_Z 57
  /\ Rules.percentage 23 40 = 58%Z.
Proof. repeat split; vm_compute; reflexivity. Qed.


(** The specification's example: one tag with one done task is complete. *)
Example only_tag_is_complete :
  exists m,
    Detect.taskMetadata_of (inr Samples.only_tag) (inr "2025-01-01T00:00:00.000Z") = Done m
    /\ Detect.taskCount m = 1%N
    /\ Detect.completionPercentage m = number_of_Z 100.
Proof. eexists. split; [reflexivity |]. repeat split; vm_compute; reflexivity. Qed.

(** ** Status buckets *)




Lemma length_filter_cons {A} (p : A -> bool) (x : A) (l : list A) :
  length (List.filter p (x :: l)) = ((if p x then 1 else 0) + length (List.filter p l))%nat.
Proof. simpl. destruct (p x); reflexivity. Qed.






(** ** Dependence on the clock *)

Section TwoClocks.

(** Two evaluations of one request, each under its own clock. *)
Variables clk1 clk2 : Clock.

Lemma transform_same_but_times (task : json) n1 n2 :
  match Tasks.transform task clk1 n1, Tasks.transform task clk2 n2 with
  | inl e1, inl e2 => e1 = e2
  | inr (t1, _), inr (t2, _) => Rules.same_but_times t1 t2
  | _, _ => False
  end.
Proof.
  destruct (Rules.not_null task) eqn:Hn.
  - rewrite (transform_eq task clk1 n1 Hn), (transform_eq task clk2 n2 Hn). simpl.
    unfold Rules.same_but_times. simpl. repeat split; reflexivity.
  - destruct task; try discriminate. reflexivity.
Qed.

Lemma Array_map_same_but_times (l : list json) n1 n2 :
  match Array_map Tasks.transform l clk1 n1, Array_map Tasks.transform l clk2 n2 with
  | inl e1, inl e2 => e1 = e2
  | inr (ts1, _), inr (ts2, _) => Forall2 Rules.same_but_times ts1 ts2
  | _, _ => False
  end.
Proof.
  revert n1 n2. induction l as [| task l IH]; intros n1 n2.
  - unfold Array_map, cret. constructor.
  - simpl. unfold cbind, cret.
    pose proof (transform_same_but_times task n1 n2) as Ht.
    destruct (Tasks.transform task clk1 n1) as [e1 | [t1 m1]],
             (Tasks.transform task clk2 n2) as [e2 | [t2 m2]]; try contradiction;
      [exact Ht |].
    specialize (IH m1 m2).
    destruct (Array_map Tasks.transform l clk1 m1) as [e1 | [ts1 k1]],
             (Array_map Tasks.transform l clk2 m2) as [e2 | [ts2 k2]]; try contradiction;
      [exact IH |].
    constructor; assumption.
Qed.

Lemma count_status_same (s : string) (ts1 ts2 : list Tasks.Task) :
  Forall2 Rules.same_but_times ts1 ts2 ->
  Tasks.count_status s ts1 = Tasks.count_status s ts2.
Proof.
  unfold Tasks.count_status. induction 1 as [| t1 t2 l1 l2 Ht _ IH]; [reflexivity |].
  rewrite !length_filter_cons, IH.
  destruct Ht as (_ & _ & _ & -> & _). reflexivity.
Qed.

Lemma tasksByStatus_same (ts1 ts2 : list Tasks.Task) :
  Forall2 Rules.same_but_times ts1 ts2 ->
  Tasks.tasksByStatus_of ts1 = Tasks.tasksByStatus_of ts2.
Proof.
  intros H. unfold Tasks.tasksByStatus_of.
  rewrite !(count_status_same _ ts1 ts2 H). reflexivity.
Qed.

Lemma time_field_has (task : json) (k1 k2 : string) n1 n2 :
  truthy (Rules.member task k1) || truthy (Rules.member task k2) = true ->
  fst (Rules.time_field task k1 k2 clk1 n1) = fst (Rules.time_field task k1 k2 clk2 n2).
Proof.
  unfold Rules.time_field, first_truthy, truthy. intros H.
  destruct (Rules.member task k1) as [a |]; [destruct (truthy_json a); [reflexivity |] |];
    (destruct (Rules.member task k2) as [b |]; [destruct (truthy_json b) |]);
    try reflexivity; discriminate.
Qed.

Lemma transform_has_times (task : json) n1 n2 :
  Rules.not_null task = true ->
  Rules.has_times task = true ->
  exists t m1 m2,
    Tasks.transform task clk1 n1 = inr (t, m1)
    /\ Tasks.transform task clk2 n2 = inr (t, m2).
Proof.
  intros Hn Ht. unfold Rules.has_times in Ht. apply andb_prop in Ht as [Hc Hu].
  rewrite (transform_eq task clk1 n1 Hn), (transform_eq task clk2 n2 Hn). simpl.
  rewrite (time_field_has task "createdAt" "created" n1 n2 Hc).
  rewrite (time_field_has task "updatedAt" "updated"
             (snd (Rules.time_field task "createdAt" "created" clk1 n1))
             (snd (Rules.time_field task "createdAt" "created" clk2 n2)) Hu).
  eexists _, _, _. split; reflexivity.
Qed.

Lemma Array_map_has_times (l : list json) n1 n2 :
  forallb Rules.not_null l = true ->
  forallb Rules.has_times l = true ->
  exists ts m1 m2,
    Array_map Tasks.transform l clk1 n1 = inr (ts, m1)
    /\ Array_map Tasks.transform l clk2 n2 = inr (ts, m2).
Proof.
  revert n1 n2. induction l as [| task l IH]; intros n1 n2 Hn Ht.
  - exists [], n1, n2. split; reflexivity.
  - simpl in Hn, Ht. apply andb_prop in Hn as [Hn1 Hn], Ht as [Ht1 Ht].
    destruct (transform_has_times task n1 n2 Hn1 Ht1) as (t & a1 & a2 & E1 & E2).
    destruct (IH a1 a2 Hn Ht) as (ts & b1 & b2 & F1 & F2).
    exists (t :: ts), b1, b2. simpl. split.
    + rewrite (cbind_inr _ _ clk1 n1 t a1 E1), (cbind_inr _ _ clk1 a1 ts b1 F1). reflexivity.
    + rewrite (cbind_inr _ _ clk2 n2 t a2 E2), (cbind_inr _ _ clk2 a2 ts b2 F2). reflexivity.
Qed.

Lemma Forall2_length_eq {A B} (R : A -> B -> Prop) (l1 : list A) (l2 : list B) :
  Forall2 R l1 l2 -> length l1 = length l2.
Proof. induction 1; simpl; congruence. Qed.

Lemma normalize_same_but_times name path (j : json) n1 n2 :
  match Tasks.normalize name path j clk1 n1, Tasks.normalize name path j clk2 n2 with
  | inl e1, inl e2 => e1 = e2
  | inr (b1, _), inr (b2, _) =>
      Tasks.currentTag b1 = Tasks.currentTag b2
      /\ Tasks.totalTasks b1 = Tasks.totalTasks b2
      /\ Tasks.tasksByStatus b1 = Tasks.tasksByStatus b2
      /\ Forall2 Rules.same_but_times (Tasks.tasks b1) (Tasks.tasks b2)
  | _, _ => False
  end.
Proof.
  unfold Tasks.normalize, cbind, lift, now, cret.
  destruct (Tasks.resolve j) as [e | [tasks tag]]; [reflexivity |].
  assert (H : match Tasks.transformTasks tasks clk1 n1, Tasks.transformTasks tasks clk2 n2 with
              | inl e1, inl e2 => e1 = e2
              | inr (ts1, _), inr (ts2, _) => Forall2 Rules.same_but_times ts1 ts2
              | _, _ => False
              end).
  { destruct tasks as [[| | | | l |] |]; try reflexivity. apply Array_map_same_but_times. }
  destruct (Tasks.transformTasks tasks clk1 n1) as [e1 | [ts1 m1]],
           (Tasks.transformTasks tasks clk2 n2) as [e2 | [ts2 m2]]; try contradiction;
    [exact H |].
  simpl. split; [reflexivity |]. split; [apply (Forall2_length_eq _ _ _ H) |].
  split; [apply tasksByStatus_same, H | exact H].
Qed.

End TwoClocks.

(** C7 (as amended).  The reconciled status is a function of
    [(taskmasterPresent, mcpConfigured)] alone, and two evaluations of the
    detect route on the same machine differ at most in [timestamp].  Two
    evaluations of the normaliser on the same document, under any two
    clocks, fail alike or agree on [currentTag], [totalTasks],
    [tasksByStatus] and every task field other than [createdAt] and
    [updatedAt]; when every task of the list carries truthy creation and
    update times of its own, the task lists are identical. *)
Theorem outputs_determined_up_to_clock :
  (forall tm tm' mcp mcp',
      Rules.taskmasterPresent tm = Rules.taskmasterPresent tm' ->
      Rules.mcpConfigured mcp = Rules.mcpConfigured mcp' ->
      Detect.detect_status tm mcp = Detect.detect_status tm' mcp')
  /\ (forall h name path clk1 clk2,
         match Detect.detect_route h name path clk1, Detect.detect_route h name path clk2 with
         | Detect.Detected200 b1, Detect.Detected200 b2 =>
             Detect.det_status b1 = Detect.det_status b2
             /\ Detect.det_taskmaster b1 = Detect.det_taskmaster b2
             /\ Detect.det_mcp b1 = Detect.det_mcp b2
         | Detect.PathNotFound404, Detect.PathNotFound404 => True
         | Detect.PathNotAccessible404, Detect.PathNotAccessible404 => True
         | _, _ => False
         end)
  /\ (forall name path (j : json) clk1 clk2 n1 n2,
         match Tasks.normalize name path j clk1 n1, Tasks.normalize name path j clk2 n2 with
         | inl e1, inl e2 => e1 = e2
         | inr (b1, _), inr (b2, _) =>
             Tasks.currentTag b1 = Tasks.currentTag b2
             /\ Tasks.totalTasks b1 = Tasks.totalTasks b2
             /\ Tasks.tasksByStatus b1 = Tasks.tasksByStatus b2
             /\ Forall2 Rules.same_but_times (Tasks.tasks b1) (Tasks.tasks b2)
         | _, _ => False
         end)
  /\ (forall name path (j : json) (l : list json) tag clk1 clk2 n1 n2,
         Tasks.resolve j = inr (Some (JArr l), tag) ->
         forallb Rules.not_null l = true ->
         forallb Rules.has_times l = true ->
         exists b1 b2 m1 m2,
           Tasks.normalize name path j clk1 n1 = inr (b1, m1)
           /\ Tasks.normalize name path j clk2 n2 = inr (b2, m2)
           /\ Tasks.tasks b1 = Tasks.tasks b2).
Proof.
  split; [| split; [| split]].
  - intros tm tm' mcp mcp' Ht Hm. rewrite !detect_status_table, Ht, Hm. reflexivity.
  - intros h name path clk1 clk2. unfold Detect.detect_route.
    destruct path as [e | p]; [exact I |].
    destruct (negb (Detect.path_readable h p)); [exact I |].
    simpl. repeat split; reflexivity.
  - intros name path j clk1 clk2 n1 n2. apply normalize_same_but_times.
  - intros name path j l tag clk1 clk2 n1 n2 Hr Hn Ht.
    destruct (Array_map_has_times clk1 clk2 l n1 n2 Hn Ht) as (ts & m1 & m2 & E1 & E2).
    unfold Tasks.normalize, cbind, lift, now, cret. rewrite Hr. simpl.
    rewrite E1, E2. eexists _, _, _, _. repeat split; reflexivity.
Qed.

Lemma outputs_determined_up_to_clock_witness :
  Tasks.resolve (JArr [Samples.timed_task]) = inr (Some (JArr [Samples.timed_task]), "master")
  /\ forallb Rules.not_null [Samples.timed_task] = true
  /\ forallb Rules.has_times [Samples.timed_task] = true
  /\ exists b1 b2 m1 m2,
       Tasks.normalize "demo" "/home/demo" (JArr [Samples.timed_task]) Samples.clock_a 0
       = inr (b1, m1)
       /\ Tasks.normalize "demo" "/home/demo" (JArr [Samples.timed_task]) Samples.clock_b 0
          = inr (b2, m2)
       /\ Tasks.tasks b1 = Tasks.tasks b2.
Proof.
  repeat (split; [reflexivity |]).
  exact (proj2 (proj2 (proj2 outputs_determined_up_to_clock))
           "demo" "/home/demo" (JArr [Samples.timed_task]) [Samples.timed_task] "master"
           Samples.clock_a Samples.clock_b 0%nat 0%nat eq_refl eq_refl eq_refl).
Defined.

(** C7 as stated fails: the same document normalised under two clocks
    gives different task lists, because the missing creation time is
    filled from the clock. *)
Lemma normalizer_reads_the_clock :
  exists b1 b2 m1 m2,
    Tasks.normalize "demo" "/home/demo" Samples.one_task Samples.clock_a 0 = inr (b1, m1)
    /\ Tasks.normalize "demo" "/home/demo" Samples.one_task Samples.clock_b 0 = inr (b2, m2)
    /\ map Tasks.createdAt (Tasks.tasks b1) = [JStr "2025-01-01T00:00:00.000Z"]
    /\ map Tasks.createdAt (Tasks.tasks b2) = [JStr "2025-06-30T12:00:00.000Z"]
    /\ Tasks.tasks b1 <> Tasks.tasks b2.
Proof.
  eexists _, _, _, _. split; [reflexivity |]. split; [reflexivity |].
  split; [reflexivity |]. split; [reflexivity |]. discriminate.
Qed.

(** ** Placeholder scan *)

Lemma append_cons (c : ascii) (s1 s2 : string) :
  String c s1 +:+ s2 = String c (s1 +:+ s2).
Proof. reflexivity. Qed.

Lemma append_nil (s : string) : EmptyString +:+ s = s.
Proof. reflexivity. Qed.






















(** ** Template customisation *)

Lemma plain_no_backslash (s : string) :
  forallb Template.plain (Template.chars s) = true -> Rules.no_char "\"%char s = true.
Proof.
  induction s as [| c s IH]; simpl; [reflexivity |].
  intros H. apply andb_prop in H as [Hc Hs]. rewrite (IH Hs), andb_true_r.
  unfold Template.plain in Hc. apply negb_true_iff in Hc.
  apply orb_false_elim in Hc as [Hc _]. apply orb_false_elim in Hc as [Hc _].
  rewrite Hc. reflexivity.
Qed.

Lemma escape_cons_other (c c1 : ascii) (s1 : string) :
  Ascii.eqb c1 "\"%char = false ->
  Template.escape (String c (String c1 s1)) 0
  = String c (Template.escape (String c1 s1) 0).
Proof.
  intros H. destruct c1 as [[] [] [] [] [] [] [] []]; try reflexivity. discriminate.
Qed.

Lemma escape_no_backslash (s : string) (skip : nat) :
  Rules.no_char "\"%char s = true -> Template.escape s skip = s.
Proof.
  revert skip. induction s as [| c s IH]; intros skip H; [reflexivity |].
  simpl in H. apply andb_prop in H as [_ Hs].
  destruct skip as [| k]; [| simpl; rewrite (IH k Hs); reflexivity].
  destruct s as [| c1 s1]; [reflexivity |].
  assert (Hc1 : Ascii.eqb c1 "\"%char = false).
  { simpl in Hs. apply andb_prop in Hs as [Hc1 _]. apply negb_true_iff in Hc1. exact Hc1. }
  rewrite (escape_cons_other c c1 s1 Hc1), (IH 0%nat Hs). reflexivity.
Qed.

Lemma no_char_append (x : ascii) (s1 s2 : string) :
  Rules.no_char x (s1 +:+ s2) = Rules.no_char x s1 && Rules.no_char x s2.
Proof.
  induction s1 as [| c s1 IH]; [reflexivity |].
  rewrite append_cons. simpl. rewrite IH, andb_assoc. reflexivity.
Qed.

Lemma split_last_append (s : string) (c : ascii) :
  Template.split_last (s +:+ String c EmptyString) = Some (s, c).
Proof.
  induction s as [| x s IH]; [reflexivity |].
  rewrite append_cons. simpl. rewrite IH.
  destruct (s +:+ String c EmptyString) eqn:E; [| reflexivity].
  destruct s; discriminate.
Qed.

Lemma RegExp_class_plain (key : string) :
  Rules.plain_key key = true ->
  Template.RegExp_class ("[" +:+ key +:+ "]") = Done (Template.chars key).
Proof.
  intros H. change ("[" +:+ key +:+ "]") with (String "["%char (key +:+ "]")).
  unfold Template.RegExp_class. rewrite split_last_append.
  unfold Rules.plain_key in H. rewrite H. reflexivity.
Qed.

Lemma substitution_no_dollar (value matched before after : string) :
  Rules.no_char "$"%char value = true ->
  Template.substitution value matched before after = value.
Proof.
  induction value as [| c v IH]; intros H; [reflexivity |].
  simpl in H. apply andb_prop in H as [Hc Hv]. apply negb_true_iff in Hc.
  specialize (IH Hv).
  destruct c as [[] [] [] [] [] [] [] []]; try discriminate; simpl; rewrite IH; reflexivity.
Qed.

Lemma replace_class_members (key value before content : string) :
  Rules.no_char "$"%char value = true ->
  Template.replace_class (Template.chars key) value before content
  = Rules.replace_members key value content.
Proof.
  intros Hv. revert before. induction content as [| c rest IH]; intros before; [reflexivity |].
  simpl. rewrite IH, (substitution_no_dollar value _ _ _ Hv). reflexivity.
Qed.

(** With a plain key and a value without a dollar sign, one turn of the
    loop replaces each character of the content that occurs in the key. *)
Lemma customize_replaces_characters (content key value : string) :
  Rules.plain_key key = true ->
  Rules.no_char "$"%char value = true ->
  Template.customize content (key, value) = Done (Rules.replace_members key value content).
Proof.
  intros Hk Hv. unfold Template.customize.
  assert (Hb : Rules.no_char "\"%char ("[" +:+ key +:+ "]") = true).
  { change ("[" +:+ key +:+ "]") with (String "["%char (key +:+ "]")).
    simpl. rewrite no_char_append. unfold Rules.plain_key in Hk.
    apply andb_prop in Hk as [Hk _]. rewrite (plain_no_backslash key Hk). reflexivity. }
  rewrite (escape_no_backslash _ 0 Hb), (RegExp_class_plain key Hk). simpl.
  rewrite (replace_class_members key value "" content Hv). reflexivity.
Qed.

(** C8, evaluated.  The substitution loop compiles the placeholder
    [[Name]] into a character class: on the specification's example it
    rewrites every character of the content that occurs in a key, inside
    and outside the placeholders, where literal substitution gives
    ['Hello Ann, welcome to Acme! - Ann'], and the route writes that text
    to the file; on a line of the web-app template the key ['Your Name']
    does the same; and [$&] in a value is expanded as a replacement
    pattern. *)
Theorem customization_rewrites_characters :
  Template.apply_customizations "Hello [Name], welcome to [Project]! - [Name]"
    [("Name", "Ann"); ("Project", "Acme")]
  = Done "HAnnllAcme [AnnAnnAnnAnn], wAnnlAcmeAcmeAnnAnn AcmeAcme [AcmeAcmeAcmeAcmeAnnAcmeAcme]! - [AnnAnnAnnAnn]"
  /\ Rules.substitute_placeholders "Hello [Name], welcome to [Project]! - [Name]"
       [("Name", "Ann"); ("Project", "Acme")]
     = "Hello Ann, welcome to Acme! - Ann"
  /\ Template.apply_template Samples.greeting_templates (inr "/home/demo")
       (Some "greeting") None (Some [("Name", "Ann"); ("Project", "Acme")]) (inr tt)
     = Template.Written "prd.txt"
         "HAnnllAcme [AnnAnnAnnAnn], wAnnlAcmeAcmeAnnAnn AcmeAcme [AcmeAcmeAcmeAcmeAnnAcmeAcme]! - [AnnAnnAnnAnn]"
  /\ Template.apply_customizations "**Author:** [Your Name]" [("Your Name", "Ann")]
     = Done "**AAnnthAnnAnn:**Ann[AnnAnnAnnAnnAnnAnnAnnAnnAnn]"
  /\ Template.apply_customizations "Hi [Name]" [("Name", "<$&>")]
     = Done "Hi [<N><a><m><e>]".
Proof. repeat split; vm_compute; reflexivity. Qed.

(** ** MCP detection *)

Lemma is_task_master_typed (name : string) (config : json) :
  Rules.server_ok config = true ->
  Mcp.is_task_master name config = inr (Rules.names_task_master (name, config)).
Proof.
  intros H. unfold Mcp.is_task_master, Rules.names_task_master.
  destruct (String.eqb name "task-master-ai"); [reflexivity |].
  destruct (includes name "task-master"); [reflexivity |].
  destruct config as [| | | | | fs]; try discriminate.
  simpl truthy_json. cbv iota.
  rewrite (get_member (JObj fs) "command" eq_refl). unfold bind.
  unfold Rules.server_ok in H. apply andb_prop in H as [Hc _].
  destruct (Rules.member (JObj fs) "command") as [[| | | c | |] |]; try discriminate;
    [| reflexivity].
  unfold first_truthy, truthy_json.
  destruct (String.eqb_spec c "") as [-> | Hne]; reflexivity.
Qed.

Lemma find_server_typed (entries : list (string * json)) :
  forallb (fun e => Rules.server_ok (snd e)) entries = true ->
  Mcp.find_server entries = inr (find Rules.names_task_master entries).
Proof.
  induction entries as [| [name config] rest IH]; intros H; [reflexivity |].
  simpl in H. apply andb_prop in H as [Hc Hrest].
  change (Mcp.find_server ((name, config) :: rest)) with
    (let* hit := Mcp.is_task_master name config in
     if hit then ret (Some (name, config)) else Mcp.find_server rest).
  rewrite (is_task_master_typed name config Hc). unfold bind.
  change (find Rules.names_task_master ((name, config) :: rest)) with
    (if Rules.names_task_master (name, config)
     then Some (name, config) else find Rules.names_task_master rest).
  destruct (Rules.names_task_master (name, config)); [reflexivity | exact (IH Hrest)].
Qed.

Lemma search_servers_typed (servers : value) :
  Rules.servers_ok servers = true ->
  Mcp.search_servers servers = inr (find Rules.names_task_master (Rules.entries_of servers)).
Proof.
  unfold Rules.servers_ok, Mcp.search_servers, Rules.entries_of.
  destruct servers as [[| | | | | entries] |]; intros H; try discriminate; [| reflexivity].
  simpl. exact (find_server_typed entries H).
Qed.

Lemma find_ok {A} (p : A -> bool) (l : list A) (x : A) (q : A -> bool) :
  forallb q l = true -> find p l = Some x -> q x = true.
Proof.
  intros Hq Hf. apply find_some in Hf as [Hin _].
  rewrite forallb_forall in Hq. exact (Hq x Hin).
Qed.

Lemma servers_ok_found (servers : value) (e : string * json) :
  Rules.servers_ok servers = true ->
  find Rules.names_task_master (Rules.entries_of servers) = Some e ->
  Rules.server_ok (snd e) = true.
Proof.
  unfold Rules.servers_ok, Rules.entries_of.
  destruct servers as [[| | | | | entries] |]; intros H Hf; try discriminate.
  simpl in Hf. exact (find_ok _ entries e (fun e => Rules.server_ok (snd e)) H Hf).
Qed.

Lemma server_type_typed (config : json) :
  Rules.server_ok config = true -> exists ty, Mcp.server_type config = inr ty.
Proof.
  intros H. destruct config as [| | | | | fs]; try discriminate.
  unfold Mcp.server_type. rewrite (get_member (JObj fs) "command" eq_refl). unfold bind.
  destruct (truthy (Rules.member (JObj fs) "command")); [eauto |].
  rewrite (get_member (JObj fs) "url" eq_refl). unfold bind.
  destruct (truthy (Rules.member (JObj fs) "url")); eauto.
Qed.

Lemma truthy_nonempty (v : value) :
  Rules.absent_or_string v = true -> truthy v = Rules.nonempty_string v.
Proof. destruct v as [[| | | s | |] |]; intros H; try discriminate; reflexivity. Qed.

Lemma isValid_typed (config : json) :
  Rules.server_ok config = true ->
  Mcp.isValid config = inr (Rules.has_command_or_url config).
Proof.
  intros H. destruct config as [| | | | | fs]; try discriminate.
  unfold Rules.server_ok in H. apply andb_prop in H as [Hc Hu].
  unfold Mcp.isValid, Rules.has_command_or_url. simpl truthy_json. cbv iota.
  rewrite (get_member (JObj fs) "command" eq_refl). unfold bind.
  rewrite (truthy_nonempty _ Hc).
  destruct (Rules.nonempty_string (Rules.member (JObj fs) "command")); [reflexivity |].
  rewrite (get_member (JObj fs) "url" eq_refl). unfold bind.
  rewrite (truthy_nonempty _ Hu). reflexivity.
Qed.

Lemma detected_typed (s : Mcp.Server) :
  Rules.server_ok (Mcp.srv_config s) = true ->
  exists has cfg,
    Mcp.detected s
    = inr (Mcp.Detected (Rules.has_command_or_url (Mcp.srv_config s)) has (Mcp.srv_scope s) cfg)
    /\ Mcp.command cfg = Rules.member (Mcp.srv_config s) "command"
    /\ Mcp.url cfg = Rules.member (Mcp.srv_config s) "url".
Proof.
  intros H. unfold Mcp.detected. rewrite (isValid_typed _ H). unfold bind.
  destruct (Mcp.srv_config s) as [| | | | | fs] eqn:Ecfg; try discriminate.
  unfold Mcp.hasEnvVars. simpl truthy_json. cbv iota.
  rewrite (get_member (JObj fs) "env" eq_refl). unfold bind.
  unfold Mcp.env_keys, Mcp.opt_get. rewrite !(get_member (JObj fs) _ eq_refl).
  destruct (first_truthy (Rules.member (JObj fs) "env")) as [env |] eqn:Eenv.
  - unfold bind. destruct (0 <? length (Object_keys env))%nat.
    + unfold bind. destruct (Rules.member (JObj fs) "env") as [e |]; [| discriminate].
      simpl. eexists _, _. split; [reflexivity |]. split; reflexivity.
    + simpl. eexists _, _. split; [reflexivity |]. split; reflexivity.
  - simpl. eexists _, _. split; [reflexivity |]. split; reflexivity.
Qed.

Lemma find_none_existsb {A} (p : A -> bool) (l : list A) :
  find p l = None <-> existsb p l = false.
Proof.
  induction l as [| x l IH]; simpl; [tauto |].
  destruct (p x); simpl; [split; discriminate | exact IH].
Qed.

Lemma user_server_typed (configData : json) :
  Rules.config_ok configData = true ->
  match find Rules.names_task_master (Rules.user_entries configData) with
  | Some e =>
      Rules.server_ok (snd e) = true
      /\ exists ty,
           Mcp.user_server configData
           = inr (Some {| Mcp.srv_name := fst e; Mcp.srv_scope := "user";
                          Mcp.srv_projectPath := None; Mcp.srv_config := snd e;
                          Mcp.srv_type := ty |})
  | None => Mcp.user_server configData = inr None
  end.
Proof.
  intros H. destruct configData as [| | | | | fs]; try discriminate.
  unfold Rules.config_ok in H. apply andb_prop in H as [Hs _].
  unfold Mcp.user_server, Rules.user_entries.
  rewrite (get_member (JObj fs) "mcpServers" eq_refl). unfold bind.
  rewrite (search_servers_typed _ Hs).
  destruct (find Rules.names_task_master (Rules.entries_of (Rules.member (JObj fs) "mcpServers")))
    as [[name config] |] eqn:Hf; [| reflexivity].
  pose proof (servers_ok_found _ _ Hs Hf) as Hok. split; [exact Hok |].
  destruct (server_type_typed config Hok) as [ty Ety]. exists ty.
  simpl. rewrite Ety. reflexivity.
Qed.

Lemma project_server_typed (projects : list (string * json)) :
  forallb (fun p => Rules.project_ok (snd p)) projects = true ->
  match find (fun p => existsb Rules.names_task_master (Rules.project_entries (snd p)))
             projects with
  | Some p =>
      exists e ty,
        find Rules.names_task_master (Rules.project_entries (snd p)) = Some e
        /\ Rules.server_ok (snd e) = true
        /\ Mcp.project_server projects
           = inr (Some {| Mcp.srv_name := fst e; Mcp.srv_scope := "local";
                          Mcp.srv_projectPath := Some (fst p); Mcp.srv_config := snd e;
                          Mcp.srv_type := ty |})
  | None => Mcp.project_server projects = inr None
  end.
Proof.
  induction projects as [| [projectPath projectConfig] rest IH]; intros H; [reflexivity |].
  simpl in H. apply andb_prop in H as [Hp Hrest]. specialize (IH Hrest).
  destruct projectConfig as [| | | | | fs]; try discriminate.
  unfold Rules.project_ok in Hp.
  change (Mcp.project_server ((projectPath, JObj fs) :: rest)) with
    (let* servers := get (JObj fs) "mcpServers" in
     let* serverEntry := Mcp.search_servers servers in
     match serverEntry with
     | Some (name, config) =>
         let* ty := Mcp.server_type config in
         ret (Some {| Mcp.srv_name := name; Mcp.srv_scope := "local";
                      Mcp.srv_projectPath := Some projectPath;
                      Mcp.srv_config := config; Mcp.srv_type := ty |})
     | None => Mcp.project_server rest
     end).
  rewrite (get_member (JObj fs) "mcpServers" eq_refl). unfold bind.
  rewrite (search_servers_typed _ Hp).
  cbn [find snd]. unfold Rules.project_entries at 1.
  destruct (find Rules.names_task_master (Rules.entries_of (Rules.member (JObj fs) "mcpServers")))
    as [[name config] |] eqn:Hf.
  - assert (He : existsb Rules.names_task_master
                   (Rules.entries_of (Rules.member (JObj fs) "mcpServers")) = true).
    { destruct (existsb _ _) eqn:E; [reflexivity |].
      apply find_none_existsb in E. congruence. }
    rewrite He. pose proof (servers_ok_found _ _ Hp Hf) as Hok.
    destruct (server_type_typed config Hok) as [ty Ety].
    exists (name, config), ty. split; [exact Hf |]. split; [exact Hok |].
    simpl. rewrite Ety. reflexivity.
  - apply find_none_existsb in Hf. rewrite Hf. exact IH.
Qed.

Lemma find_task_master_typed (configData : json) :
  Rules.config_ok configData = true ->
  match Rules.reported_entry configData with
  | Some (scope, e) =>
      Rules.server_ok (snd e) = true
      /\ exists s,
           Mcp.find_task_master configData = inr (Some s)
           /\ Mcp.srv_scope s = scope /\ Mcp.srv_config s = snd e
  | None => Mcp.find_task_master configData = inr None
  end.
Proof.
  intros H. pose proof (user_server_typed configData H) as Hu.
  unfold Rules.reported_entry, Mcp.find_task_master.
  destruct (find Rules.names_task_master (Rules.user_entries configData)) as [e |].
  - destruct Hu as (Hok & ty & ->). split; [exact Hok |]. eexists. split; [reflexivity |].
    split; reflexivity.
  - rewrite Hu. unfold bind.
    destruct configData as [| | | | | fs]; try discriminate.
    unfold Rules.config_ok in H. apply andb_prop in H as [_ Hp].
    rewrite (get_member (JObj fs) "projects" eq_refl).
    unfold Rules.first_project, Rules.projects_of.
    destruct (Rules.member (JObj fs) "projects") as [[| | | | | projects] |];
      try discriminate; [| reflexivity].
    simpl first_truthy. cbv iota.
    pose proof (project_server_typed projects Hp) as Hps.
    change (Object_entries (JObj projects)) with projects.
    destruct (find (fun p => existsb Rules.names_task_master (Rules.project_entries (snd p)))
                   projects) as [p |]; [| exact Hps].
    destruct Hps as (e & ty & -> & Hok & ->). split; [exact Hok |].
    eexists. split; [reflexivity |]. split; reflexivity.
Qed.

Lemma local_servers_typed (projects : list (string * json)) :
  forallb (fun p => Rules.project_ok (snd p)) projects = true ->
  exists l, Mcp.local_servers (map snd projects) = inr l.
Proof.
  induction projects as [| [path projectConfig] rest IH]; intros H; [simpl; eauto |].
  simpl in H. apply andb_prop in H as [Hp Hrest].
  destruct (IH Hrest) as [l El].
  destruct projectConfig as [| | | | | fs]; try discriminate.
  simpl map. cbn [Mcp.local_servers].
  rewrite (get_member (JObj fs) "mcpServers" eq_refl). unfold bind. rewrite El.
  eexists. reflexivity.
Qed.

Lemma availableServers_typed (configData : json) :
  Rules.config_ok configData = true ->
  exists l, Mcp.availableServers_of configData = inr l.
Proof.
  intros H. destruct configData as [| | | | | fs]; try discriminate.
  unfold Rules.config_ok in H. apply andb_prop in H as [_ Hp].
  unfold Mcp.availableServers_of.
  rewrite !(get_member (JObj fs) _ eq_refl). unfold bind.
  destruct (Rules.member (JObj fs) "projects") as [[| | | | | projects] |];
    try discriminate; [| simpl; eauto].
  simpl first_truthy. cbv iota.
  destruct (local_servers_typed projects Hp) as [l El].
  unfold Object_values. change (Object_entries (JObj projects)) with projects.
  rewrite El. eexists. reflexivity.
Qed.

Lemma reported_entry_exists (configData : json) :
  Rules.reported_entry configData <> None
  <-> (exists e, In e (Rules.user_entries configData) /\ Rules.names_task_master e = true)
      \/ (exists p e, In p (Rules.projects_of configData)
                      /\ In e (Rules.project_entries (snd p))
                      /\ Rules.names_task_master e = true).
Proof.
  unfold Rules.reported_entry, Rules.first_project. split.
  - destruct (find Rules.names_task_master (Rules.user_entries configData)) as [e |] eqn:Hu.
    + intros _. left. apply find_some in Hu. exists e. exact Hu.
    + destruct (find _ (Rules.projects_of configData)) as [p |] eqn:Hp; [| congruence].
      destruct (find Rules.names_task_master (Rules.project_entries (snd p))) as [e |] eqn:He;
        [| congruence].
      intros _. right. apply find_some in Hp as [Hp _]. apply find_some in He as [He1 He2].
      exists p, e. auto.
  - intros [(e & Hin & He) | (p & e & Hp & Hin & He)].
    + destruct (find Rules.names_task_master (Rules.user_entries configData)) eqn:Hu;
        [discriminate |].
      exfalso. pose proof (find_none _ _ Hu e Hin) as Hn. congruence.
    + destruct (find Rules.names_task_master (Rules.user_entries configData)); [discriminate |].
      assert (Hex : existsb Rules.names_task_master (Rules.project_entries (snd p)) = true)
        by (apply existsb_exists; exists e; auto).
      destruct (find (fun p => existsb Rules.names_task_master (Rules.project_entries (snd p)))
                     (Rules.projects_of configData)) as [q |] eqn:Hq.
      * apply find_some in Hq as [_ Hq].
        destruct (find Rules.names_task_master (Rules.project_entries (snd q))) eqn:Hf;
          [discriminate |].
        apply find_none_existsb in Hf. congruence.
      * pose proof (find_none _ _ Hq p Hp) as Hn. simpl in Hn. congruence.
Qed.

(** C10 (as amended).  For a configuration document of the expected type
    (an object whose [mcpServers] maps, user-scoped and per project, are
    objects of server entries that are objects with string [command] and
    [url] when present, and whose [projects] is an object of objects):
    detection reports a TaskMaster server exactly when some user-scoped
    entry, or some entry of some project, has the name ['task-master-ai'],
    a name containing ['task-master'], or a command string containing
    ['task-master']; the entry reported is the first such user-scoped one,
    with scope ['user'], and only failing that the first one of the first
    project that has one, with scope ['local']; and [isConfigured] holds
    exactly when the reported entry has a non-empty [command] or [url]. *)
Theorem mcp_detection_on_typed_config
    (files : list (string * Res json)) (path : string) (configData : json) :
  Mcp.first_config files = Some (path, configData) ->
  Rules.config_ok configData = true ->
  let r := Mcp.detectTaskMasterMCPServer files in
  (Mcp.hasMCPServer r = true
   <-> (exists e, In e (Rules.user_entries configData) /\ Rules.names_task_master e = true)
       \/ (exists p e, In p (Rules.projects_of configData)
                       /\ In e (Rules.project_entries (snd p))
                       /\ Rules.names_task_master e = true))
  /\ match Rules.reported_entry configData with
     | Some (scope, e) =>
         exists hasApiKeys cfg,
           r = Mcp.Detected (Rules.has_command_or_url (snd e)) hasApiKeys scope cfg
           /\ Mcp.command cfg = Rules.member (snd e) "command"
           /\ Mcp.url cfg = Rules.member (snd e) "url"
     | None => Mcp.hasMCPServer r = false
     end
  /\ (forall e,
        find Rules.names_task_master (Rules.user_entries configData) = Some e ->
        Rules.reported_entry configData = Some ("user", e)).
Proof.
  intros Hfirst Hok r.
  assert (Hrep : match Rules.reported_entry configData with
                 | Some (scope, e) =>
                     exists hasApiKeys cfg,
                       r = Mcp.Detected (Rules.has_command_or_url (snd e)) hasApiKeys scope cfg
                       /\ Mcp.command cfg = Rules.member (snd e) "command"
                       /\ Mcp.url cfg = Rules.member (snd e) "url"
                 | None => Mcp.hasMCPServer r = false
                 end).
  { subst r. unfold Mcp.detectTaskMasterMCPServer, Mcp.detect_in. rewrite Hfirst.
    assert (Ht : truthy_json configData = true) by (destruct configData; try discriminate; reflexivity).
    rewrite Ht. simpl negb. cbv iota.
    pose proof (find_task_master_typed configData Hok) as Hf.
    destruct (Rules.reported_entry configData) as [[scope e] |].
    - destruct Hf as (Hsrv & s & -> & <- & Hcfg). unfold bind.
      rewrite <- Hcfg in Hsrv. destruct (detected_typed s Hsrv) as (has & cfg & -> & Hc & Hu).
      exists has, cfg. rewrite <- Hcfg. auto.
    - rewrite Hf. unfold bind.
      destruct (availableServers_typed configData Hok) as [l ->]. reflexivity. }
  split; [| split; [exact Hrep |]].
  - rewrite <- reported_entry_exists.
    destruct (Rules.reported_entry configData) as [[scope e] |].
    + destruct Hrep as (has & cfg & -> & _). split; [discriminate | reflexivity].
    + rewrite Hrep. split; [discriminate | congruence].
  - intros e He. unfold Rules.reported_entry. rewrite He. reflexivity.
Qed.

Lemma mcp_detection_on_typed_config_witness :
  Mcp.first_config (Samples.claude_json Samples.project_scoped)
  = Some ("/home/user/.claude.json", Samples.project_scoped)
  /\ Rules.config_ok Samples.project_scoped = true
  /\ exists hasApiKeys cfg,
       Mcp.detectTaskMasterMCPServer (Samples.claude_json Samples.project_scoped)
       = Mcp.Detected true hasApiKeys "local" cfg
       /\ Mcp.command cfg = Some (JStr "npx task-master-ai").
Proof.
  split; [reflexivity |]. split; [reflexivity |].
  destruct (proj1 (proj2 (mcp_detection_on_typed_config
                            (Samples.claude_json Samples.project_scoped)
                            "/home/user/.claude.json" Samples.project_scoped
                            eq_refl eq_refl)))
    as (has & cfg & E & Hc & _).
  exists has, cfg. split; [exact E | exact Hc].
Defined.

(** C10 as stated fails: an entry named ['task-master-ai'] whose value is
    [null] is an entry with that name, yet detection reports no server:
    building the server record reads [config.command] of [null], and the
    exception is turned into a negative result. *)
Lemma null_entry_not_detected :
  In ("task-master-ai", JNull) (Rules.user_entries Samples.null_server)
  /\ Rules.names_task_master ("task-master-ai", JNull) = true
  /\ Mcp.hasMCPServer (Mcp.detectTaskMasterMCPServer (Samples.claude_json Samples.null_server))
     = false
  /\ Mcp.detectTaskMasterMCPServer (Samples.claude_json Samples.null_server)
     = Mcp.NotDetected "Error checking MCP config: command" false None [].
Proof. repeat split; try reflexivity. left. reflexivity. Qed.

(** Outside the typed documents an exception ends the search: a command
    that is a number has no [includes] method, a [null] project has no
    [mcpServers]; in both a later entry names TaskMaster and is not
    reported.  A command that is an array is searched for an element. *)
Example detection_outside_typed_config :
  Mcp.detectTaskMasterMCPServer
    (Samples.claude_json
       (JObj [("mcpServers",
               JObj [ ("other", JObj [("command", Samples.num 5)]);
                      ("task-master-ai", JObj [("command", JStr "npx")]) ])]))
  = Mcp.NotDetected "Error checking MCP config: includes" false None []
  /\ Mcp.detectTaskMasterMCPServer
       (Samples.claude_json
          (JObj [("projects",
                  JObj [ ("/a", JNull);
                         ("/b", JObj [("mcpServers",
                                       JObj [("task-master-ai",
                                              JObj [("command", JStr "npx")])])]) ])]))
     = Mcp.NotDetected "Error checking MCP config: mcpServers" false None []
  /\ Mcp.hasMCPServer
       (Mcp.detectTaskMasterMCPServer
          (Samples.claude_json
             (JObj [("mcpServers",
                     JObj [("tm", JObj [("command", JArr [JStr "task-master"])])])])))
     = true.
Proof. repeat split; reflexivity. Qed.


(** ** The summary of /detect-all *)

Lemma detect_all_status_values tm mcp :
  In (Detect.detect_all_status tm mcp)
     [ "fully-configured"; "taskmaster-only"; "mcp-only"; "not-configured" ].
Proof.
  unfold Detect.detect_all_status.
  destruct (Detect.both (Detect.hasTaskmaster tm) (Detect.hasEssentialFiles_of tm)),
           (Detect.both (Mcp.hasMCPServer mcp) (Mcp.isConfigured_of mcp)); simpl; tauto.
Qed.

Lemma detect_all_project_values (h : Detect.Host) (p : Detect.Project) :
  In (Detect.detect_all_project h p) Shapes.statuses
  /\ (Detect.detect_all_project h p = "error" <-> Shapes.unresolved p = true).
Proof.
  unfold Detect.detect_all_project, Shapes.unresolved, Shapes.statuses.
  set (st := fun path => Detect.detect_all_status
                 (Detect.detectTaskMasterFolder (Detect.folder_at h path))
                 (Mcp.detectTaskMasterMCPServer (Detect.claude_configs h))).
  assert (Hst : forall path, In (st path) Shapes.statuses /\ st path <> "error").
  { intros path. pose proof (detect_all_status_values
        (Detect.detectTaskMasterFolder (Detect.folder_at h path))
        (Mcp.detectTaskMasterMCPServer (Detect.claude_configs h))) as H.
    fold (st path) in H. unfold Shapes.statuses. simpl in *.
    split; [tauto |]. intros E. rewrite E in H.
    decompose [or] H; discriminate || contradiction. }
  assert (Herr : In "error" Shapes.statuses) by (simpl; tauto).
  destruct (Detect.prj_fullPath p) as [full |].
  - destruct (String.eqb full "") eqn:Hfull.
    + destruct (Detect.prj_extracted p) as [e | path].
      * split; [exact Herr | tauto].
      * fold (st path). destruct (Hst path) as [H1 H2].
        split; [exact H1 |]. split; [contradiction | discriminate].
    + fold (st full). destruct (Hst full) as [H1 H2].
      destruct (Detect.prj_extracted p);
        (split; [exact H1 |]; split; [contradiction | discriminate]).
  - destruct (Detect.prj_extracted p) as [e | path].
    + split; [exact Herr | tauto].
    + fold (st path). destruct (Hst path) as [H1 H2].
      split; [exact H1 |]. split; [contradiction | discriminate].
Qed.

Lemma count_cons (s x : string) (l : list string) :
  DetectAll.count s (x :: l)
  = ((if String.eqb s x then 1 else 0) + DetectAll.count s l)%nat.
Proof. unfold DetectAll.count. simpl. destruct (String.eqb s x); reflexivity. Qed.

Lemma counts_partition (l : list string) :
  Forall (fun s => In s Shapes.statuses) l ->
  (DetectAll.count "fully-configured" l + DetectAll.count "taskmaster-only" l
   + DetectAll.count "mcp-only" l + DetectAll.count "not-configured" l
   + DetectAll.count "error" l = length l)%nat.
Proof.
  induction 1 as [| x l Hx _ IH]; [reflexivity |].
  rewrite !count_cons. simpl length.
  unfold Shapes.statuses in Hx. simpl in Hx.
  decompose [or] Hx; try contradiction; subst x; simpl; lia.
Qed.

Lemma count_filter {A} (f : A -> string) (s : string) (l : list A) :
  DetectAll.count s (map f l) = length (List.filter (fun a => String.eqb s (f a)) l).
Proof.
  induction l as [| a l IH]; [reflexivity |].
  simpl map. rewrite count_cons, IH. simpl. destruct (String.eqb s (f a)); reflexivity.
Qed.

(** X1.  [GET /detect-all] answers with one entry per project, in the
    order of the projects.  The summary's [total] is the number of
    projects; every project is counted under exactly one of the five
    statuses, so the five counters add up to [total]; and [errors] counts
    the projects without a truthy [fullPath] whose directory cannot be
    extracted. *)
Theorem detect_all_summary_partitions
    (h : Detect.Host) (ps : list Detect.Project) (clk : Clock) :
  exists results summary,
    DetectAll.handler h (inr ps) clk = DetectAll.Detected200 results summary (clk 0%nat)
    /\ map fst results = map Detect.prj_name ps
    /\ DetectAll.total summary = length ps
    /\ (DetectAll.fullyConfigured summary + DetectAll.taskmasterOnly summary
        + DetectAll.mcpOnly summary + DetectAll.notConfigured summary
        + DetectAll.errors summary = DetectAll.total summary)%nat
    /\ DetectAll.errors summary = length (List.filter Shapes.unresolved ps).
Proof.
  eexists _, _. split; [reflexivity |].
  rewrite !map_map. simpl.
  split; [reflexivity |]. split; [apply length_map |].
  split.
  - apply counts_partition. apply List.Forall_forall. intros s Hs.
    apply in_map_iff in Hs as (p & <- & _). apply detect_all_project_values.
  - rewrite count_filter. f_equal. apply filter_ext. intros p.
    pose proof (proj2 (detect_all_project_values h p)) as Hp.
    destruct (Shapes.unresolved p).
    + rewrite (proj2 Hp eq_refl). reflexivity.
    + destruct (String.eqb "error" (Detect.detect_all_project h p)) eqn:E; [| reflexivity].
      apply String.eqb_eq in E. symmetry in E. apply Hp in E. discriminate.
Qed.

(** ** The task list of the tasks route *)

Lemma pretty_N_go_digits (x : N) (s : string) :
  Shapes.digits s = true -> Shapes.digits (pretty_N_go x s) = true.
Proof.
  revert s. induction (N.lt_wf_0 x) as [x _ IH]. intros s Hs.
  destruct (decide (0 < x)%N) as [Hx | Hx].
  - rewrite pretty_N_go_step by exact Hx. apply IH.
    + apply N.div_lt; [exact Hx | reflexivity].
    + simpl. rewrite Hs, andb_true_r.
      assert (Hm : (x `mod` 10 < 10)%N) by (apply N.mod_lt; discriminate).
      destruct (x `mod` 10)%N as [| p]; [reflexivity |].
      do 4 (destruct p as [p | p |]; try reflexivity).
  - assert (x = 0%N) as -> by lia. rewrite pretty_N_go_0. exact Hs.
Qed.

Lemma pretty_nat_digits (i : nat) : Shapes.digits (pretty i) = true.
Proof.
  unfold pretty, pretty_nat, pretty, pretty_N.
  destruct (decide (N.of_nat i = 0%N)); [reflexivity |].
  apply pretty_N_go_digits. reflexivity.
Qed.

Lemma assoc_imap_none {A} (f : A -> json) (k : string) (l : list A) (g : nat -> nat) :
  Shapes.digits k = false ->
  assoc k (imap (fun i x => (pretty (g i), f x)) l) = None.
Proof.
  intros Hk. revert g. induction l as [| x l IH]; intros g; [reflexivity |].
  simpl. destruct (String.eqb (pretty (g 0%nat)) k) eqn:E.
  - apply String.eqb_eq in E. rewrite <- E, pretty_nat_digits in Hk. discriminate.
  - apply (IH (fun i => g (S i))).
Qed.

Lemma array_member_none (l : list json) (k : string) :
  Shapes.digits k = false -> Rules.member (JArr l) k = None.
Proof.
  intros Hk. unfold Rules.member. simpl. unfold indexed.
  apply (assoc_imap_none (fun x => x) k l (fun i => i) Hk).
Qed.

Lemma transform_normalised (task : json) clk n t n' :
  Tasks.transform task clk n = inr (t, n') -> Shapes.normalised task t.
Proof.
  destruct (Rules.not_null task) eqn:Hnn.
  - rewrite (transform_eq task clk n Hnn). cbv zeta. intros H. injection H as <- _.
    repeat split.
  - destruct task; discriminate.
Qed.

Lemma Array_map_normalised (l : list json) clk n ts n' :
  Array_map Tasks.transform l clk n = inr (ts, n') ->
  Forall2 Shapes.normalised l ts.
Proof.
  revert n ts n'. induction l as [| task l IH]; intros n ts n' H.
  - injection H as <- _. constructor.
  - simpl in H. unfold cbind at 1 in H.
    destruct (Tasks.transform task clk n) as [e | [t n1]] eqn:Et; [discriminate |].
    unfold cbind at 1 in H.
    destruct (Array_map Tasks.transform l clk n1) as [e | [ts' n2]] eqn:Ets; [discriminate |].
    injection H as <- _. constructor.
    + exact (transform_normalised task clk n t n1 Et).
    + exact (IH n1 ts' n2 Ets).
Qed.

Lemma normalize_list name path (j : json) (l : list json) (tag : string) clk n :
  Tasks.resolve j = inr (Some (JArr l), tag) ->
  forallb Rules.not_null l = true ->
  exists body n',
    Tasks.normalize name path j clk n = inr (body, n')
    /\ Tasks.currentTag body = tag
    /\ Tasks.totalTasks body = length l
    /\ Tasks.tasksByStatus body = Tasks.tasksByStatus_of (Tasks.tasks body)
    /\ Forall2 Shapes.normalised l (Tasks.tasks body).
Proof.
  intros Hr Hl. unfold Tasks.normalize.
  assert (Hr' : lift (Tasks.resolve j) clk n = inr ((Some (JArr l), tag), n))
    by (unfold lift; rewrite Hr; reflexivity).
  rewrite (cbind_inr _ _ clk n _ n Hr').
  destruct (Array_map_transform_ok l clk n Hl) as (ts & n1 & Ets & Hlen).
  assert (Et : Tasks.transformTasks (Some (JArr l)) clk n = inr (ts, n1)) by exact Ets.
  rewrite (cbind_inr _ _ clk n _ n1 Et).
  unfold cbind, now, cret. eexists _, _. split; [reflexivity |]. simpl.
  repeat split; auto. exact (Array_map_normalised l clk n ts n1 Ets).
Qed.

Lemma normalize_resolved name path (j : json) clk n body n' :
  Tasks.normalize name path j clk n = inr (body, n') ->
  exists l,
    Tasks.resolve j = inr (Some (JArr l), Tasks.currentTag body)
    /\ Tasks.totalTasks body = length l
    /\ Forall2 Shapes.normalised l (Tasks.tasks body).
Proof.
  unfold Tasks.normalize. unfold cbind at 1. unfold lift.
  destruct (Tasks.resolve j) as [e | [tasks tag]]; [discriminate |].
  unfold cbind at 1.
  destruct (Tasks.transformTasks tasks clk n) as [e | [ts n1]] eqn:Et; [discriminate |].
  unfold cbind, now, cret. intros H. injection H as <- _. simpl.
  destruct tasks as [[| | | | l |] |]; try discriminate.
  exists l. split; [reflexivity |].
  pose proof (Array_map_normalised l clk n ts n1 Et) as HF.
  split; [symmetry; exact (Forall2_length _ _ _ HF) | exact HF].
Qed.

(** X2.  When the normaliser of [/tasks/:projectName] succeeds, the
    document holds a task list under the tag it reports, [totalTasks] is
    the length of that list, and the output has one task per record, in
    the order of the file: the task at a position carries the [id] of the
    record at that position and its title, status, priority and subtasks,
    or their defaults. *)
Theorem normalizer_keeps_every_task
    (name path : string) (j : json) (clk : Clock) (n : nat)
    (body : Tasks.TasksBody) (n' : nat) :
  Tasks.normalize name path j clk n = inr (body, n') ->
  exists l,
    Tasks.resolve j = inr (Some (JArr l), Tasks.currentTag body)
    /\ Tasks.totalTasks body = length l
    /\ length (Tasks.tasks body) = length l
    /\ map Tasks.task_id (Tasks.tasks body) = map (fun task => Rules.member task "id") l
    /\ (forall i task, l !! i = Some task ->
          exists t, Tasks.tasks body !! i = Some t /\ Shapes.normalised task t).
Proof.
  intros H. destruct (normalize_resolved name path j clk n body n' H) as (l & Hr & Htot & HF).
  exists l. split; [exact Hr |]. split; [exact Htot |].
  split; [symmetry; exact (Forall2_length _ _ _ HF) |]. split.
  - clear -HF. induction HF as [| task t l ts Hn _ IH]; [reflexivity |].
    simpl. rewrite IH. destruct Hn as (-> & _). reflexivity.
  - intros i task Hi. exact (Forall2_lookup_l _ _ _ _ _ HF Hi).
Qed.

(** X2 on a file in the legacy format with three tasks. *)
Lemma normalizer_keeps_every_task_witness :
  exists body n',
    Tasks.normalize "demo" "/home/demo" Cases.legacy Samples.clock_a 0 = inr (body, n')
    /\ exists l,
         Tasks.resolve Cases.legacy = inr (Some (JArr l), Tasks.currentTag body)
         /\ Tasks.totalTasks body = length l
         /\ length (Tasks.tasks body) = length l.
Proof.
  destruct (Tasks.normalize "demo" "/home/demo" Cases.legacy Samples.clock_a 0)
    as [e | [body n']] eqn:E; [vm_compute in E; discriminate |].
  exists body, n'. split; [reflexivity |].
  destruct (normalizer_keeps_every_task "demo" "/home/demo" Cases.legacy Samples.clock_a 0
              body n' E) as (l & Hr & Ht & Hl & _).
  exists l. split; [exact Hr |]. split; [exact Ht | exact Hl].
Defined.

(** ** A tasks file that is a bare array *)

Lemma values_imap {A} (f : A -> json) (l : list A) (g : nat -> nat) :
  map snd (imap (fun i x => (pretty (g i), f x)) l) = map f l.
Proof.
  revert g. induction l as [| x l IH]; intros g; [reflexivity |].
  simpl. f_equal. apply (IH (fun i => g (S i))).
Qed.

Lemma Object_values_array (l : list json) : Object_values (JArr l) = l.
Proof.
  unfold Object_values, Object_entries, indexed.
  rewrite (values_imap (fun x => x) l (fun i => i)). apply map_id.
Qed.

Lemma concat_tags_records (l acc : list json) :
  forallb Shapes.task_record l = true ->
  Detect.concat_tags l acc = inr acc.
Proof.
  induction l as [| task l IH]; intros Hl; [reflexivity |].
  simpl in Hl. apply andb_prop in Hl as [Ht Hl].
  unfold Shapes.task_record in Ht. apply andb_prop in Ht as [Hnn Hno].
  simpl. rewrite (get_member task "tasks" Hnn). simpl.
  unfold first_truthy. unfold truthy in Hno.
  destruct (Rules.member task "tasks") as [v |]; [| exact (IH Hl)].
  apply negb_true_iff in Hno. rewrite Hno. exact (IH Hl).
Qed.

Lemma all_tasks_flat (l : list json) :
  forallb Shapes.task_record l = true ->
  Detect.all_tasks (JArr l) = inr (JArr []).
Proof.
  intros Hl. unfold Detect.all_tasks.
  assert (Hg : get (JArr l) "tasks" = inr None).
  { change (get (JArr l) "tasks") with (@inr exn _ (Rules.member (JArr l) "tasks")).
    rewrite (array_member_none l "tasks" eq_refl). reflexivity. }
  rewrite Hg. simpl. rewrite Object_values_array, (concat_tags_records l [] Hl).
  reflexivity.
Qed.

Lemma task_record_not_null (l : list json) :
  forallb Shapes.task_record l = true -> forallb Rules.not_null l = true.
Proof.
  induction l as [| t l IH]; [reflexivity |]. simpl. intros H.
  apply andb_prop in H as [Ht Hl]. unfold Shapes.task_record in Ht.
  apply andb_prop in Ht as [Hnn _]. rewrite Hnn. exact (IH Hl).
Qed.

Lemma metadata_of_nothing (mtime : string) :
  exists m,
    Detect.taskMetadata_of (inr (JArr [])) (inr mtime) = Done m
    /\ Detect.taskCount m = 0%N /\ Detect.completed m = 0%N
    /\ Detect.completionPercentage m = S754_zero false.
Proof.
  eexists. split; [reflexivity |]. repeat split; reflexivity.
Qed.

(** X3.  A tasks file that is a bare array of task records: the
    tasks route lists every record, under the tag [master], while the
    metadata of detection counts no task at all (it takes the elements
    for tags, and they have no [tasks]): [taskCount] 0, [completed] 0 and
    a completion of 0 per cent. *)
Theorem flat_list_counted_by_tasks_route_only
    (l : list json) (req : Tasks.Request) (clk : Clock) (path mtime : string) :
  forallb Shapes.task_record l = true ->
  Tasks.req_projectPath req = inr path ->
  Tasks.req_accessible req = true ->
  Tasks.req_tasksData req = inr (JArr l) ->
  (exists body,
      Tasks.handler req clk = Tasks.Ok200 body
      /\ Tasks.totalTasks body = length l
      /\ length (Tasks.tasks body) = length l
      /\ Tasks.currentTag body = "master")
  /\ (exists m,
         Detect.taskMetadata_of (Tasks.req_tasksData req) (inr mtime) = Done m
         /\ Detect.taskCount m = 0%N
         /\ Detect.completed m = 0%N
         /\ Detect.completionPercentage m = S754_zero false).
Proof.
  intros Hl Hp Ha Hd. split.
  - unfold Tasks.handler. rewrite Hp, Ha, Hd. simpl negb. cbv iota.
    destruct (normalize_list (Tasks.req_projectName req) path (JArr l) l "master" clk 0
                eq_refl (task_record_not_null l Hl))
      as (body & n' & E & Htag & Htot & _ & HF).
    rewrite E. exists body. split; [reflexivity |]. split; [exact Htot |].
    split; [| exact Htag]. symmetry. exact (Forall2_length _ _ _ HF).
  - rewrite Hd. unfold Detect.taskMetadata_of. simpl of_res. simpl obind.
    rewrite (all_tasks_flat l Hl). exact (metadata_of_nothing mtime).
Qed.

(** X3 on a bare array of three tasks: three tasks listed, none counted. *)
Lemma flat_list_counted_by_tasks_route_only_witness :
  forallb Shapes.task_record Cases.three_tasks = true
  /\ Tasks.req_projectPath (Samples.request (JArr Cases.three_tasks)) = inr "/home/demo"
  /\ Tasks.req_accessible (Samples.request (JArr Cases.three_tasks)) = true
  /\ Tasks.req_tasksData (Samples.request (JArr Cases.three_tasks))
     = inr (JArr Cases.three_tasks)
  /\ (exists body,
         Tasks.handler (Samples.request (JArr Cases.three_tasks)) Samples.clock_a
         = Tasks.Ok200 body
         /\ Tasks.totalTasks body = 3%nat)
  /\ (exists m,
         Detect.taskMetadata_of (inr (JArr Cases.three_tasks)) (inr "2025-01-01T00:00:00.000Z")
         = Done m
         /\ Detect.taskCount m = 0%N).
Proof.
  repeat (split; [reflexivity |]).
  destruct (flat_list_counted_by_tasks_route_only Cases.three_tasks
              (Samples.request (JArr Cases.three_tasks)) Samples.clock_a "/home/demo"
              "2025-01-01T00:00:00.000Z" eq_refl eq_refl eq_refl eq_refl)
    as ((body & Eb & Ht & _) & (m & Em & Hc & _)).
  split; [exists body; split; [exact Eb | exact Ht] | exists m; split; [exact Em | exact Hc]].
Defined.

(** ** A tagged tasks file *)

Lemma tagged_no_tasks_key (fields : list (string * json)) :
  Shapes.tagged fields = true -> assoc "tasks" fields = None.
Proof.
  induction fields as [| [k v] fields IH]; [reflexivity |].
  simpl. intros H. apply andb_prop in H as [H Hrest].
  apply andb_prop in H as [Hk _].
  apply negb_true_iff in Hk. rewrite Hk. exact (IH Hrest).
Qed.

Lemma tag_tasks (tagData : json) :
  Shapes.tag tagData = true ->
  Rules.not_null tagData = true
  /\ truthy_json tagData = true
  /\ Rules.member tagData "tasks" = Some (JArr (Shapes.tag_list tagData))
  /\ forallb Rules.plain_task (Shapes.tag_list tagData) = true.
Proof.
  unfold Shapes.tag, Shapes.tag_list. destruct tagData; try discriminate.
  destruct (Rules.member (JObj fields) "tasks") as [[| | | | l |] |]; try discriminate.
  intros H. repeat split. exact H.
Qed.

Lemma concat_tags_tagged (fields : list (string * json)) (acc : list json) :
  Shapes.tagged fields = true ->
  Detect.concat_tags (map snd fields) acc = inr (acc ++ Shapes.all_tag_tasks fields)%list.
Proof.
  revert acc. induction fields as [| [k v] fields IH]; intros acc H.
  - simpl. rewrite app_nil_r. reflexivity.
  - simpl in H. apply andb_prop in H as [H Hrest]. apply andb_prop in H as [_ Htag].
    destruct (tag_tasks v Htag) as (Hnn & _ & Hm & _).
    simpl. rewrite (get_member v "tasks" Hnn), Hm. simpl.
    rewrite (IH _ Hrest). unfold Shapes.all_tag_tasks. simpl.
    rewrite <- app_assoc. reflexivity.
Qed.

Lemma all_tag_tasks_plain (fields : list (string * json)) :
  Shapes.tagged fields = true ->
  forallb Rules.plain_task (Shapes.all_tag_tasks fields) = true.
Proof.
  induction fields as [| [k v] fields IH]; [reflexivity |].
  simpl. intros H. apply andb_prop in H as [H Hrest]. apply andb_prop in H as [_ Htag].
  destruct (tag_tasks v Htag) as (_ & _ & _ & Hl).
  unfold Shapes.all_tag_tasks. simpl. rewrite forallb_app.
  simpl in Hl. rewrite Hl. exact (IH Hrest).
Qed.

Lemma all_tasks_tagged (fields : list (string * json)) :
  Shapes.tagged fields = true ->
  Detect.all_tasks (JObj fields) = inr (JArr (Shapes.all_tag_tasks fields)).
Proof.
  intros H. unfold Detect.all_tasks. simpl get.
  rewrite (tagged_no_tasks_key fields H). simpl.
  change (Object_values (JObj fields)) with (map snd fields).
  rewrite (concat_tags_tagged fields [] H). reflexivity.
Qed.

Lemma assoc_In {A} (k : string) (l : list (string * A)) (v : A) :
  assoc k l = Some v -> In (k, v) l.
Proof.
  induction l as [| [k' v'] l IH]; simpl; [discriminate |].
  destruct (String.eqb k' k) eqn:E.
  - apply String.eqb_eq in E. intros [= ->]. left. congruence.
  - intros H. right. exact (IH H).
Qed.

Lemma tagged_In (fields : list (string * json)) (k : string) (v : json) :
  Shapes.tagged fields = true -> In (k, v) fields -> Shapes.tag v = true.
Proof.
  unfold Shapes.tagged. rewrite forallb_forall. intros H Hin.
  specialize (H _ Hin). simpl in H.
  apply andb_prop in H as [_ Htag]. exact Htag.
Qed.

Lemma plain_not_null (l : list json) :
  forallb Rules.plain_task l = true -> forallb Rules.not_null l = true.
Proof.
  induction l as [| t l IH]; [reflexivity |]. simpl. intros H.
  apply andb_prop in H as [Ht Hl]. unfold Rules.plain_task in Ht.
  apply andb_prop in Ht as [Ht _]. apply andb_prop in Ht as [Hnn _].
  rewrite Hnn. exact (IH Hl).
Qed.

Lemma resolve_tagged (fields : list (string * json)) :
  Shapes.tagged fields = true ->
  Tasks.resolve (JObj fields)
  = inr match Shapes.listed_tag fields with
        | Some (k, t) => (Some (JArr (Shapes.tag_list t)), k)
        | None => (Some (JArr []), "master")
        end.
Proof.
  intros H. unfold Tasks.resolve. simpl get at 1.
  rewrite (tagged_no_tasks_key fields H).
  unfold Shapes.listed_tag. simpl get.
  assert (Htag_ok : forall k v, In (k, v) fields ->
            Tasks.has_truthy_tasks (Some v) = inr true
            /\ Tasks.tasks_of (Some v) = inr (Some (JArr (Shapes.tag_list v)))
            /\ get v "tasks" = inr (Some (JArr (Shapes.tag_list v)))).
  { intros k v Hin. pose proof (tagged_In fields k v H Hin) as Htag.
    destruct (tag_tasks v Htag) as (Hnn & Htr & Hmem & _).
    unfold Tasks.has_truthy_tasks, Tasks.tasks_of.
    rewrite Htr, (get_member v "tasks" Hnn), Hmem. repeat split. }
  destruct (assoc "master" fields) as [m |] eqn:Hm.
  - destruct (Htag_ok "master" m (assoc_In _ _ _ Hm)) as (Hht & Hto & _).
    unfold bind, ret. cbv beta iota. change (truthy None) with false. cbv beta iota.
    rewrite Hht. cbv beta iota. rewrite Hto. reflexivity.
  - unfold bind, ret. cbv beta iota. change (truthy None) with false. cbv beta iota.
    change (Tasks.has_truthy_tasks None) with (@inr exn bool false). cbv beta iota.
    destruct fields as [| [k v] rest]; [reflexivity |].
    destruct (Htag_ok k v (or_introl eq_refl)) as (_ & Hto & Hg).
    change (Object_keys (JObj ((k, v) :: rest))) with (k :: map fst rest).
    assert (Hself : assoc k ((k, v) :: rest) = Some v)
      by (simpl; rewrite String.eqb_refl; reflexivity).
    assert (Hfind : Tasks.find_first_tag (JObj ((k, v) :: rest)) (k :: map fst rest)
                    = inr (Some k)).
    { cbn [Tasks.find_first_tag].
      change (get (JObj ((k, v) :: rest)) k)
        with (@inr exn value (assoc k ((k, v) :: rest))).
      rewrite Hself. unfold bind, ret. cbv beta iota. rewrite Hg. reflexivity. }
    rewrite Hfind. cbv beta iota. unfold Tasks.truthy_key.
    destruct (String.eqb k "") eqn:Hk; cbn [negb]; cbv iota; [reflexivity |].
    change (get (JObj ((k, v) :: rest)) k)
      with (@inr exn value (assoc k ((k, v) :: rest))).
    rewrite Hself, Hto. reflexivity.
Qed.

Lemma tag_list_within (fields : list (string * json)) (k : string) (v : json) :
  In (k, v) fields ->
  (length (Shapes.tag_list v) <= length (Shapes.all_tag_tasks fields))%nat.
Proof.
  unfold Shapes.all_tag_tasks.
  induction fields as [| kv fields IH]; simpl; [tauto |].
  rewrite length_app. intros [-> | Hin]; simpl; [lia |]. specialize (IH Hin). lia.
Qed.

Lemma listed_tag_In (fields : list (string * json)) (k : string) (v : json) :
  Shapes.listed_tag fields = Some (k, v) -> In (k, v) fields.
Proof.
  unfold Shapes.listed_tag. destruct (assoc "master" fields) as [m |] eqn:Hm.
  - intros [= <- <-]. exact (assoc_In _ _ _ Hm).
  - destruct fields as [| [k' v'] rest]; [discriminate |].
    destruct (String.eqb k' ""); [discriminate |]. intros [= -> ->]. left. reflexivity.
Qed.

(** X4.  A tagged tasks file, every member of which is a tag with a
    list of task records and none of which is named [tasks]: detection
    counts the tasks of all tags together; the tasks route lists those of
    one tag at most, [master] when there is one and otherwise the first
    tag, unless the key of the first tag is the empty string, in which
    case, as for a file without tags, it lists no task under the tag
    [master].  So its [totalTasks] is at most the [taskCount] of
    detection. *)
Theorem tagged_file_counts_all_tags_lists_one
    (fields : list (string * json)) (req : Tasks.Request) (clk : Clock)
    (path mtime : string) :
  Shapes.tagged fields = true ->
  Tasks.req_projectPath req = inr path ->
  Tasks.req_accessible req = true ->
  Tasks.req_tasksData req = inr (JObj fields) ->
  exists body m,
    Tasks.handler req clk = Tasks.Ok200 body
    /\ Detect.taskMetadata_of (Tasks.req_tasksData req) (inr mtime) = Done m
    /\ Detect.taskCount m = N.of_nat (length (Shapes.all_tag_tasks fields))
    /\ match Shapes.listed_tag fields with
       | Some (k, t) =>
           Tasks.currentTag body = k
           /\ Tasks.totalTasks body = length (Shapes.tag_list t)
       | None => Tasks.currentTag body = "master" /\ Tasks.totalTasks body = 0%nat
       end
    /\ (N.of_nat (Tasks.totalTasks body) <= Detect.taskCount m)%N.
Proof.
  intros Ht Hp Ha Hd.
  destruct (statistics_plain _ (all_tag_tasks_plain fields Ht)) as (stats & Es & Hstats).
  destruct (metadata_of_tallied stats _ _ mtime Hstats) as (m & Em & Hc & _).
  assert (Hmeta : Detect.taskMetadata_of (Tasks.req_tasksData req) (inr mtime) = Done m).
  { rewrite Hd. unfold Detect.taskMetadata_of, of_res, obind.
    rewrite (all_tasks_tagged fields Ht), Es. exact Em. }
  pose proof (resolve_tagged fields Ht) as Hr.
  unfold Tasks.handler. rewrite Hp, Ha. simpl negb. cbv iota.
  rewrite Hd in Hmeta |- *.
  destruct (Shapes.listed_tag fields) as [[k t] |] eqn:Hl.
  - pose proof (listed_tag_In fields k t Hl) as Hin.
    pose proof (tagged_In fields k t Ht Hin) as Htag.
    destruct (tag_tasks t Htag) as (_ & _ & _ & Hplain).
    destruct (normalize_list (Tasks.req_projectName req) path (JObj fields)
                (Shapes.tag_list t) k clk 0 Hr (plain_not_null _ Hplain))
      as (body & n' & E & Htag' & Htot & _).
    rewrite E. exists body, m. split; [reflexivity |]. split; [exact Hmeta |].
    split; [exact Hc |]. split; [split; assumption |].
    rewrite Hc, Htot. pose proof (tag_list_within fields k t Hin). lia.
  - destruct (normalize_list (Tasks.req_projectName req) path (JObj fields)
                [] "master" clk 0 Hr eq_refl)
      as (body & n' & E & Htag' & Htot & _).
    rewrite E. exists body, m. split; [reflexivity |]. split; [exact Hmeta |].
    split; [exact Hc |]. split; [split; assumption |].
    rewrite Hc, Htot. simpl. lia.
Qed.

(** X4 on a file with the tags [featureX] (one task) and [master] (none):
    one task counted, none listed; and on a file whose first tag has the
    empty key: two tasks counted, none listed. *)
Lemma tagged_file_counts_all_tags_lists_one_witness :
  Shapes.tagged Cases.two_tag_fields = true
  /\ Tasks.req_tasksData (Samples.request (JObj Cases.two_tag_fields))
     = inr (JObj Cases.two_tag_fields)
  /\ (exists body m,
         Tasks.handler (Samples.request (JObj Cases.two_tag_fields)) Samples.clock_a
         = Tasks.Ok200 body
         /\ Detect.taskMetadata_of (inr (JObj Cases.two_tag_fields))
              (inr "2025-01-01T00:00:00.000Z") = Done m
         /\ Detect.taskCount m = 1%N
         /\ Tasks.currentTag body = "master"
         /\ Tasks.totalTasks body = 0%nat)
  /\ Shapes.tagged Cases.empty_key_fields = true
  /\ (exists body m,
         Tasks.handler (Samples.request (JObj Cases.empty_key_fields)) Samples.clock_a
         = Tasks.Ok200 body
         /\ Detect.taskMetadata_of (inr (JObj Cases.empty_key_fields))
              (inr "2025-01-01T00:00:00.000Z") = Done m
         /\ Detect.taskCount m = 2%N
         /\ Tasks.currentTag body = "master"
         /\ Tasks.totalTasks body = 0%nat).
Proof.
  split; [reflexivity |]. split; [reflexivity |]. split; [| split; [reflexivity |]].
  - destruct (tagged_file_counts_all_tags_lists_one Cases.two_tag_fields
                (Samples.request (JObj Cases.two_tag_fields)) Samples.clock_a "/home/demo"
                "2025-01-01T00:00:00.000Z" eq_refl eq_refl eq_refl eq_refl)
      as (body & m & Eb & Em & Hc & Hl & _).
    exists body, m. split; [exact Eb |]. split; [exact Em |]. split; [exact Hc |].
    exact Hl.
  - destruct (tagged_file_counts_all_tags_lists_one Cases.empty_key_fields
                (Samples.request (JObj Cases.empty_key_fields)) Samples.clock_a "/home/demo"
                "2025-01-01T00:00:00.000Z" eq_refl eq_refl eq_refl eq_refl)
      as (body & m & Eb & Em & Hc & Hl & _).
    exists body, m. split; [exact Eb |]. split; [exact Em |]. split; [exact Hc |].
    exact Hl.
Defined.

(** ** The counters of the detection metadata *)

Lemma count_subtask_subtotal acc acc' (subtask : json) (s : N) :
  Detect.count_subtask acc subtask = Done acc' ->
  acc !! "subtotalTasks" = Some (Detect.ANum s) ->
  acc' !! "subtotalTasks" = Some (Detect.ANum (s + 1)).
Proof.
  intros H Hs. unfold Detect.count_subtask, Detect.increment in H. rewrite Hs in H.
  cbn [obind] in H.
  set (acc1 := <["subtotalTasks" := Detect.ANum (s + 1)]> acc) in *.
  destruct (of_res (get subtask "status")) as [st | e |]; cbn [obind] in H; try discriminate.
  destruct (Detect.status_key st) as [k | e |]; cbn [obind] in H; try discriminate.
  assert (Hkeep : forall v v', (<["subtasks" := v']> (<["subtasks" := v]> acc1))
                               !! "subtotalTasks" = Some (Detect.ANum (s + 1))).
  { intros v v'. rewrite !lookup_insert_ne by discriminate. apply lookup_insert_eq. }
  repeat match type of H with
         | context [match ?x with _ => _ end] => destruct x; try discriminate
         end;
    injection H as <-; apply Hkeep.
Qed.

Lemma foldO_subtasks_subtotal (l : list json) acc acc' (s : N) :
  Detect.foldO Detect.count_subtask l acc = Done acc' ->
  acc !! "subtotalTasks" = Some (Detect.ANum s) ->
  acc' !! "subtotalTasks" = Some (Detect.ANum (s + N.of_nat (length l))).
Proof.
  revert acc s. induction l as [| st l IH]; intros acc s H Hs.
  - injection H as <-. rewrite N.add_0_r. exact Hs.
  - simpl in H. destruct (Detect.count_subtask acc st) as [acc1 | e |] eqn:E1;
      cbn [obind] in H; try discriminate.
    rewrite (IH acc1 (s + 1)%N H (count_subtask_subtotal acc acc1 st s E1 Hs)).
    do 2 f_equal. simpl length. lia.
Qed.

Lemma count_task_subtotal acc acc' (task : json) (s : N) :
  Rules.plain_task task = true ->
  Detect.count_task acc task = Done acc' ->
  acc !! "subtotalTasks" = Some (Detect.ANum s) ->
  acc' !! "subtotalTasks"
  = Some (Detect.ANum (s + N.of_nat (length (Shapes.subtask_list task)))).
Proof.
  intros Hp H Hs. destruct (plain_task_key task Hp) as [Hkey Hcount].
  destruct (countable_ne _ Hcount) as (N1 & N2 & N3 & Hinh).
  unfold Rules.plain_task in Hp. apply andb_prop in Hp as [Hp Hsubs].
  apply andb_prop in Hp as [Hnn _].
  unfold Detect.count_task in H.
  destruct (Detect.increment "total" acc) as [acc1 | e |] eqn:E1; cbn [obind] in H;
    try discriminate.
  assert (H1 : acc1 !! "subtotalTasks" = Some (Detect.ANum s)).
  { unfold Detect.increment in E1.
    destruct (acc !! "total") as [[n | ? | ?] |]; try discriminate.
    injection E1 as <-. rewrite lookup_insert_ne by discriminate. exact Hs. }
  rewrite (get_member task "status" Hnn) in H. cbn [of_res obind] in H.
  rewrite Hkey in H. cbn [obind] in H.
  destruct (Detect.count_under (Rules.status_of task) acc1) as [acc2 | e |] eqn:E2;
    cbn [obind] in H; try discriminate.
  assert (H2 : acc2 !! "subtotalTasks" = Some (Detect.ANum s)).
  { unfold Detect.count_under in E2.
    destruct (acc1 !! Rules.status_of task); [| destruct (Detect.inherited _)];
      try discriminate; injection E2 as <-;
      rewrite lookup_insert_ne by congruence; exact H1. }
  rewrite (get_member task "subtasks" Hnn) in H. cbn [of_res obind] in H.
  unfold Shapes.subtask_list.
  destruct (first_truthy (Rules.member task "subtasks")) as [[| | | | l |] |];
    try discriminate.
  - exact (foldO_subtasks_subtotal l acc2 acc' s H H2).
  - injection H as <-. rewrite N.add_0_r. exact H2.
Qed.

Lemma foldO_tasks_subtotal (l : list json) acc acc' (s : N) :
  forallb Rules.plain_task l = true ->
  Detect.foldO Detect.count_task l acc = Done acc' ->
  acc !! "subtotalTasks" = Some (Detect.ANum s) ->
  acc' !! "subtotalTasks" = Some (Detect.ANum (s + N.of_nat (Shapes.subtask_total l))).
Proof.
  revert acc s. induction l as [| task l IH]; intros acc s Hl H Hs.
  - injection H as <-. unfold Shapes.subtask_total. simpl. rewrite N.add_0_r. exact Hs.
  - simpl in Hl. apply andb_prop in Hl as [Ht Hl]. simpl in H.
    destruct (Detect.count_task acc task) as [acc1 | e |] eqn:E1;
      cbn [obind] in H; try discriminate.
    rewrite (IH acc1 _ Hl H (count_task_subtotal acc acc1 task s Ht E1 Hs)).
    do 2 f_equal. unfold Shapes.subtask_total. simpl. rewrite length_app. lia.
Qed.

Lemma tally_cons (k : string) (task : json) (l : list json) :
  Rules.tally k (task :: l)
  = ((if String.eqb (Rules.status_of task) k then 1 else 0) + Rules.tally k l)%N.
Proof.
  unfold Rules.tally. simpl. destruct (String.eqb (Rules.status_of task) k); simpl length; lia.
Qed.

Lemma tallies_within (l : list json) :
  (Rules.tally "done" l + Rules.tally "pending" l + Rules.tally "in-progress" l
   + Rules.tally "review" l <= N.of_nat (length l))%N.
Proof.
  induction l as [| task l IH]; [reflexivity |].
  rewrite !tally_cons. simpl length.
  destruct (String.eqb (Rules.status_of task) "done") eqn:E1;
    [apply String.eqb_eq in E1; rewrite E1; simpl; lia |].
  destruct (String.eqb (Rules.status_of task) "pending") eqn:E2;
    [apply String.eqb_eq in E2; rewrite E2; simpl; lia |].
  destruct (String.eqb (Rules.status_of task) "in-progress") eqn:E3;
    [apply String.eqb_eq in E3; rewrite E3; simpl; lia |].
  destruct (String.eqb (Rules.status_of task) "review"); lia.
Qed.

(** X5.  For a tasks file whose tasks are records of the expected
    type, detection computes metadata in which [subtaskCount] is the
    number of elements of the truthy [subtasks] lists, [pending],
    [inProgress] and [review] are the numbers of tasks with that status,
    the four status counters together do not exceed [taskCount], and
    [lastModified] is the modification time of the file. *)
Theorem metadata_counts_statuses_and_subtasks
    (tasksData : json) (l : list json) (mtime : string) :
  Detect.all_tasks tasksData = inr (JArr l) ->
  forallb Rules.plain_task l = true ->
  exists m,
    Detect.taskMetadata_of (inr tasksData) (inr mtime) = Done m
    /\ Detect.subtaskCount m = N.of_nat (Shapes.subtask_total l)
    /\ Detect.pending m = Rules.tally "pending" l
    /\ Detect.inProgress m = Rules.tally "in-progress" l
    /\ Detect.review m = Rules.tally "review" l
    /\ (Detect.completed m + Detect.pending m + Detect.inProgress m + Detect.review m
        <= Detect.taskCount m)%N
    /\ Detect.lastModified m = mtime.
Proof.
  intros Ha Hl.
  destruct (statistics_plain l Hl) as (stats & E & Hstats).
  assert (Hsub : stats !! "subtotalTasks"
                 = Some (Detect.ANum (N.of_nat (Shapes.subtask_total l)))).
  { exact (foldO_tasks_subtotal l Detect.initial_stats stats 0 Hl E eq_refl). }
  destruct (metadata_of_tallied stats _ _ mtime Hstats)
    as (m & Em & Hc & Hd & Hpe & Hip & Hr & _).
  exists m. split.
  { unfold Detect.taskMetadata_of, of_res, obind. rewrite Ha, E. exact Em. }
  assert (Hm : Detect.subtaskCount m = N.of_nat (Shapes.subtask_total l)
               /\ Detect.lastModified m = mtime).
  { destruct Hstats as (Ht & _ & _ & Hk).
    unfold Detect.metadata_of, Detect.counter in Em. rewrite Ht, Hsub in Em.
    rewrite (Hk "done" eq_refl), (Hk "pending" eq_refl),
            (Hk "in-progress" eq_refl), (Hk "review" eq_refl) in Em.
    simpl in Em. injection Em as <-. split; reflexivity. }
  destruct Hm as [Hs Hmod].
  split; [exact Hs |]. split; [exact Hpe |]. split; [exact Hip |]. split; [exact Hr |].
  split; [| exact Hmod]. rewrite Hc, Hd, Hpe, Hip, Hr. apply tallies_within.
Qed.

(** X5 on three tasks, the first of them with two subtasks. *)
Lemma metadata_counts_statuses_and_subtasks_witness :
  Detect.all_tasks Cases.legacy = inr (JArr Cases.three_tasks)
  /\ forallb Rules.plain_task Cases.three_tasks = true
  /\ exists m,
       Detect.taskMetadata_of (inr Cases.legacy) (inr "2025-01-01T00:00:00.000Z") = Done m
       /\ Detect.subtaskCount m = 2%N
       /\ Detect.pending m = 0%N
       /\ Detect.review m = 1%N
       /\ Detect.lastModified m = "2025-01-01T00:00:00.000Z".
Proof.
  split; [reflexivity |]. split; [reflexivity |].
  destruct (metadata_counts_statuses_and_subtasks Cases.legacy Cases.three_tasks
              "2025-01-01T00:00:00.000Z" eq_refl eq_refl)
    as (m & Em & Hs & Hp & _ & Hr & _ & Hl).
  exists m. split; [exact Em |]. split; [exact Hs |]. split; [exact Hp |].
  split; [exact Hr | exact Hl].
Defined.

(** ** The two routes on the same task list *)

Lemma count_status_source (s : string) (l : list json) (ts : list Tasks.Task) :
  Forall2 Shapes.normalised l ts ->
  Tasks.count_status s ts
  = length (List.filter
              (fun task => strict_eq_str (or_else (Rules.member task "status") (JStr "pending")) s)
              l).
Proof.
  unfold Tasks.count_status. induction 1 as [| task t l ts Hn _ IH]; [reflexivity |].
  destruct Hn as (_ & _ & Hst & _). simpl. rewrite Hst.
  destruct (strict_eq_str _ s); simpl; rewrite IH; reflexivity.
Qed.

Lemma plain_status (task : json) (s : string) :
  Rules.plain_task task = true ->
  strict_eq_str (or_else (Rules.member task "status") (JStr "pending")) s
  = if Shapes.unset task then String.eqb "pending" s
    else String.eqb (Rules.status_of task) s.
Proof.
  unfold Rules.plain_task, Shapes.unset, Rules.status_of, or_else, first_truthy.
  intros H. apply andb_prop in H as [H _]. apply andb_prop in H as [_ H].
  destruct (Rules.member task "status") as [[| | | st | |] |]; try discriminate;
    [| reflexivity].
  simpl. destruct (String.eqb st ""); reflexivity.
Qed.

Lemma unset_status (task : json) :
  Shapes.unset task = true ->
  Rules.status_of task = "undefined" \/ Rules.status_of task = "".
Proof.
  unfold Shapes.unset, Rules.status_of.
  destruct (Rules.member task "status") as [[| | | st | |] |]; try discriminate; auto.
  intros H. apply String.eqb_eq in H. auto.
Qed.

Lemma count_status_tally (s : string) (l : list json) (ts : list Tasks.Task) :
  forallb Rules.plain_task l = true ->
  Forall2 Shapes.normalised l ts ->
  s <> "undefined" -> s <> "" ->
  N.of_nat (Tasks.count_status s ts)
  = (Rules.tally s l
     + if String.eqb "pending" s then N.of_nat (length (List.filter Shapes.unset l)) else 0)%N.
Proof.
  intros Hl HF N1 N2. rewrite (count_status_source s l ts HF). clear HF ts.
  induction l as [| task l IH]; [destruct (String.eqb "pending" s); reflexivity |].
  simpl in Hl. apply andb_prop in Hl as [Ht Hl]. specialize (IH Hl).
  rewrite tally_cons. simpl List.filter. rewrite (plain_status task s Ht).
  destruct (Shapes.unset task) eqn:Hu.
  - assert (Hne : String.eqb (Rules.status_of task) s = false).
    { apply String.eqb_neq. destruct (unset_status task Hu) as [-> | ->]; congruence. }
    rewrite Hne. destruct (String.eqb "pending" s); simpl length; lia.
  - destruct (String.eqb (Rules.status_of task) s); simpl length;
      destruct (String.eqb "pending" s); lia.
Qed.

(** X6.  On a document in which both routes read the same list of
    task records of the expected type, the tasks route and the metadata
    of detection agree on the number of tasks and on the numbers of
    [done], [in-progress] and [review] tasks; as [pending] the tasks
    route counts, besides the tasks the metadata counts, those whose
    status is absent or empty. *)
Theorem routes_agree_except_on_unset_status
    (j : json) (l : list json) (tag name path mtime : string) (clk : Clock) (n : nat) :
  Detect.all_tasks j = inr (JArr l) ->
  Tasks.resolve j = inr (Some (JArr l), tag) ->
  forallb Rules.plain_task l = true ->
  exists body n' m,
    Tasks.normalize name path j clk n = inr (body, n')
    /\ Detect.taskMetadata_of (inr j) (inr mtime) = Done m
    /\ N.of_nat (Tasks.totalTasks body) = Detect.taskCount m
    /\ assoc "done" (Tasks.tasksByStatus body) = Some (N.to_nat (Detect.completed m))
    /\ assoc "in-progress" (Tasks.tasksByStatus body) = Some (N.to_nat (Detect.inProgress m))
    /\ assoc "review" (Tasks.tasksByStatus body) = Some (N.to_nat (Detect.review m))
    /\ assoc "pending" (Tasks.tasksByStatus body)
       = Some (N.to_nat (Detect.pending m) + length (List.filter Shapes.unset l))%nat.
Proof.
  intros Ha Hr Hl.
  destruct (normalize_list name path j l tag clk n Hr (plain_not_null l Hl))
    as (body & n' & E & _ & Htot & Hby & HF).
  destruct (statistics_plain l Hl) as (stats & Es & Hstats).
  destruct (metadata_of_tallied stats _ _ mtime Hstats)
    as (m & Em & Hc & Hd & Hpe & Hip & Hrv & _).
  exists body, n', m. split; [exact E |]. split.
  { unfold Detect.taskMetadata_of, of_res, obind. rewrite Ha, Es. exact Em. }
  split; [rewrite Htot, Hc; reflexivity |].
  rewrite Hby, Hd, Hpe, Hip, Hrv. unfold Tasks.tasksByStatus_of.
  pose proof (count_status_tally "done" l _ Hl HF) as C1.
  pose proof (count_status_tally "in-progress" l _ Hl HF) as C2.
  pose proof (count_status_tally "review" l _ Hl HF) as C3.
  pose proof (count_status_tally "pending" l _ Hl HF) as C4.
  simpl in C1, C2, C3, C4.
  specialize (C1 ltac:(discriminate) ltac:(discriminate)).
  specialize (C2 ltac:(discriminate) ltac:(discriminate)).
  specialize (C3 ltac:(discriminate) ltac:(discriminate)).
  specialize (C4 ltac:(discriminate) ltac:(discriminate)).
  repeat split; simpl; f_equal; lia.
Qed.

(** X6 on three tasks, one of them without a status. *)
Lemma routes_agree_except_on_unset_status_witness :
  Detect.all_tasks Cases.legacy = inr (JArr Cases.three_tasks)
  /\ Tasks.resolve Cases.legacy = inr (Some (JArr Cases.three_tasks), "master")
  /\ forallb Rules.plain_task Cases.three_tasks = true
  /\ exists body n' m,
       Tasks.normalize "demo" "/home/demo" Cases.legacy Samples.clock_a 0 = inr (body, n')
       /\ Detect.taskMetadata_of (inr Cases.legacy) (inr "2025-01-01T00:00:00.000Z") = Done m
       /\ assoc "review" (Tasks.tasksByStatus body) = Some (N.to_nat (Detect.review m))
       /\ assoc "pending" (Tasks.tasksByStatus body)
          = Some (N.to_nat (Detect.pending m) + 1)%nat.
Proof.
  split; [reflexivity |]. split; [reflexivity |]. split; [reflexivity |].
  destruct (routes_agree_except_on_unset_status Cases.legacy Cases.three_tasks "master"
              "demo" "/home/demo" "2025-01-01T00:00:00.000Z" Samples.clock_a 0
              eq_refl eq_refl eq_refl)
    as (body & n' & m & Eb & Em & _ & _ & _ & Hr & Hp).
  exists body, n', m. split; [exact Eb |]. split; [exact Em |]. split; [exact Hr | exact Hp].
Defined.

(** ** The next task *)






(** ** The shape of a detection result *)

Lemma server_type_values (config : json) (ty : string) :
  Mcp.server_type config = inr ty ->
  Rules.not_null config = true
  /\ ty = (if truthy (Rules.member config "command") then "stdio"
           else if truthy (Rules.member config "url") then "http" else "unknown").
Proof.
  unfold Mcp.server_type. destruct (Rules.not_null config) eqn:Hnn.
  - rewrite (get_member config "command" Hnn). simpl.
    destruct (truthy (Rules.member config "command")).
    + intros [= <-]. auto.
    + rewrite (get_member config "url" Hnn). simpl.
      destruct (truthy (Rules.member config "url")); intros [= <-]; auto.
  - destruct config; discriminate.
Qed.

Lemma user_server_found (configData : json) (s : Mcp.Server) :
  Mcp.user_server configData = inr (Some s) ->
  Mcp.srv_scope s = "user" /\ Mcp.server_type (Mcp.srv_config s) = inr (Mcp.srv_type s).
Proof.
  unfold Mcp.user_server.
  destruct (get configData "mcpServers") as [e | servers]; [discriminate |]. simpl.
  destruct (Mcp.search_servers servers) as [e | [[name config] |]]; try discriminate; simpl.
  destruct (Mcp.server_type config) as [e | ty] eqn:Et; [discriminate |]. simpl.
  intros [= <-]. simpl. auto.
Qed.

Lemma project_server_found (projects : list (string * json)) (s : Mcp.Server) :
  Mcp.project_server projects = inr (Some s) ->
  Mcp.srv_scope s = "local" /\ Mcp.server_type (Mcp.srv_config s) = inr (Mcp.srv_type s).
Proof.
  induction projects as [| [projectPath projectConfig] rest IH]; [discriminate |].
  simpl. destruct (get projectConfig "mcpServers") as [e | servers]; [discriminate |]. simpl.
  destruct (Mcp.search_servers servers) as [e | [[name config] |]]; try discriminate; simpl.
  - destruct (Mcp.server_type config) as [e | ty] eqn:Et; [discriminate |]. simpl.
    intros [= <-]. simpl. auto.
  - exact IH.
Qed.

Lemma find_task_master_found (configData : json) (s : Mcp.Server) :
  Mcp.find_task_master configData = inr (Some s) ->
  (Mcp.srv_scope s = "user" \/ Mcp.srv_scope s = "local")
  /\ Mcp.server_type (Mcp.srv_config s) = inr (Mcp.srv_type s).
Proof.
  unfold Mcp.find_task_master.
  destruct (Mcp.user_server configData) as [e | [u |]] eqn:Eu; try discriminate; simpl.
  - intros [= <-]. destruct (user_server_found configData u Eu). auto.
  - destruct (get configData "projects") as [e | projects]; [discriminate |]. simpl.
    destruct (first_truthy projects) as [p |]; [| discriminate].
    intros H. destruct (project_server_found _ s H). auto.
Qed.

Lemma detected_shape (s : Mcp.Server) c k scope cfg :
  Mcp.server_type (Mcp.srv_config s) = inr (Mcp.srv_type s) ->
  Mcp.detected s = inr (Mcp.Detected c k scope cfg) ->
  scope = Mcp.srv_scope s
  /\ Mcp.type cfg = (if truthy (Mcp.command cfg) then "stdio"
                     else if truthy (Mcp.url cfg) then "http" else "unknown")
  /\ c = (truthy (Mcp.command cfg) || truthy (Mcp.url cfg))
  /\ (k = true <-> Mcp.envVars cfg <> [])
  /\ truthy_json (Mcp.args cfg) = true.
Proof.
  intros Hty. destruct (server_type_values _ _ Hty) as [Hnn Htyv].
  unfold Mcp.detected, Mcp.isValid, Mcp.hasEnvVars, Mcp.env_keys, Mcp.opt_get.
  set (config := Mcp.srv_config s) in *.
  rewrite !(get_member config _ Hnn). rewrite Htyv.
  assert (Hargs : truthy_json (or_else (Rules.member config "args") (JArr [])) = true).
  { unfold or_else, first_truthy. destruct (Rules.member config "args") as [a |]; [| reflexivity].
    destruct (truthy_json a) eqn:Ha; [exact Ha | reflexivity]. }
  assert (Hfalsy : truthy_json config = false ->
                   Rules.member config "command" = None /\ Rules.member config "url" = None
                   /\ Rules.member config "env" = None).
  { intros Hf. repeat split; apply falsy_no_member; exact Hf. }
  set (cmd := Rules.member config "command") in *.
  set (u := Rules.member config "url") in *.
  set (env := Rules.member config "env") in *.
  set (a := or_else (Rules.member config "args") (JArr [])) in *.
  clearbody cmd u env a. unfold bind, ret, throw.
  destruct (truthy_json config) eqn:Htr.
  2: { destruct (Hfalsy eq_refl) as (-> & -> & ->). intros H. injection H as <- <- <- <-.
       cbn. repeat split; auto; discriminate. }
  destruct (truthy cmd) eqn:Hc; [| destruct (truthy u) eqn:Hu];
    (destruct env as [e |]; unfold first_truthy;
     [destruct (truthy_json e) eqn:He;
      [destruct (0 <? length (Object_keys e))%nat eqn:Hlen |] |]);
    cbv beta iota; intros H; injection H as <- <- <- <-;
    cbn [Mcp.command Mcp.url Mcp.type Mcp.envVars Mcp.args];
    rewrite ?Hc, ?Hu; cbn [orb];
    (split; [reflexivity |]); (split; [reflexivity |]); (split; [reflexivity |]);
    (split; [| exact Hargs]);
    try (split; [discriminate | intros H; contradiction]);
    (split; [intros _ | reflexivity]);
    destruct (Object_keys e); discriminate.
Qed.

(** X8.  In every positive result of [detectTaskMasterMCPServer] the
    scope is ['user'] or ['local']; the type is ['stdio'] exactly when
    the entry has a truthy [command], ['http'] exactly when it has no
    truthy [command] but a truthy [url], and ['unknown'] otherwise;
    [isConfigured] holds exactly when the type is not ['unknown'],
    [hasApiKeys] exactly when [envVars] is not empty; and [args] is
    truthy. *)
Theorem positive_detection_is_coherent
    (files : list (string * Res json)) isConfigured hasApiKeys scope cfg :
  Mcp.detectTaskMasterMCPServer files = Mcp.Detected isConfigured hasApiKeys scope cfg ->
  (scope = "user" \/ scope = "local")
  /\ In (Mcp.type cfg) [ "stdio"; "http"; "unknown" ]
  /\ (Mcp.type cfg = "stdio" <-> truthy (Mcp.command cfg) = true)
  /\ (Mcp.type cfg = "http" <-> truthy (Mcp.command cfg) = false /\ truthy (Mcp.url cfg) = true)
  /\ (isConfigured = true <-> Mcp.type cfg <> "unknown")
  /\ (hasApiKeys = true <-> Mcp.envVars cfg <> [])
  /\ truthy_json (Mcp.args cfg) = true.
Proof.
  unfold Mcp.detectTaskMasterMCPServer, Mcp.detect_in.
  destruct (Mcp.first_config files) as [[configPath configData] |]; [| discriminate].
  destruct (negb (truthy_json configData)); [discriminate |].
  destruct (Mcp.find_task_master configData) as [e | [s |]] eqn:Ef; try discriminate.
  - simpl. destruct (Mcp.detected s) as [e | r] eqn:Ed; [discriminate |].
    intros ->. destruct (find_task_master_found configData s Ef) as [Hscope Hty].
    destruct (detected_shape s _ _ _ _ Hty Ed) as (-> & Htype & -> & Hk & Ha).
    split; [exact Hscope |]. rewrite Htype.
    destruct (truthy (Mcp.command cfg)), (truthy (Mcp.url cfg)); simpl;
      repeat split; auto; try discriminate; try tauto;
      try (intros [? ?]; discriminate); try (intros H; exfalso; apply H; reflexivity);
      try apply Hk.
  - simpl. destruct (Mcp.availableServers_of configData); discriminate.
Qed.

(** X8 on a configuration with a project-scoped TaskMaster server. *)
Lemma positive_detection_is_coherent_witness :
  exists isConfigured hasApiKeys scope cfg,
    Mcp.detectTaskMasterMCPServer (Samples.claude_json Samples.project_scoped)
    = Mcp.Detected isConfigured hasApiKeys scope cfg
    /\ scope = "local"
    /\ Mcp.type cfg = "stdio"
    /\ isConfigured = true
    /\ hasApiKeys = false.
Proof.
  destruct (Mcp.detectTaskMasterMCPServer (Samples.claude_json Samples.project_scoped))
    as [reason hasConfig configPath available | isConfigured hasApiKeys scope cfg] eqn:E;
    [vm_compute in E; discriminate |].
  exists isConfigured, hasApiKeys, scope, cfg. split; [reflexivity |].
  pose proof (positive_detection_is_coherent (Samples.claude_json Samples.project_scoped)
                isConfigured hasApiKeys scope cfg E) as H.
  vm_compute in E. injection E as <- <- <- <-.
  repeat split; reflexivity.
Defined.

(** ** The servers listed by a negative result *)

Lemma servers_ok_keys (servers : value) :
  Rules.servers_ok servers = true ->
  match first_truthy servers with
  | Some s => Object_keys s
  | None => []
  end = map fst (Rules.entries_of servers).
Proof.
  destruct servers as [[| | | | |] |]; try discriminate; reflexivity.
Qed.

Lemma servers_ok_keys_map {B} (f : string -> B) (servers : value) :
  Rules.servers_ok servers = true ->
  match first_truthy servers with
  | Some s => map f (Object_keys s)
  | None => []
  end = map f (map fst (Rules.entries_of servers)).
Proof.
  destruct servers as [[| | | | |] |]; try discriminate; reflexivity.
Qed.

Lemma local_servers_names (projects : list (string * json)) :
  forallb (fun p => Rules.project_ok (snd p)) projects = true ->
  Mcp.local_servers (map snd projects) = inr (Shapes.local_names projects).
Proof.
  induction projects as [| [path pc] rest IH]; [reflexivity |].
  simpl. intros H. apply andb_prop in H as [Hp Hrest].
  unfold Rules.project_ok in Hp. destruct pc as [| | | | | fields]; try discriminate.
  change (get (JObj fields) "mcpServers")
    with (@inr exn value (Rules.member (JObj fields) "mcpServers")).
  simpl bind. rewrite (IH Hrest). simpl bind.
  rewrite (servers_ok_keys_map _ _ Hp). reflexivity.
Qed.

Lemma availableServers_names (configData : json) :
  Rules.config_ok configData = true ->
  Mcp.availableServers_of configData = inr (Shapes.server_names configData).
Proof.
  unfold Rules.config_ok. destruct configData as [| | | | | fields]; try discriminate.
  intros H. apply andb_prop in H as [Hs Hp].
  unfold Mcp.availableServers_of, Shapes.server_names, Rules.user_entries, Rules.projects_of.
  change (get (JObj fields) "mcpServers")
    with (@inr exn value (Rules.member (JObj fields) "mcpServers")).
  change (get (JObj fields) "projects")
    with (@inr exn value (Rules.member (JObj fields) "projects")).
  simpl bind. rewrite (servers_ok_keys _ Hs).
  destruct (Rules.member (JObj fields) "projects") as [[| | | | | projects] |];
    try discriminate.
  - simpl first_truthy. cbv iota.
    change (Object_values (JObj projects)) with (map snd projects).
    rewrite (local_servers_names projects Hp). reflexivity.
  - simpl. rewrite app_nil_r. reflexivity.
Qed.

Lemma includes_local (name : string) :
  includes ("local:" +:+ name) "task-master" = includes name "task-master".
Proof. reflexivity. Qed.

Lemma not_named_task_master (e : string * json) :
  Rules.names_task_master e = false -> includes (fst e) "task-master" = false.
Proof.
  destruct e as [name config]. unfold Rules.names_task_master. simpl.
  intros H. apply orb_false_elim in H as [H _]. apply orb_false_elim in H as [_ H]. exact H.
Qed.

(** X9.  On a configuration of the expected type with no entry that
    names TaskMaster, detection answers 'task-master-ai not found in
    configured MCP servers' with [hasConfig] true, the path of the file
    it read, and as [availableServers] the names of the user-scoped
    servers followed by those of the project-scoped servers, each
    prefixed with ['local:'], project by project; none of the names
    listed contains ['task-master']. *)
Theorem negative_detection_lists_servers
    (files : list (string * Res json)) (path : string) (configData : json) :
  Mcp.first_config files = Some (path, configData) ->
  Rules.config_ok configData = true ->
  Rules.reported_entry configData = None ->
  Mcp.detectTaskMasterMCPServer files
  = Mcp.NotDetected "task-master-ai not found in configured MCP servers" true (Some path)
      (Shapes.server_names configData)
  /\ forall name, In name (Shapes.server_names configData) ->
       includes name "task-master" = false.
Proof.
  intros Hfirst Hok Hnone. split.
  - unfold Mcp.detectTaskMasterMCPServer, Mcp.detect_in. rewrite Hfirst.
    assert (Ht : truthy_json configData = true)
      by (destruct configData; try discriminate; reflexivity).
    rewrite Ht. simpl negb. cbv iota.
    pose proof (find_task_master_typed configData Hok) as Hf. rewrite Hnone in Hf.
    rewrite Hf. unfold bind. rewrite (availableServers_names configData Hok). reflexivity.
  - assert (Hall : forall e,
              (In e (Rules.user_entries configData)
               \/ exists p, In p (Rules.projects_of configData)
                            /\ In e (Rules.project_entries (snd p))) ->
              Rules.names_task_master e = false).
    { intros e He. destruct (Rules.names_task_master e) eqn:E; [| reflexivity].
      exfalso. apply (proj2 (reported_entry_exists configData)); [| exact Hnone].
      destruct He as [He | (p & Hp & He)]; [left | right]; eauto. }
    intros name Hin. unfold Shapes.server_names in Hin. apply in_app_or in Hin as [Hin | Hin].
    + apply in_map_iff in Hin as (e & <- & He). apply not_named_task_master, Hall. auto.
    + unfold Shapes.local_names in Hin. apply in_concat in Hin as (names & Hnames & Hin).
      apply in_map_iff in Hnames as (p & <- & Hp).
      apply in_map_iff in Hin as (n & <- & Hn).
      apply in_map_iff in Hn as (e & <- & He). rewrite includes_local.
      apply not_named_task_master, Hall. right. eauto.
Qed.

(** X9 on a configuration with one user-scoped and one project-scoped
    server, neither of them TaskMaster. *)
Lemma negative_detection_lists_servers_witness :
  Mcp.first_config (Samples.claude_json Cases.other_servers)
  = Some ("/home/user/.claude.json", Cases.other_servers)
  /\ Rules.config_ok Cases.other_servers = true
  /\ Rules.reported_entry Cases.other_servers = None
  /\ Mcp.detectTaskMasterMCPServer (Samples.claude_json Cases.other_servers)
     = Mcp.NotDetected "task-master-ai not found in configured MCP servers" true
         (Some "/home/user/.claude.json") [ "github"; "local:db" ].
Proof.
  split; [reflexivity |]. split; [reflexivity |]. split; [reflexivity |].
  exact (proj1 (negative_detection_lists_servers (Samples.claude_json Cases.other_servers)
                  "/home/user/.claude.json" Cases.other_servers eq_refl eq_refl eq_refl)).
Defined.

(** ** getAllMCPServers and the detection read the same file *)

Lemma getAllMCPServers_read (files : list (string * Res json)) :
  McpAll.getAllMCPServers files
  = match Mcp.first_config files with
    | Some (path, configData) =>
        if truthy_json configData
        then {| McpAll.hasConfig := true; McpAll.configPath := Some path;
                McpAll.error := None;
                McpAll.servers := or_else (Rules.member configData "mcpServers") (JObj []);
                McpAll.projectServers
                := or_else (Rules.member configData "projects") (JObj []) |}
        else McpAll.no_config None
    | None => McpAll.no_config None
    end.
Proof.
  unfold McpAll.getAllMCPServers.
  destruct (Mcp.first_config files) as [[path configData] |]; [| reflexivity].
  destruct (truthy_json configData) eqn:Ht; [| reflexivity]. simpl negb. cbv iota.
  rewrite !(get_member configData _ (truthy_not_null configData Ht)). reflexivity.
Qed.

Lemma detected_positive (s : Mcp.Server) (r : Mcp.Result) :
  Mcp.detected s = inr r -> Mcp.hasMCPServer r = true.
Proof.
  unfold Mcp.detected.
  destruct (Mcp.isValid (Mcp.srv_config s)) as [e | valid]; [discriminate |].
  destruct (Mcp.hasEnvVars (Mcp.srv_config s)) as [e | has]; [discriminate |].
  unfold bind at 1 2.
  destruct (Mcp.env_keys (Mcp.srv_config s) has) as [e | keys]; [discriminate |].
  intros [= <-]. reflexivity.
Qed.

(** X10.  [getAllMCPServers] reports a configuration exactly when the
    first configuration file that can be read and parsed holds a truthy
    document.  When it reports none, detection finds no server; and when
    detection answers negatively with [hasConfig] true, [getAllMCPServers]
    reports a configuration at the same path, and [availableServers]
    starts with the keys of its [servers]. *)
Theorem all_servers_agree_with_detection (files : list (string * Res json)) :
  (McpAll.hasConfig (McpAll.getAllMCPServers files) = true
   <-> exists path configData,
         Mcp.first_config files = Some (path, configData) /\ truthy_json configData = true)
  /\ (McpAll.hasConfig (McpAll.getAllMCPServers files) = false ->
      Mcp.hasMCPServer (Mcp.detectTaskMasterMCPServer files) = false)
  /\ (forall reason path available,
        Mcp.detectTaskMasterMCPServer files = Mcp.NotDetected reason true path available ->
        McpAll.hasConfig (McpAll.getAllMCPServers files) = true
        /\ McpAll.configPath (McpAll.getAllMCPServers files) = path
        /\ exists locals,
             available
             = (Object_keys (McpAll.servers (McpAll.getAllMCPServers files)) ++ locals)%list).
Proof.
  rewrite (getAllMCPServers_read files).
  unfold Mcp.detectTaskMasterMCPServer, Mcp.detect_in.
  destruct (Mcp.first_config files) as [[p configData] |].
  2: { split; [split; [discriminate | intros (? & ? & H & _); discriminate] |].
       split; [reflexivity | discriminate]. }
  destruct (truthy_json configData) eqn:Ht; simpl negb; cbv iota.
  2: { split; [split; [discriminate | intros (? & ? & [= <- <-] & H); congruence] |].
       split; [reflexivity | discriminate]. }
  cbn [McpAll.hasConfig McpAll.configPath McpAll.servers].
  split; [| split].
  - split; [intros _; eauto | reflexivity].
  - discriminate.
  - intros reason path available.
    destruct (Mcp.find_task_master configData) as [e | [s |]].
    + intros H. cbv beta iota delta [bind] in H. discriminate H.
    + cbv beta iota delta [bind].
      destruct (Mcp.detected s) as [e | r] eqn:Ed; intros H; [discriminate H |].
      apply detected_positive in Ed. rewrite H in Ed. discriminate Ed.
    + unfold Mcp.availableServers_of.
      rewrite !(get_member configData _ (truthy_not_null configData Ht)).
      unfold bind, ret. cbv beta iota.
      assert (Hkeys : match first_truthy (Rules.member configData "mcpServers") with
                      | Some s => Object_keys s
                      | None => []
                      end = Object_keys (or_else (Rules.member configData "mcpServers") (JObj []))).
      { unfold or_else. destruct (first_truthy _); reflexivity. }
      rewrite Hkeys.
      destruct (first_truthy (Rules.member configData "projects")) as [projects |].
      * destruct (Mcp.local_servers (Object_values projects)) as [e | l];
          intros H; cbv beta iota in H; [discriminate H |].
        injection H as _ <- <-. split; [reflexivity |]. split; [reflexivity |]. eauto.
      * intros H. injection H as _ <- <-. split; [reflexivity |]. split; [reflexivity |].
        exists []. rewrite app_nil_r. reflexivity.
Qed.

(** X10 on the same configuration. *)
Lemma all_servers_agree_with_detection_witness :
  Mcp.detectTaskMasterMCPServer (Samples.claude_json Cases.other_servers)
  = Mcp.NotDetected "task-master-ai not found in configured MCP servers" true
      (Some "/home/user/.claude.json") [ "github"; "local:db" ]
  /\ McpAll.hasConfig (McpAll.getAllMCPServers (Samples.claude_json Cases.other_servers)) = true
  /\ McpAll.configPath (McpAll.getAllMCPServers (Samples.claude_json Cases.other_servers))
     = Some "/home/user/.claude.json".
Proof.
  split; [reflexivity |].
  destruct (proj2 (proj2 (all_servers_agree_with_detection
                            (Samples.claude_json Cases.other_servers)))
              "task-master-ai not found in configured MCP servers"
              (Some "/home/user/.claude.json") [ "github"; "local:db" ] eq_refl)
    as (Hc & Hp & _).
  split; [exact Hc | exact Hp].
Defined.

(** ** PRD file names *)

Lemma extension_cases (s : string) :
  Prd.extension s = true <-> s = ".txt" \/ s = ".md".
Proof.
  unfold Prd.extension. rewrite orb_true_iff, !String.eqb_eq. reflexivity.
Qed.

Lemma after_name_unfold (s : string) :
  Prd.after_name s
  = (Prd.extension s
     || match s with
        | EmptyString => false
        | String c rest => Prd.name_char c && Prd.after_name rest
        end).
Proof. destruct s; reflexivity. Qed.

Lemma after_name_spec (s : string) :
  Prd.after_name s = true
  <-> exists stem ext,
        s = stem +:+ ext /\ Shapes.all_chars Prd.name_char stem = true
        /\ (ext = ".txt" \/ ext = ".md").
Proof.
  split.
  - induction s as [| c rest IH]; rewrite after_name_unfold; intros H;
      apply orb_prop in H as [H | H].
    + exists "", "". apply extension_cases in H. destruct H; discriminate.
    + discriminate.
    + exists "", (String c rest). split; [reflexivity |]. split; [reflexivity |].
      apply extension_cases, H.
    + apply andb_prop in H as [Hc Hrest].
      destruct (IH Hrest) as (stem & ext & -> & Hstem & Hext).
      exists (String c stem), ext. split; [reflexivity |]. split; [| exact Hext].
      simpl. rewrite Hc. exact Hstem.
  - intros (stem & ext & -> & Hstem & Hext). induction stem as [| c stem IH].
    + rewrite append_nil, after_name_unfold. apply orb_true_iff. left.
      apply extension_cases, Hext.
    + simpl in Hstem. apply andb_prop in Hstem as [Hc Hstem].
      rewrite append_cons, after_name_unfold. apply orb_true_iff. right.
      rewrite Hc. exact (IH Hstem).
Qed.

Lemma valid_name_spec (s : string) :
  Prd.valid_name s = true <-> Shapes.prd_name s.
Proof.
  unfold Shapes.prd_name. split.
  - destruct s as [| c rest]; [discriminate |]. simpl. intros H.
    apply andb_prop in H as [Hc Hrest].
    apply after_name_spec in Hrest as (stem & ext & -> & Hstem & Hext).
    exists (String c stem), ext. split; [reflexivity |]. split; [discriminate |].
    split; [| exact Hext]. simpl. rewrite Hc. exact Hstem.
  - intros (stem & ext & -> & Hne & Hstem & Hext).
    destruct stem as [| c stem]; [contradiction |].
    simpl in Hstem. apply andb_prop in Hstem as [Hc Hstem].
    rewrite append_cons. simpl. rewrite Hc. apply after_name_spec. eauto.
Qed.

Lemma all_chars_append (p : ascii -> bool) (s1 s2 : string) :
  Shapes.all_chars p (s1 +:+ s2) = Shapes.all_chars p s1 && Shapes.all_chars p s2.
Proof.
  induction s1 as [| c s1 IH]; [rewrite append_nil; reflexivity |].
  rewrite append_cons. simpl. rewrite IH, andb_assoc. reflexivity.
Qed.

Lemma valid_name_chars (s : string) :
  Prd.valid_name s = true -> Shapes.all_chars Prd.name_char s = true.
Proof.
  intros H. apply valid_name_spec in H as (stem & ext & -> & _ & Hstem & Hext).
  rewrite all_chars_append, Hstem. destruct Hext as [-> | ->]; reflexivity.
Qed.

Lemma all_chars_no_char (p : ascii -> bool) (x : ascii) (s : string) :
  p x = false -> Shapes.all_chars p s = true -> Rules.no_char x s = true.
Proof.
  intros Hx. induction s as [| c s IH]; [reflexivity |]. simpl. intros H.
  apply andb_prop in H as [Hc Hs]. rewrite (IH Hs), andb_true_r.
  apply negb_true_iff. destruct (Ascii.eqb c x) eqn:E; [| reflexivity].
  apply Ascii.eqb_eq in E. congruence.
Qed.

Lemma endsWith_append (stem ext : string) : Text.endsWith (stem +:+ ext) ext = true.
Proof.
  induction stem as [| c stem IH].
  - rewrite append_nil. destruct ext; simpl; rewrite ?Ascii.eqb_refl, ?String.eqb_refl;
      reflexivity.
  - rewrite append_cons. simpl. rewrite IH. apply orb_true_r.
Qed.

Lemma valid_name_listed (s : string) :
  Prd.valid_name s = true -> Prd.listed true s = true.
Proof.
  intros H. apply valid_name_spec in H as (stem & ext & -> & _ & _ & Hext).
  unfold Prd.listed. simpl. destruct Hext as [-> | ->]; rewrite endsWith_append;
    [reflexivity | apply orb_true_r].
Qed.

Lemma length_append (s1 s2 : string) :
  String.length (s1 +:+ s2) = (String.length s1 + String.length s2)%nat.
Proof.
  induction s1 as [| c s1 IH]; [rewrite append_nil; reflexivity |].
  rewrite append_cons. simpl. rewrite IH. reflexivity.
Qed.

(** X11.  The file-name check of [POST /prd/:projectName] accepts
    exactly the names made of one or more letters, digits, underscores,
    dashes, dots and spaces followed by [.txt] or [.md].  An accepted
    name holds no slash, no backslash, no line feed and no NUL character,
    has at least four characters, and is a name that
    [GET /prd/:projectName] lists when it is a file of the docs
    directory. *)
Theorem prd_names_accepted (fileName : string) :
  (Prd.valid_name fileName = true <-> Shapes.prd_name fileName)
  /\ (Prd.valid_name fileName = true ->
      Shapes.all_chars Prd.name_char fileName = true
      /\ Rules.no_char "/"%char fileName = true
      /\ Rules.no_char "\"%char fileName = true
      /\ Rules.no_char "010"%char fileName = true
      /\ Rules.no_char "000"%char fileName = true
      /\ (4 <= String.length fileName)%nat
      /\ Prd.listed true fileName = true).
Proof.
  split; [apply valid_name_spec |]. intros H.
  pose proof (valid_name_chars fileName H) as Hc.
  split; [exact Hc |].
  repeat (split; [apply (all_chars_no_char Prd.name_char); [reflexivity | exact Hc] |]).
  split; [| exact (valid_name_listed fileName H)].
  apply valid_name_spec in H as (stem & ext & -> & Hne & _ & Hext).
  rewrite length_append. destruct stem as [| c stem]; [contradiction |].
  destruct Hext as [-> | ->]; simpl; lia.
Qed.

(** X11 on the name [release notes-v2.md]. *)
Lemma prd_names_accepted_witness :
  Prd.valid_name "release notes-v2.md" = true
  /\ Rules.no_char "/"%char "release notes-v2.md" = true
  /\ Prd.listed true "release notes-v2.md" = true.
Proof.
  split; [reflexivity |].
  destruct (proj2 (prd_names_accepted "release notes-v2.md") eq_refl)
    as (_ & Hs & _ & _ & _ & _ & Hl).
  split; [exact Hs | exact Hl].
Defined.

(** X12.  [POST /prd/:projectName] saves a file only when [fileName] is
    a string that passes the check, [content] is truthy, the project is
    found, and creating the directory and writing succeed; the type of
    [content] is not checked, it is handed to [writeFile] as it is.
    Under these conditions the file is saved under that name, and when
    [writeFile] refuses or fails instead, the answer is status 500 with
    'Failed to write PRD file'.  A non-empty name that fails the check
    is refused as an invalid file name whenever the content is truthy,
    before the project is looked up. *)
Theorem prd_saved_only_under_valid_name
    (body : json) (projectPath : Res string) (mkdir : Res unit)
    (write : json -> Res unit) :
  (forall name content,
      Prd.handler body projectPath mkdir write = Prd.Saved name content ->
      Rules.member body "fileName" = Some (JStr name)
      /\ Rules.member body "content" = Some content
      /\ Prd.valid_name name = true
      /\ truthy_json content = true
      /\ (exists path, projectPath = inr path)
      /\ mkdir = inr tt /\ write content = inr tt)
  /\ (forall name content path,
        Rules.member body "fileName" = Some (JStr name) ->
        Rules.member body "content" = Some content ->
        Prd.valid_name name = true -> truthy_json content = true ->
        projectPath = inr path -> mkdir = inr tt ->
        Prd.handler body projectPath mkdir write
        = match write content with
          | inr _ => Prd.Saved name content
          | inl e => Prd.WriteFailed500 e
          end)
  /\ (forall name,
        Rules.member body "fileName" = Some (JStr name) -> name <> "" ->
        truthy (Rules.member body "content") = true ->
        Prd.valid_name name = false ->
        Prd.handler body projectPath mkdir write = Prd.InvalidFilename400).
Proof.
  split; [| split].
  - intros name content' H. unfold Prd.handler in H.
    destruct (Rules.not_null body) eqn:Hnn; [| destruct body; discriminate].
    rewrite !(get_member body _ Hnn) in H.
    destruct (Rules.member body "fileName") as [fileName |]; [| discriminate H].
    destruct (Rules.member body "content") as [content |];
      [| simpl in H; destruct (truthy_json fileName); discriminate H].
    simpl truthy in H.
    destruct (truthy_json fileName) eqn:Htf; [| discriminate H].
    destruct (truthy_json content) eqn:Htc; [| discriminate H]. simpl in H.
    destruct fileName as [| | | name' | |]; try discriminate H.
    destruct (Prd.valid_name name') eqn:Hv; [| discriminate H]. simpl in H.
    destruct projectPath as [e | path]; [discriminate H |].
    destruct mkdir as [e | []]; [discriminate H |].
    destruct (write content) as [e | []] eqn:Hw; [discriminate H |].
    injection H as <- <-. repeat split; eauto.
  - intros name content path Hf Hc Hv Ht -> ->. unfold Prd.handler.
    assert (Hnn : Rules.not_null body = true) by (destruct body; try reflexivity; discriminate).
    rewrite !(get_member body _ Hnn), Hf, Hc.
    change (truthy (Some content)) with (truthy_json content). rewrite Ht.
    destruct name as [| c name]; [discriminate Hv |].
    change (truthy (Some (JStr (String c name)))) with true.
    cbn [negb orb]. rewrite Hv. reflexivity.
  - intros name Hf Hne Ht Hv. unfold Prd.handler.
    assert (Hnn : Rules.not_null body = true) by (destruct body; try reflexivity; discriminate).
    rewrite !(get_member body _ Hnn), Hf.
    destruct (Rules.member body "content") as [content |]; [| discriminate].
    simpl in Ht. simpl truthy. rewrite Ht.
    destruct name; [contradiction |]. simpl. simpl in Hv. rewrite Hv. reflexivity.
Qed.

(** X12 on a valid name, a name that leaves the docs directory, and a
    content that is a list, once on a file system that writes whatever
    it is given and once on one that refuses. *)
Lemma prd_saved_only_under_valid_name_witness :
  Prd.handler (JObj [("fileName", JStr "plan.md"); ("content", JStr "# Plan")])
    (inr "/home/demo") (inr tt) (fun _ => inr tt)
  = Prd.Saved "plan.md" (JStr "# Plan")
  /\ Prd.handler (JObj [("fileName", JStr "../plan.md"); ("content", JStr "# Plan")])
       (inr "/home/demo") (inr tt) (fun _ => inr tt)
     = Prd.InvalidFilename400
  /\ Prd.handler (JObj [("fileName", JStr "plan.md"); ("content", JArr [JStr "# Plan"])])
       (inr "/home/demo") (inr tt) (fun _ => inr tt)
     = Prd.Saved "plan.md" (JArr [JStr "# Plan"])
  /\ Prd.handler (JObj [("fileName", JStr "plan.md"); ("content", JArr [JStr "# Plan"])])
       (inr "/home/demo") (inr tt) (fun _ => inl (TypeError "ERR_INVALID_ARG_TYPE"))
     = Prd.WriteFailed500 (TypeError "ERR_INVALID_ARG_TYPE").
Proof.
  split; [| split; [| split]].
  - apply (proj1 (proj2 (prd_saved_only_under_valid_name
                           (JObj [("fileName", JStr "plan.md"); ("content", JStr "# Plan")])
                           (inr "/home/demo") (inr tt) (fun _ => inr tt)))
             "plan.md" (JStr "# Plan") "/home/demo");
      reflexivity.
  - apply (proj2 (proj2 (prd_saved_only_under_valid_name
                           (JObj [("fileName", JStr "../plan.md"); ("content", JStr "# Plan")])
                           (inr "/home/demo") (inr tt) (fun _ => inr tt)))
             "../plan.md");
      solve [reflexivity | discriminate].
  - apply (proj1 (proj2 (prd_saved_only_under_valid_name
                           (JObj [("fileName", JStr "plan.md");
                                  ("content", JArr [JStr "# Plan"])])
                           (inr "/home/demo") (inr tt) (fun _ => inr tt)))
             "plan.md" (JArr [JStr "# Plan"]) "/home/demo");
      reflexivity.
  - apply (proj1 (proj2 (prd_saved_only_under_valid_name
                           (JObj [("fileName", JStr "plan.md");
                                  ("content", JArr [JStr "# Plan"])])
                           (inr "/home/demo") (inr tt)
                           (fun _ => inl (TypeError "ERR_INVALID_ARG_TYPE"))))
             "plan.md" (JArr [JStr "# Plan"]) "/home/demo");
      reflexivity.
Defined.

(** ** The command line of an update *)




(** An update that names no field still runs [update-task], with an empty
    list of changes; a status sent together with a title is not passed
    on. *)
Example update_without_changes :
  Cli.update_task "7" (JObj []) (inr "/home/demo")
  = Cli.Spawned [ "task-master-ai"; "update-task"; "--id=7";
                  "--prompt=Update task with the following changes: " ]
  /\ Cli.update_task "7" (JObj [("status", JStr "done"); ("title", JStr "Ship")])
       (inr "/home/demo")
     = Cli.Spawned [ "task-master-ai"; "update-task"; "--id=7";
                     "--prompt=Update task with the following changes: title: "
                     +:+ Cli.quote +:+ "Ship" +:+ Cli.quote ].
Proof. split; reflexivity. Qed.

(** ** Broadcasts to the connected clients *)

Lemma forEach_client_app message clients i log :
  Broadcast.forEach_client message clients i log
  = (log ++ Broadcast.forEach_client message clients i [])%list.
Proof.
  revert i log. induction clients as [| c rest IH]; intros i log.
  - simpl. rewrite app_nil_r. reflexivity.
  - simpl. rewrite IH. rewrite (IH (S i) (if (Broadcast.readyState c =? 1)%N then _ else [])).
    destruct (Broadcast.readyState c =? 1)%N; [| reflexivity].
    destruct (Broadcast.send c); rewrite <- app_assoc; reflexivity.
Qed.

Lemma forEach_client_cons message c rest i :
  Broadcast.forEach_client message (c :: rest) i []
  = (Shapes.attempt message i c ++ Broadcast.forEach_client message rest (S i) [])%list.
Proof.
  simpl. rewrite forEach_client_app. unfold Shapes.attempt, Shapes.open.
  destruct (Broadcast.readyState c =? 1)%N; [| reflexivity].
  destruct (Broadcast.send c); reflexivity.
Qed.

Lemma lookup_shift {A} (c : A) (rest : list A) (i j : nat) :
  (i <= j)%nat ->
  (c :: rest) !! (j - i)%nat
  = if (j =? i)%nat then Some c else rest !! (j - S i)%nat.
Proof.
  intros Hij. destruct (j =? i)%nat eqn:E.
  - apply Nat.eqb_eq in E. subst j. rewrite Nat.sub_diag. reflexivity.
  - apply Nat.eqb_neq in E. replace (j - i)%nat with (S (j - S i)) by lia. reflexivity.
Qed.

Lemma forEach_client_sent message clients i j m :
  In (Broadcast.Sent j m) (Broadcast.forEach_client message clients i [])
  <-> m = message
      /\ exists c, (i <= j)%nat /\ clients !! (j - i)%nat = Some c
                   /\ Shapes.open c = true /\ Broadcast.send c = inr tt.
Proof.
  revert i. induction clients as [| c rest IH]; intros i.
  - simpl. split; [tauto |]. intros (_ & c & _ & H & _). discriminate.
  - rewrite forEach_client_cons, in_app_iff, IH. split.
    + intros [H | (-> & c' & Hle & Hl & Ho & Hs)].
      * unfold Shapes.attempt in H. destruct (Shapes.open c) eqn:Ho; [| contradiction].
        destruct (Broadcast.send c) as [e | []] eqn:Hs; destruct H as [H | []];
          [discriminate |]. injection H as <- <-. split; [reflexivity |].
        exists c. rewrite Nat.sub_diag. auto.
      * split; [reflexivity |]. exists c'. split; [lia |].
        rewrite lookup_shift by lia.
        assert ((j =? i)%nat = false) as -> by (apply Nat.eqb_neq; lia). auto.
    + intros (-> & c' & Hle & Hl & Ho & Hs). rewrite lookup_shift in Hl by exact Hle.
      destruct (j =? i)%nat eqn:E.
      * apply Nat.eqb_eq in E. subst j. injection Hl as ->. left.
        unfold Shapes.attempt. rewrite Ho, Hs. left. reflexivity.
      * apply Nat.eqb_neq in E. right. split; [reflexivity |].
        exists c'. split; [lia | auto].
Qed.

Lemma forEach_client_failed message clients i j e :
  In (Broadcast.SendFailed j e) (Broadcast.forEach_client message clients i [])
  <-> exists c, (i <= j)%nat /\ clients !! (j - i)%nat = Some c
                /\ Shapes.open c = true /\ Broadcast.send c = inl e.
Proof.
  revert i. induction clients as [| c rest IH]; intros i.
  - simpl. split; [tauto |]. intros (c & _ & H & _). discriminate.
  - rewrite forEach_client_cons, in_app_iff, IH. split.
    + intros [H | (c' & Hle & Hl & Ho & Hs)].
      * unfold Shapes.attempt in H. destruct (Shapes.open c) eqn:Ho; [| contradiction].
        destruct (Broadcast.send c) as [e' | []] eqn:Hs; destruct H as [H | []];
          [| discriminate]. injection H as <- <-.
        exists c. rewrite Nat.sub_diag. auto.
      * exists c'. split; [lia |]. rewrite lookup_shift by lia.
        assert ((j =? i)%nat = false) as -> by (apply Nat.eqb_neq; lia). auto.
    + intros (c' & Hle & Hl & Ho & Hs). rewrite lookup_shift in Hl by exact Hle.
      destruct (j =? i)%nat eqn:E.
      * apply Nat.eqb_eq in E. subst j. injection Hl as ->. left.
        unfold Shapes.attempt. rewrite Ho, Hs. left. reflexivity.
      * apply Nat.eqb_neq in E. right. exists c'. split; [lia | auto].
Qed.

Lemma forEach_client_length message clients i :
  length (Broadcast.forEach_client message clients i [])
  = length (List.filter Shapes.open clients)
  /\ forall text, ~ In (Broadcast.Warned text) (Broadcast.forEach_client message clients i []).
Proof.
  revert i. induction clients as [| c rest IH]; intros i; [split; [reflexivity | tauto] |].
  rewrite forEach_client_cons, length_app. destruct (IH (S i)) as [Hlen Hwarn].
  rewrite Hlen. unfold Shapes.attempt. simpl. split.
  - destruct (Shapes.open c); [| reflexivity]. destruct (Broadcast.send c); reflexivity.
  - intros text H. apply in_app_or in H as [H | H]; [| exact (Hwarn text H)].
    destruct (Shapes.open c); [| contradiction].
    destruct (Broadcast.send c); destruct H as [H | []]; discriminate.
Qed.

Lemma forEach_client_closed message clients i :
  Broadcast.forEach_client message clients i []
  = concat (imap (fun k => Shapes.attempt message (i + k)) clients).
Proof.
  revert i. induction clients as [| c rest IH]; intros i; [reflexivity |].
  rewrite forEach_client_cons, IH. simpl. rewrite Nat.add_0_r. f_equal. f_equal.
  apply imap_ext. intros k x _. simpl. f_equal. lia.
Qed.

Lemma forEach_client_delivered message clients :
  Shapes.delivered message clients (Broadcast.forEach_client message clients 0 []).
Proof.
  unfold Shapes.delivered. split; [exact (forEach_client_closed message clients 0) |].
  split; [apply forEach_client_length |].
  split; [| split; [| apply forEach_client_length]].
  - intros i m. rewrite forEach_client_sent, Nat.sub_0_r. split.
    + intros (-> & c & _ & H). eauto.
    + intros (-> & c & H). split; [reflexivity |]. exists c. split; [lia | exact H].
  - intros i e. rewrite forEach_client_failed, Nat.sub_0_r. split.
    + intros (c & _ & H). eauto.
    + intros (c & H). exists c. split; [lia | exact H].
Qed.

(** X14.  Each of the four broadcasts, given a server and, where it
    takes one, a non-empty name, reads the clock once and makes one
    attempt per open client, in the order of [wss.clients]: the message,
    with its type, its arguments and the timestamp, is sent to every
    client whose [readyState] is 1; a [send] that throws is logged and
    does not keep the later clients from being served; the other clients
    are passed over and nothing is warned.  Without a server or with an
    empty project name, the project and tasks broadcasts warn once, send
    nothing and do not read the clock. *)
Theorem broadcast_reaches_every_open_client
    (clients : list Broadcast.Client) (clk : Clock) (n : nat) :
  (forall projectName taskMasterData,
      projectName <> "" ->
      exists events,
        Broadcast.broadcastTaskMasterProjectUpdate (Some clients) projectName taskMasterData
          clk n = (events, S n)
        /\ Shapes.delivered
             [ ("type", Some (JStr "taskmaster-project-updated"));
               ("projectName", Some (JStr projectName));
               ("taskMasterData", taskMasterData);
               ("timestamp", Some (JStr (clk n))) ] clients events)
  /\ (forall projectName tasksData,
        projectName <> "" ->
        exists events,
          Broadcast.broadcastTaskMasterTasksUpdate (Some clients) projectName tasksData clk n
          = (events, S n)
          /\ Shapes.delivered
               [ ("type", Some (JStr "taskmaster-tasks-updated"));
                 ("projectName", Some (JStr projectName));
                 ("tasksData", tasksData);
                 ("timestamp", Some (JStr (clk n))) ] clients events)
  /\ (forall mcpStatus,
        exists events,
          Broadcast.broadcastMCPStatusChange (Some clients) mcpStatus clk n = (events, S n)
          /\ Shapes.delivered
               [ ("type", Some (JStr "taskmaster-mcp-status-changed"));
                 ("mcpStatus", mcpStatus);
                 ("timestamp", Some (JStr (clk n))) ] clients events)
  /\ (forall updateType data,
        updateType <> "" ->
        exists events,
          Broadcast.broadcastTaskMasterUpdate (Some clients) updateType (Some data) clk n
          = (events, S n)
          /\ Shapes.delivered
               [ ("type", Some (JStr "taskmaster-update"));
                 ("updateType", Some (JStr updateType));
                 ("data", Some data);
                 ("timestamp", Some (JStr (clk n))) ] clients events)
  /\ (forall wss name data,
        wss = None \/ name = "" ->
        exists text,
          Broadcast.broadcastTaskMasterProjectUpdate wss name data clk n
          = ([Broadcast.Warned text], n)
          /\ Broadcast.broadcastTaskMasterTasksUpdate wss name data clk n
             = ([Broadcast.Warned text], n)).
Proof.
  split; [| split; [| split; [| split]]].
  - intros projectName data Hne. unfold Broadcast.broadcastTaskMasterProjectUpdate.
    apply String.eqb_neq in Hne. rewrite Hne.
    eexists. split; [reflexivity | apply forEach_client_delivered].
  - intros projectName data Hne. unfold Broadcast.broadcastTaskMasterTasksUpdate.
    apply String.eqb_neq in Hne. rewrite Hne.
    eexists. split; [reflexivity | apply forEach_client_delivered].
  - intros mcpStatus. eexists. split; [reflexivity | apply forEach_client_delivered].
  - intros updateType data Hne. unfold Broadcast.broadcastTaskMasterUpdate.
    apply String.eqb_neq in Hne. rewrite Hne.
    eexists. split; [reflexivity | apply forEach_client_delivered].
  - intros wss name data [-> | ->]; [eexists; split; reflexivity |].
    destruct wss; eexists; split; reflexivity.
Qed.

(** X14 on an open client, a closed client and an open client whose
    [send] throws. *)
Lemma broadcast_reaches_every_open_client_witness :
  exists events,
    Broadcast.broadcastTaskMasterTasksUpdate (Some Cases.three_clients) "demo" None
      Samples.clock_a 0
    = (events, 1%nat)
    /\ length events = 2%nat
    /\ ~ In (Broadcast.Sent 1 [ ("type", Some (JStr "taskmaster-tasks-updated"));
                                ("projectName", Some (JStr "demo"));
                                ("tasksData", None);
                                ("timestamp", Some (JStr (Samples.clock_a 0%nat))) ]) events
    /\ In (Broadcast.SendFailed 2 (IOError "EPIPE")) events.
Proof.
  destruct (proj1 (proj2 (broadcast_reaches_every_open_client Cases.three_clients
                            Samples.clock_a 0))
              "demo" None ltac:(discriminate))
    as (events & E & _ & Hlen & Hsent & Hfailed & _).
  exists events. split; [exact E |]. split; [exact Hlen |]. split.
  - intros H. apply Hsent in H. destruct H as (_ & c & Hc & Ho & _).
    injection Hc as <-. discriminate Ho.
  - apply Hfailed. eexists. split; [reflexivity |]. split; reflexivity.
Defined.

(** ** The status line *)

Lemma detectTaskMasterFolder_directory (f : Detect.Folder) :
  Detect.taskmaster_stat f = Detect.IsDirectory ->
  Detect.detectTaskMasterFolder f
  = Detect.Present (Detect.readable f "tasks/tasks.json")
      [ ("tasks/tasks.json", Detect.readable f "tasks/tasks.json");
        ("config.json", Detect.readable f "config.json") ]
      (if Detect.readable f "tasks/tasks.json"
       then Some (Detect.taskMetadata_of (Detect.tasks_json f) (Detect.tasks_json_mtime f))
       else None)
      (Detect.taskMasterPath f).
Proof.
  intros H. unfold Detect.detectTaskMasterFolder, Detect.keyFiles. rewrite H. simpl.
  destruct (Detect.readable f "tasks/tasks.json"), (Detect.readable f "config.json");
    reflexivity.
Qed.

Lemma detectTaskMasterFolder_absent (f : Detect.Folder) :
  Detect.taskmaster_stat f <> Detect.IsDirectory ->
  exists reason, Detect.detectTaskMasterFolder f = Detect.Absent reason.
Proof.
  intros H. unfold Detect.detectTaskMasterFolder.
  destruct (Detect.taskmaster_stat f); try contradiction; eauto.
Qed.

(** X15.  The status of [/detect/:projectName], [hasTaskmaster] and
    [hasEssentialFiles] depend on the project folder only through whether
    [.taskmaster] is a directory and whether [tasks/tasks.json] is
    readable: two folders that agree on both get the same three answers,
    whatever tasks.json contains and whether or not it parses. *)
Theorem status_ignores_file_contents (f1 f2 : Detect.Folder) (mcp : Mcp.Result) :
  (Detect.taskmaster_stat f1 = Detect.IsDirectory
   <-> Detect.taskmaster_stat f2 = Detect.IsDirectory) ->
  Detect.readable f1 "tasks/tasks.json" = Detect.readable f2 "tasks/tasks.json" ->
  Detect.detect_status (Detect.detectTaskMasterFolder f1) mcp
  = Detect.detect_status (Detect.detectTaskMasterFolder f2) mcp
  /\ Detect.hasTaskmaster (Detect.detectTaskMasterFolder f1)
     = Detect.hasTaskmaster (Detect.detectTaskMasterFolder f2)
  /\ Detect.hasEssentialFiles_of (Detect.detectTaskMasterFolder f1)
     = Detect.hasEssentialFiles_of (Detect.detectTaskMasterFolder f2).
Proof.
  intros Hdir Hread.
  destruct (Detect.taskmaster_stat f1) eqn:E1;
    try (assert (E2 : Detect.taskmaster_stat f2 <> Detect.IsDirectory)
           by (intros E2; apply Hdir in E2; discriminate);
         assert (E1' : Detect.taskmaster_stat f1 <> Detect.IsDirectory)
           by (rewrite E1; discriminate);
         destruct (detectTaskMasterFolder_absent f1 E1') as [r1 ->];
         destruct (detectTaskMasterFolder_absent f2 E2) as [r2 ->];
         repeat split; reflexivity).
  rewrite (detectTaskMasterFolder_directory f1 E1),
          (detectTaskMasterFolder_directory f2 (proj1 Hdir eq_refl)), Hread.
  repeat split; reflexivity.
Qed.

(** X15 on a folder whose tasks.json parses and one whose tasks.json does
    not. *)
Lemma status_ignores_file_contents_witness :
  Detect.readable (Cases.folder_with (inr Cases.legacy)) "tasks/tasks.json"
  = Detect.readable (Cases.folder_with (inl (SyntaxError "JSON"))) "tasks/tasks.json"
  /\ Detect.detect_status (Detect.detectTaskMasterFolder (Cases.folder_with (inr Cases.legacy)))
       Samples.mcp_found
     = Detect.detect_status
         (Detect.detectTaskMasterFolder (Cases.folder_with (inl (SyntaxError "JSON"))))
         Samples.mcp_found.
Proof.
  split; [reflexivity |].
  refine (proj1 (status_ignores_file_contents (Cases.folder_with (inr Cases.legacy))
                   (Cases.folder_with (inl (SyntaxError "JSON"))) Samples.mcp_found
                   _ eq_refl)).
  split; intros _; reflexivity.
Defined.



(** ** The banner *)

Lemma done_tasks_filter (tasks : list json) (done : list json) :
  Banner.done_tasks tasks = inr done ->
  done = List.filter Shapes.is_done tasks /\ forallb Rules.not_null tasks = true.
Proof.
  revert done. induction tasks as [| task rest IH]; intros done H.
  - injection H as <-. split; reflexivity.
  - simpl in H. destruct (Rules.not_null task) eqn:Hnn; [| destruct task; discriminate].
    rewrite (get_member task "status" Hnn) in H. simpl in H.
    destruct (Banner.done_tasks rest) as [e | more]; [discriminate |]. simpl in H.
    destruct (IH more eq_refl) as [-> Hrest]. injection H as <-.
    simpl. rewrite Hnn, Hrest. split; [| reflexivity].
    unfold Shapes.is_done. destruct (Rules.member task "status"); reflexivity.
Qed.

Lemma filter_all {A} (p : A -> bool) (l : list A) :
  length (List.filter p l) = length l <-> forallb p l = true.
Proof.
  induction l as [| x l IH]; [simpl; tauto |]. simpl.
  pose proof (filter_length_le p l) as Hle.
  destruct (p x); simpl.
  - rewrite <- IH. split; intros H; lia.
  - split; [intros H; lia | discriminate].
Qed.

(** X17.  The banner of [NextTaskBanner] for a selected project that
    is not loading.  It shows the invitation to set TaskMaster up exactly
    when the project has no TaskMaster folder and the task list is
    missing or empty.  When it reports completion there are tasks and no
    next task, [totalTasks] is the number of tasks, [completedTasks] the
    number of tasks whose status is ['done'], at most the total, and the
    text is 'All done!' exactly when every task is done. *)
Theorem banner_reports_completion
    (tasks : option (list json)) (hasTaskmaster : bool) (nextTask : value) :
  (Banner.content true false tasks hasTaskmaster nextTask = inr Banner.Setup
   <-> hasTaskmaster = false /\ (tasks = None \/ tasks = Some []))
  /\ (forall text completedTasks totalTasks,
        Banner.content true false tasks hasTaskmaster nextTask
        = inr (Banner.Completion text completedTasks totalTasks) ->
        exists l,
          tasks = Some l /\ l <> [] /\ truthy nextTask = false
          /\ totalTasks = length l
          /\ completedTasks = length (List.filter Shapes.is_done l)
          /\ (completedTasks <= totalTasks)%nat
          /\ (text = Banner.AllDone <-> forallb Shapes.is_done l = true)).
Proof.
  unfold Banner.content. simpl negb. simpl orb. cbv iota. split.
  - assert (Hno : match tasks with
                  | Some l => (length l =? 0)%nat
                  | None => true
                  end = true <-> tasks = None \/ tasks = Some []).
    { destruct tasks as [[| task l] |]; simpl; split; auto;
        try discriminate; intros [H | H]; discriminate. }
    destruct (match tasks with Some l => (length l =? 0)%nat | None => true end
              && negb hasTaskmaster) eqn:E.
    + apply andb_prop in E as [E1 E2]. apply negb_true_iff in E2.
      split; [intros _ | reflexivity]. split; [exact E2 | apply Hno, E1].
    + split.
      * intros H. exfalso.
        destruct (first_truthy nextTask); [discriminate |].
        destruct tasks as [l |]; [| discriminate].
        destruct (0 <? length l)%nat; [| discriminate].
        destruct (Banner.done_tasks l); discriminate.
      * intros [-> H]. apply Hno in H. rewrite H in E. discriminate.
  - intros text completedTasks totalTasks.
    destruct tasks as [l |].
    + destruct (length l =? 0)%nat eqn:Hlen.
      * destruct l; [| discriminate]. simpl.
        destruct hasTaskmaster; simpl; [| discriminate].
        destruct (first_truthy nextTask); discriminate.
      * simpl andb. cbv iota. destruct (first_truthy nextTask) eqn:Hnext; [discriminate |].
        assert (Hpos : (0 <? length l)%nat = true)
          by (apply Nat.ltb_lt; apply Nat.eqb_neq in Hlen; lia).
        rewrite Hpos. destruct (Banner.done_tasks l) as [e | done] eqn:Ed; [discriminate |].
        simpl. intros [= <- <- <-].
        destruct (done_tasks_filter l done Ed) as [-> _].
        exists l. split; [reflexivity |]. split; [intros ->; discriminate |].
        split; [unfold truthy, first_truthy in *; destruct nextTask as [v |];
                [destruct (truthy_json v); [discriminate | reflexivity] | reflexivity] |].
        split; [reflexivity |]. split; [reflexivity |].
        split; [apply filter_length_le |].
        rewrite <- filter_all.
        destruct (length (List.filter Shapes.is_done l) =? length l)%nat eqn:E.
        -- apply Nat.eqb_eq in E. split; auto.
        -- apply Nat.eqb_neq in E. split; [discriminate | intros H; contradiction].
    + simpl. destruct hasTaskmaster; simpl; [| discriminate].
      destruct (first_truthy nextTask); discriminate.
Qed.

(** X17 on two tasks, one of them done. *)
Lemma banner_reports_completion_witness :
  Banner.content true false (Some Samples.done_and_pending) true None
  = inr (Banner.Completion Banner.NoPending 1 2)
  /\ exists l, Some Samples.done_and_pending = Some l
               /\ 1%nat = length (List.filter Shapes.is_done l).
Proof.
  split; [reflexivity |].
  destruct (proj2 (banner_reports_completion (Some Samples.done_and_pending) true None)
              Banner.NoPending 1%nat 2%nat eq_refl) as (l & El & _ & _ & _ & Hc & _).
  exists l. split; [exact El | exact Hc].
Defined.

(** ** A template applied with the form left empty *)

Lemma replace_members_blank (key content : string) :
  Rules.replace_members key "" content = Shapes.strip (Template.chars key) content.
Proof.
  induction content as [| c rest IH]; [reflexivity |]. simpl. rewrite IH.
  destruct (existsb (Ascii.eqb c) (Template.chars key)); [apply append_nil | reflexivity].
Qed.

Lemma strip_strip (A B : list ascii) (s : string) :
  Shapes.strip B (Shapes.strip A s) = Shapes.strip (A ++ B) s.
Proof.
  induction s as [| c rest IH]; [reflexivity |]. simpl. rewrite existsb_app.
  destruct (existsb (Ascii.eqb c) A); simpl; [exact IH |].
  destruct (existsb (Ascii.eqb c) B); rewrite IH; reflexivity.
Qed.

Lemma apply_customizations_blank (keys : list string) (content : string) :
  forallb Rules.plain_key keys = true ->
  Template.apply_customizations content (map (fun key => (key, "")) keys)
  = Done (Shapes.strip (Shapes.key_chars keys) content).
Proof.
  revert content. induction keys as [| key keys IH]; intros content Hk.
  - simpl. f_equal. induction content as [| c rest IHc]; [reflexivity |].
    simpl. rewrite <- IHc. reflexivity.
  - simpl in Hk. apply andb_prop in Hk as [Hkey Hkeys]. simpl map.
    cbn [Template.apply_customizations].
    rewrite (customize_replaces_characters content key "" Hkey eq_refl). cbn [obind].
    rewrite (IH _ Hkeys), replace_members_blank, strip_strip. reflexivity.
Qed.

Lemma strip_no_char (class : list ascii) (c : ascii) (s : string) :
  In c class -> Rules.no_char c (Shapes.strip class s) = true.
Proof.
  intros Hin. induction s as [| x rest IH]; [reflexivity |]. simpl.
  destruct (existsb (Ascii.eqb x) class) eqn:E; [exact IH |].
  simpl. rewrite IH, andb_true_r. apply negb_true_iff.
  destruct (Ascii.eqb x c) eqn:Exc; [| reflexivity].
  apply Ascii.eqb_eq in Exc. subst x.
  assert (existsb (Ascii.eqb c) class = true)
    by (apply existsb_exists; exists c; split; [exact Hin | apply Ascii.eqb_refl]).
  congruence.
Qed.

Lemma strip_length (class : list ascii) (s : string) :
  (String.length (Shapes.strip class s) <= String.length s)%nat.
Proof.
  induction s as [| c rest IH]; [reflexivity |]. simpl.
  destruct (existsb (Ascii.eqb c) class); simpl; lia.
Qed.

(** X18.  [POST /apply-template/:projectName] with customisations whose
    values are all empty, as the form of [handleSelectTemplate] starts
    out, and whose keys are plain: the file written is the template's
    content with every occurrence of every character of every key
    removed, so no character of a key is left in it, whether or not it
    stood inside a placeholder. *)
Theorem blank_values_strip_key_characters
    (templates : list Template.PrdTemplate) (template : Template.PrdTemplate)
    (path templateId fileName : string) (keys : list string) :
  templateId <> "" ->
  find (fun t => String.eqb (Template.tpl_id t) templateId) templates = Some template ->
  forallb Rules.plain_key keys = true ->
  let written := Shapes.strip (Shapes.key_chars keys) (Template.tpl_content template) in
  Template.apply_template templates (inr path) (Some templateId) (Some fileName)
    (Some (map (fun key => (key, "")) keys)) (inr tt)
  = Template.Written fileName written
  /\ (forall name c, In name keys -> In c (Template.chars name) ->
        Rules.no_char c written = true)
  /\ (String.length written <= String.length (Template.tpl_content template))%nat.
Proof.
  intros Hid Hfind Hplain written. split; [| split].
  - unfold Template.apply_template. apply String.eqb_neq in Hid. rewrite Hid, Hfind.
    rewrite (apply_customizations_blank _ _ Hplain). reflexivity.
  - intros name c Hname Hc. apply strip_no_char. unfold Shapes.key_chars.
    apply in_concat. exists (Template.chars name). split; [| exact Hc].
    apply in_map. exact Hname.
  - apply strip_length.
Qed.

(** X18 on the greeting template: the placeholders stay as empty brackets
    and the letters of their names are gone from the whole text. *)
Lemma blank_values_strip_key_characters_witness :
  find (fun t => String.eqb (Template.tpl_id t) "greeting") Samples.greeting_templates
  = Some {| Template.tpl_id := "greeting"; Template.tpl_name := "Greeting";
            Template.tpl_content := "Hello [Name], welcome to [Project]! - [Name]" |}
  /\ forallb Rules.plain_key [ "Name"; "Project" ] = true
  /\ Template.apply_template Samples.greeting_templates (inr "/home/demo") (Some "greeting")
       (Some "prd.txt") (Some [ ("Name", ""); ("Project", "") ]) (inr tt)
     = Template.Written "prd.txt" "Hll [], wl  []! - []".
Proof.
  split; [reflexivity |]. split; [reflexivity |].
  exact (proj1 (blank_values_strip_key_characters Samples.greeting_templates
                  {| Template.tpl_id := "greeting"; Template.tpl_name := "Greeting";
                     Template.tpl_content := "Hello [Name], welcome to [Project]! - [Name]" |}
                  "/home/demo" "greeting" "prd.txt" [ "Name"; "Project" ]
                  ltac:(discriminate) eq_refl eq_refl)).
Defined.

(** ** The initial customisations of the form *)

Lemma update_own_fst (key value : string) (o : Template.Obj) :
  map fst (Template.update_own key value o) = map fst o.
Proof.
  induction o as [| [k v] rest IH]; [reflexivity |]. simpl.
  destruct (String.eqb k key); simpl; [reflexivity | rewrite IH; reflexivity].
Qed.

Lemma update_own_blank (key : string) (o : Template.Obj) :
  List.Forall (fun kv => snd kv = "") o ->
  List.Forall (fun kv => snd kv = "") (Template.update_own key "" o).
Proof.
  induction 1 as [| [k v] rest Hv Hrest IH]; [constructor |]. simpl.
  destruct (String.eqb k key); constructor; auto.
Qed.

Lemma insert_index_In (n : N) (key value : string) (o : Template.Obj) (kv : string * string) :
  In kv (Template.insert_index n key value o) <-> (key, value) = kv \/ In kv o.
Proof.
  induction o as [| [k v] rest IH]; simpl; [tauto |].
  destruct (Template.array_index k) as [m |]; [| simpl; tauto].
  destruct (m <? n)%N; simpl; [rewrite IH |]; tauto.
Qed.

Lemma Obj_set_In (o : Template.Obj) (key : string) (kv : string * string) :
  List.Forall (fun kv => snd kv = "") o ->
  In kv (Template.Obj_set o key "") ->
  In kv o \/ (kv = (key, "") /\ key <> "__proto__").
Proof.
  intros Ho. unfold Template.Obj_set.
  destruct (String.eqb key "__proto__") eqn:Ep; [tauto |].
  apply String.eqb_neq in Ep.
  destruct (Template.has_own o key) eqn:Eh.
  - intros Hin. left. revert Hin. induction Ho as [| [k v] rest Hv _ IH]; [tauto |].
    simpl in Eh |- *. simpl in Hv. subst v.
    destruct (String.eqb k key) eqn:Ek; simpl in Eh |- *; [tauto |].
    intros [H | H]; [tauto | right; exact (IH Eh H)].
  - destruct (Template.array_index key) as [n |].
    + rewrite insert_index_In. intros [<- | H]; [right | left]; auto.
    + rewrite in_app_iff. simpl. intros [H | [<- | []]]; [left | right]; auto.
Qed.

Lemma Obj_set_keys (o : Template.Obj) (key value k : string) :
  In k (map fst (Template.Obj_set o key value))
  <-> In k (map fst o) \/ (k = key /\ key <> "__proto__").
Proof.
  unfold Template.Obj_set.
  destruct (String.eqb key "__proto__") eqn:Ep.
  - apply String.eqb_eq in Ep. tauto.
  - apply String.eqb_neq in Ep.
    destruct (Template.has_own o key) eqn:Eh.
    + rewrite update_own_fst. split; [tauto |]. intros [H | [-> _]]; [exact H |].
      unfold Template.has_own in Eh. apply existsb_exists in Eh as ([k' v'] & Hin & E).
      apply String.eqb_eq in E. simpl in E. subst k'.
      apply in_map_iff. exists (key, v'). split; [reflexivity | exact Hin].
    + destruct (Template.array_index key) as [n |].
      * rewrite !in_map_iff. split.
        -- intros (kv & <- & Hin). apply insert_index_In in Hin as [<- | Hin];
             [right; split; [reflexivity | exact Ep] | left; exists kv; auto].
        -- intros [(kv & <- & Hin) | [-> _]].
           ++ exists kv. split; [reflexivity |]. apply insert_index_In. tauto.
           ++ exists (key, value). split; [reflexivity |]. apply insert_index_In. tauto.
      * rewrite map_app, in_app_iff. simpl. split.
        -- intros [H | [<- | []]]; [left | right]; auto.
        -- intros [H | [-> _]]; [left | right; left]; auto.
Qed.

Lemma Obj_set_blank (o : Template.Obj) (key : string) :
  List.Forall (fun kv => snd kv = "") o ->
  List.Forall (fun kv => snd kv = "") (Template.Obj_set o key "").
Proof.
  intros Ho. apply List.Forall_forall. intros kv Hin.
  destruct (Obj_set_In o key kv Ho Hin) as [H | [-> _]]; [| reflexivity].
  rewrite List.Forall_forall in Ho. exact (Ho kv H).
Qed.

Lemma fold_Obj_set_blank (names : list string) (o : Template.Obj) :
  List.Forall (fun kv => snd kv = "") o ->
  List.Forall (fun kv => snd kv = "")
    (fold_left (fun o placeholder => Template.Obj_set o placeholder "") names o)
  /\ forall k,
       In k (map fst (fold_left (fun o placeholder => Template.Obj_set o placeholder "")
                                names o))
       <-> In k (map fst o) \/ (In k names /\ k <> "__proto__").
Proof.
  revert o. induction names as [| name names IH]; intros o Ho; simpl.
  - split; [exact Ho |]. tauto.
  - destruct (IH _ (Obj_set_blank o name Ho)) as [Hb Hk]. split; [exact Hb |].
    intros k. rewrite Hk, Obj_set_keys. split.
    + intros [[H | [-> H]] | [H1 H2]]; auto.
    + intros [H | [[<- | H1] H2]]; auto.
Qed.

(** The object built by [handleSelectTemplate] holds the empty string
    under every placeholder of the template except [__proto__], and
    nothing else. *)
Lemma initialCustomizations_blank (content : string) :
  Template.initialCustomizations content
  = map (fun key => (key, "")) (map fst (Template.initialCustomizations content))
  /\ forall k,
       In k (map fst (Template.initialCustomizations content))
       <-> In k (Template.uniquePlaceholders content) /\ k <> "__proto__".
Proof.
  destruct (fold_Obj_set_blank (Template.uniquePlaceholders content) [] (List.Forall_nil _))
    as [Hb Hk].
  fold (Template.initialCustomizations content) in Hb, Hk. split.
  - clear Hk. revert Hb. generalize (Template.initialCustomizations content).
    induction 1 as [| [k v] rest Hv _ IH]; [reflexivity |].
    simpl in Hv. subst v. simpl. rewrite <- IH. reflexivity.
  - intros k. rewrite Hk. simpl. tauto.
Qed.

(** Array indices are enumerated first, in ascending order, and
    [__proto__] gets no member; the greeting's form lists its two
    placeholders in the order of their first occurrence. *)
Example initialCustomizations_enumeration :
  Template.initialCustomizations "[b] [10] [__proto__] [2] [a] [007] [b]"
  = [ ("2", ""); ("10", ""); ("b", ""); ("a", ""); ("007", "") ]
  /\ Template.initialCustomizations "Hello [Name], welcome to [Project]! - [Name]"
     = [ ("Name", ""); ("Project", "") ].
Proof. split; vm_compute; reflexivity. Qed.
